(** * Chip Warden: metadata parser, change detection and file manager

    A shallow embedding of [russ/gcode_parser.py] and [russ/file_manager.py].

    Text.  A Python [str] is a Stdlib [string]; a character stands for the
    code point of the same number, so the model covers every text whose code
    points lie below 256.  On that range the tables of [\w], [\d],
    [str.strip] and [str.lower] below are CPython's.  The three pictographs
    in the warning messages lie outside that range and are written as their
    UTF-8 bytes.

    Numbers.  A Python [int] is a [Z]; a length or a version number, which
    the code obtains from [len], is a [nat].  A modification time is a [Z]:
    the code only compares such times.

    Exceptions.  A function that can raise returns an [outcome] next to the
    state it leaves behind. *)

From Stdlib Require Import ZArith Lia Ascii String.
From stdpp Require Import base gmap strings list pretty sorting.

(* [naive_solver] clears hypotheses it has already consumed. *)
#[local] Set Warnings "-clear-no-such-hyp".


(** ** Python's [str] methods and the regular expressions of the source *)

Module Py.

Definition code (c : ascii) : N := N_of_ascii c.

Definition between (lo hi : N) (c : ascii) : bool :=
  ((lo <=? code c) && (code c <=? hi))%N.

(** [\d] and the digits [int] accepts. *)
Definition is_digit (c : ascii) : bool := between 48 57 c.

Definition digit_value (c : ascii) : Z := Z.of_N (code c) - 48.

(** The characters [str.strip()] removes. *)
Definition is_space (c : ascii) : bool :=
  between 9 13 c || between 28 32 c || (code c =? 133)%N || (code c =? 160)%N.

(** [str.isalnum]; [\w] is this or an underscore. *)
Definition is_alnum (c : ascii) : bool :=
  between 48 57 c || between 65 90 c || between 97 122 c
  || (code c =? 170)%N || between 178 179 c || (code c =? 181)%N
  || between 185 186 c || between 188 190 c
  || between 192 214 c || between 216 246 c || between 248 255 c.

Definition is_word (c : ascii) : bool := is_alnum c || Ascii.eqb c "_".

Definition lower_char (c : ascii) : ascii :=
  if between 65 90 c || between 192 214 c || between 216 222 c
  then ascii_of_N (code c + 32) else c.

Fixpoint smap (f : ascii → ascii) (s : string) : string :=
  match s with
  | EmptyString => EmptyString
  | String c r => String (f c) (smap f r)
  end.

(** [s.lower()] *)
Definition lower (s : string) : string := smap lower_char s.

(** [s.replace(a, b)] for single characters. *)
Definition replace_char (a b : ascii) (s : string) : string :=
  smap (λ c, if Ascii.eqb c a then b else c) s.

Fixpoint lstrip_by (p : ascii → bool) (s : string) : string :=
  match s with
  | EmptyString => EmptyString
  | String c r => if p c then lstrip_by p r else s
  end.

Fixpoint rstrip_by (p : ascii → bool) (s : string) : string :=
  match s with
  | EmptyString => EmptyString
  | String c r =>
      match rstrip_by p r with
      | EmptyString => if p c then EmptyString else String c EmptyString
      | r' => String c r'
      end
  end.

Definition strip_by (p : ascii → bool) (s : string) : string :=
  rstrip_by p (lstrip_by p s).

(** [s.strip()] and [s.strip('_')] *)
Definition strip (s : string) : string := strip_by is_space s.
Definition strip_chars (c : ascii) (s : string) : string :=
  strip_by (λ x, Ascii.eqb x c) s.

(** [s.startswith(p)] *)
Definition startswith (p s : string) : bool := String.prefix p s.

(** [sub in s] *)
Fixpoint contains (sub s : string) : bool :=
  String.prefix sub s ||
  match s with
  | EmptyString => false
  | String _ r => contains sub r
  end.

Fixpoint sdrop (n : nat) (s : string) : string :=
  match n, s with
  | S n', String _ r => sdrop n' r
  | _, _ => s
  end.

(** The text before and after the first occurrence of [sep], if any. *)
Fixpoint split_once (sep s : string) : option (string * string) :=
  if String.prefix sep s then Some (EmptyString, sdrop (String.length sep) s)
  else match s with
       | EmptyString => None
       | String c r =>
           match split_once sep r with
           | Some (a, b) => Some (String c a, b)
           | None => None
           end
       end.

(** [s.split(sep)[0]] *)
Definition before_first (sep s : string) : string :=
  match split_once sep s with
  | Some (a, _) => a
  | None => s
  end.

(** [s.split(c)] for a single character [c]. *)
Fixpoint split_char (sep : ascii) (s : string) : list string :=
  match s with
  | EmptyString => [EmptyString]
  | String c r =>
      if Ascii.eqb c sep then EmptyString :: split_char sep r
      else match split_char sep r with
           | [] => [String c EmptyString]
           | l :: ls => String c l :: ls
           end
  end.

(** The longest prefix whose characters satisfy [p], and the rest. *)
Fixpoint span (p : ascii → bool) (s : string) : string * string :=
  match s with
  | EmptyString => (EmptyString, EmptyString)
  | String c r =>
      if p c then let '(a, b) := span p r in (String c a, b)
      else (EmptyString, s)
  end.

(** CPython's default [sys.int_info.default_max_str_digits]: [int] refuses a
    text with more digits. *)
Definition max_str_digits : nat := 4300.

(** The digits of an [int] literal: digit (["_"] digit)*.  Returns the
    value and the number of digits read. *)
Fixpoint int_digits (prev_digit : bool) (acc : Z) (cnt : nat) (s : string)
  : option (Z * nat) :=
  match s with
  | EmptyString => if prev_digit then Some (acc, cnt) else None
  | String c r =>
      if is_digit c then int_digits true (10 * acc + digit_value c) (S cnt) r
      else if Ascii.eqb c "_" && prev_digit then int_digits false acc cnt r
      else None
  end.

(** The characters [int] skips at both ends of its argument: those of
    [str.strip()] without the four separators 28 to 31. *)
Definition is_int_space (c : ascii) : bool :=
  between 9 13 c || (code c =? 32)%N || (code c =? 133)%N || (code c =? 160)%N.

(** [int(s)] for a [str]; [None] stands for [ValueError]. *)
Definition int (s : string) : option Z :=
  let s := strip_by is_int_space s in
  let '(neg, body) :=
    match s with
    | String "-" r => (true, r)
    | String "+" r => (false, r)
    | _ => (false, s)
    end in
  match int_digits false 0 0 body with
  | Some (v, cnt) =>
      if decide (cnt ≤ max_str_digits)%nat
      then Some (if neg : bool then - v else v)%Z
      else None
  | None => None
  end.

(** [re.match(r'O(\d+)', line)]: group 1. *)
Definition match_program_number (line : string) : option string :=
  match line with
  | String "O" r =>
      match span is_digit r with
      | (EmptyString, _) => None
      | (ds, _) => Some ds
      end
  | _ => None
  end.

(** [re.search(r'\(([^)]+)\)', line)]: group 1 of the leftmost match.  At an
    opening parenthesis the greedy class takes every character up to the
    next closing one; giving characters back cannot help, since none of
    them is a closing parenthesis. *)
Fixpoint search_comment (line : string) : option string :=
  match line with
  | EmptyString => None
  | String c r =>
      if Ascii.eqb c "("
      then match span (λ x, negb (Ascii.eqb x ")")) r with
           | (String b body, String _ _) => Some (String b body)
           | _ => search_comment r
           end
      else search_comment r
  end.

(** [re.sub(r'[^\w\-]', '_', s)] *)
Definition sub_unsafe (s : string) : string :=
  smap (λ c, if is_word c || Ascii.eqb c "-" then c else "_"%char) s.

(** [re.sub(r'_+', '_', s)]: every maximal run of underscores, scanned
    from the left, is replaced by one underscore.  [in_run] tells that the
    previous character was an underscore, whose run has been replaced. *)
Fixpoint sub_underscores_from (in_run : bool) (s : string) : string :=
  match s with
  | EmptyString => EmptyString
  | String c r =>
      if Ascii.eqb c "_"
      then if in_run then sub_underscores_from true r
           else String "_" (sub_underscores_from true r)
      else String c (sub_underscores_from false r)
  end.

Definition sub_underscores (s : string) : string :=
  sub_underscores_from false s.

(** *** [datetime.strptime(s, "%Y-%m-%d-%H%M")]

    [_strptime] turns the format into a regular expression, matches it at
    the start of the text with [re.match], and raises [ValueError] when
    nothing matches or when text remains after the match.  A matcher
    below lists the ways a pattern can match, in the order the
    backtracking engine tries them; the first is the one [re.match]
    reports. *)

Definition matcher (A : Type) : Type := string → list (A * string).

Definition m_ret {A} (x : A) : matcher A := λ s, [(x, s)].

Definition m_bind {A B} (m : matcher A) (k : A → matcher B) : matcher B :=
  λ s, flat_map (λ '(x, r), k x r) (m s).

Definition m_alt {A} (m1 m2 : matcher A) : matcher A := λ s, m1 s ++ m2 s.

(** One character with code between [lo] and [hi], read as a digit. *)
Definition m_range (lo hi : ascii) : matcher nat :=
  λ s, match s with
       | String c r =>
           if between (code lo) (code hi) c
           then [(N.to_nat (code c - 48), r)] else []
       | EmptyString => []
       end.

Definition m_char (a : ascii) : matcher unit :=
  λ s, match s with
       | String c r => if Ascii.eqb c a then [(tt, r)] else []
       | EmptyString => []
       end.

Definition m_two (m1 m2 : matcher nat) : matcher nat :=
  m_bind m1 (λ x, m_bind m2 (λ y, m_ret (10 * x + y))).

Definition m_digit : matcher nat := m_range "0" "9".

(** [%Y]: [\d\d\d\d] *)
Definition m_year : matcher nat :=
  m_bind (m_two m_digit m_digit) (λ hi,
  m_bind (m_two m_digit m_digit) (λ lo, m_ret (100 * hi + lo))).

(** [%m]: [1[0-2]|0[1-9]|[1-9]] *)
Definition m_month : matcher nat :=
  m_alt (m_two (m_range "1" "1") (m_range "0" "2"))
 (m_alt (m_two (m_range "0" "0") (m_range "1" "9"))
        (m_range "1" "9")).

(** [%d]: [3[0-1]|[1-2]\d|0[1-9]|[1-9]| [1-9]] *)
Definition m_day : matcher nat :=
  m_alt (m_two (m_range "3" "3") (m_range "0" "1"))
 (m_alt (m_two (m_range "1" "2") m_digit)
 (m_alt (m_two (m_range "0" "0") (m_range "1" "9"))
 (m_alt (m_range "1" "9")
        (m_bind (m_char " ") (λ _, m_range "1" "9"))))).

(** [%H]: [2[0-3]|[0-1]\d|\d] *)
Definition m_hour : matcher nat :=
  m_alt (m_two (m_range "2" "2") (m_range "0" "3"))
 (m_alt (m_two (m_range "0" "1") m_digit)
        m_digit).

(** [%M]: [[0-5]\d|\d] *)
Definition m_minute : matcher nat :=
  m_alt (m_two (m_range "0" "5") m_digit) m_digit.

Record datetime := {
  dt_year : nat; dt_month : nat; dt_day : nat; dt_hour : nat; dt_minute : nat
}.

Definition m_format : matcher datetime :=
  m_bind m_year (λ y, m_bind (m_char "-") (λ _,
  m_bind m_month (λ m, m_bind (m_char "-") (λ _,
  m_bind m_day (λ d, m_bind (m_char "-") (λ _,
  m_bind m_hour (λ h,
  m_bind m_minute (λ mi,
  m_ret {| dt_year := y; dt_month := m; dt_day := d;
           dt_hour := h; dt_minute := mi |})))))))).

Definition is_leap (y : nat) : bool :=
  (y mod 4 =? 0)%nat && (negb (y mod 100 =? 0)%nat || (y mod 400 =? 0)%nat).

Definition days_in_month (y m : nat) : nat :=
  match m with
  | 2 => if is_leap y then 29 else 28
  | 4 | 6 | 9 | 11 => 30
  | _ => 31
  end%nat.

(** [None] stands for [ValueError]: no match, text left over, year 0, or a
    day the month does not have. *)
Definition strptime (s : string) : option datetime :=
  match m_format s with
  | (d, EmptyString) :: _ =>
      if (1 <=? dt_year d)%nat && (dt_day d <=? days_in_month (dt_year d) (dt_month d))%nat
      then Some d else None
  | _ => None
  end.

Definition pad2 (n : nat) : string :=
  if (n <? 10)%nat then "0" +:+ pretty n else pretty n.

Definition pad4 (n : nat) : string :=
  if (n <? 10)%nat then "000" +:+ pretty n
  else if (n <? 100)%nat then "00" +:+ pretty n
  else if (n <? 1000)%nat then "0" +:+ pretty n
  else pretty n.

(** [str(d)] for a [datetime] without seconds or time zone. *)
Definition str_datetime (d : datetime) : string :=
  pad4 (dt_year d) +:+ "-" +:+ pad2 (dt_month d) +:+ "-" +:+ pad2 (dt_day d)
  +:+ " " +:+ pad2 (dt_hour d) +:+ ":" +:+ pad2 (dt_minute d) +:+ ":00".

(** *** Text files *)

(** Reading in text mode: [\r\n] and a lone [\r] become [\n]. *)
Fixpoint universal_newlines (s : string) : string :=
  match s with
  | EmptyString => EmptyString
  | String c r =>
      if Ascii.eqb c "013"
      then String "010"
             match r with
             | String c' r' =>
                 if Ascii.eqb c' "010" then universal_newlines r'
                 else universal_newlines r
             | EmptyString => EmptyString
             end
      else String c (universal_newlines r)
  end.

(** [f.readlines()]: the lines, each with its newline; the last one may
    lack it. *)
Fixpoint readlines (s : string) : list string :=
  match s with
  | EmptyString => []
  | String c r =>
      if Ascii.eqb c "010" then String c EmptyString :: readlines r
      else match readlines r with
           | [] => [String c EmptyString]
           | l :: ls => String c l :: ls
           end
  end.

(** [''.join(lines)] *)
Definition join (lines : list string) : string :=
  foldr String.append EmptyString lines.

(** [l[k:]] for an [int] [k]: a negative [k] counts from the end. *)
Definition slice_from {A} (k : Z) (l : list A) : list A :=
  if (0 <=? k)%Z then drop (Z.to_nat k) l
  else drop (Z.to_nat (Z.of_nat (length l) + k)) l.

(** [stem_cut s] is [s[:i]] for the index [i] of the last dot of [s]. *)
Fixpoint stem_cut (s : string) : option string :=
  match s with
  | EmptyString => None
  | String c r =>
      match stem_cut r with
      | Some t => Some (String c t)
      | None => if Ascii.eqb c "." then Some EmptyString else None
      end
  end.

(** [PurePath.stem] of a file name, as CPython 3.11 computes it: the name
    without its last suffix; a leading or a trailing dot starts no suffix. *)
Definition stem (name : string) : string :=
  match stem_cut name with
  | Some t =>
      if (0 <? String.length t)%nat
         && (String.length t <? String.length name - 1)%nat
      then t else name
  | None => name
  end.

(** [list.sort(key=..., reverse=True)]: a stable sort, largest key first;
    entries with equal keys keep their order. *)
Fixpoint insert_desc {A} (key : A → Z) (x : A) (l : list A) : list A :=
  match l with
  | [] => [x]
  | y :: l' =>
      if (key x <? key y)%Z then y :: insert_desc key x l' else x :: l
  end.

Definition sort_desc {A} (key : A → Z) (l : list A) : list A :=
  foldr (insert_desc key) [] l.

(** [s.endswith(p)] *)
Fixpoint endswith (p s : string) : bool :=
  String.eqb s p ||
  match s with
  | EmptyString => false
  | String _ r => endswith p r
  end.

End Py.

(** ** [gcode_parser.py] *)

Module GCodeParser.

(** [GCodeMetadata] *)
Record GCodeMetadata := {
  project : string;
  part : string;
  posted_timestamp : string;
  operations : Z;
  tool_count : Z;
  machine : string;
  setup : string;
  program_number : option string
}.

(** The property [posted_datetime], lines 24-30. *)
Definition posted_datetime (m : GCodeMetadata) : option Py.datetime :=
  Py.strptime (posted_timestamp m).

Definition METADATA_START : string := "CHIP-WARDEN-START".
Definition METADATA_END : string := "CHIP-WARDEN-END".

(** The loop variables of [parse_content]. *)
Record scan_state := {
  in_metadata : bool;
  metadata : gmap string string;
  seen_program : option string
}.

Definition scan_init : scan_state :=
  {| in_metadata := false; metadata := ∅; seen_program := None |}.

(** Lines 100-103: the first line that opens with [O] and digits. *)
Definition capture_program (line : string) (st : scan_state) : scan_state :=
  if Py.startswith "O" line && bool_decide (seen_program st = None)
  then match Py.match_program_number line with
       | Some n => {| in_metadata := in_metadata st;
                      metadata := metadata st;
                      seen_program := Some n |}
       | None => st
       end
  else st.

(** Lines 113-124: one line inside the block. *)
Definition parse_metadata_line (line : string) (md : gmap string string)
  : gmap string string :=
  match Py.search_comment line with
  | Some comment =>
      match Py.split_once ":" comment with
      | Some (key, value) =>
          let key := Py.replace_char "-" "_" (Py.lower (Py.strip key)) in
          let value := Py.strip value in
          <[key := value]> md
      | None => md
      end
  | None => md
  end.

(** The [for] loop of lines 96-124, with its [continue] and [break]. *)
Fixpoint scan (lines : list string) (st : scan_state) : scan_state :=
  match lines with
  | [] => st
  | raw :: rest =>
      let line := Py.strip raw in
      let st := capture_program line st in
      if Py.contains METADATA_START line
      then scan rest {| in_metadata := true;
                        metadata := metadata st;
                        seen_program := seen_program st |}
      else if Py.contains METADATA_END line then st
      else if in_metadata st
      then scan rest {| in_metadata := true;
                        metadata := parse_metadata_line line (metadata st);
                        seen_program := seen_program st |}
      else scan rest st
  end.

Definition scan_content (content : string) : scan_state :=
  scan (Py.split_char "010" content) scan_init.

Definition required_fields : list string := ["project"; "part"; "posted"].

(** [int(metadata.get(key, 0))] *)
Definition int_field (md : gmap string string) (key : string) : option Z :=
  match md !! key with
  | Some v => Py.int v
  | None => Some 0%Z
  end.

(** [parse_content]; [None] is Python's [None]. *)
Definition parse_content (content : string) : option GCodeMetadata :=
  let st := scan_content content in
  let md := metadata st in
  if negb (forallb (λ field, bool_decide (field ∈ dom md)) required_fields)
  then None
  else
    match int_field md "operations" with
    | None => None
    | Some ops =>
        match int_field md "tool_count" with
        | None => None
        | Some tools =>
            Some {| project := default "unknown" (md !! "project");
                    part := default "unknown" (md !! "part");
                    posted_timestamp := default "" (md !! "posted");
                    operations := ops;
                    tool_count := tools;
                    machine := default "unknown" (md !! "machine");
                    setup := default "unknown" (md !! "setup");
                    program_number := seen_program st |}
        end
    end.

(** A value stored in the [changes] dictionary. *)
Inductive value :=
| VInt (n : Z)
| VStr (s : string).

Record change := { old : value; new : value }.

(** The dictionary [compare_metadata] returns: its three keys. *)
Record comparison := {
  has_changes : bool;
  warnings : list string;
  changes : gmap string change
}.

Definition set_has_changes (c : comparison) : comparison :=
  {| has_changes := true; warnings := warnings c; changes := changes c |}.

Definition set_change (key : string) (o n : value) (c : comparison)
  : comparison :=
  {| has_changes := has_changes c;
     warnings := warnings c;
     changes := <[key := {| old := o; new := n |}]> (changes c) |}.

Definition append_warning (w : string) (c : comparison) : comparison :=
  {| has_changes := has_changes c;
     warnings := warnings c ++ [w];
     changes := changes c |}.

Definition tool_count_warning (o n : Z) : string :=
  "⚠️ Tool count changed significantly: " +:+ pretty o +:+ " → " +:+ pretty n.

Definition operations_warning (o n : Z) : string :=
  "ℹ️ Operation count changed: " +:+ pretty o +:+ " → " +:+ pretty n.

Definition machine_warning (o n : string) : string :=
  "⚠️ MACHINE CHANGED: " +:+ o +:+ " → " +:+ n +:+ " - Verify correct machine!".

(** Lines 165-175 *)
Definition check_tool_count (o n : GCodeMetadata) (c : comparison)
  : comparison :=
  if decide (tool_count o ≠ tool_count n) then
    let c := set_has_changes c in
    let c := set_change "tool_count"
               (VInt (tool_count o)) (VInt (tool_count n)) c in
    let diff := Z.abs (tool_count n - tool_count o) in
    if decide (diff >= 2)%Z
    then append_warning (tool_count_warning (tool_count o) (tool_count n)) c
    else c
  else c.

(** Lines 177-185 *)
Definition check_operations (o n : GCodeMetadata) (c : comparison)
  : comparison :=
  if decide (operations o ≠ operations n) then
    let c := set_has_changes c in
    let c := set_change "operations"
               (VInt (operations o)) (VInt (operations n)) c in
    append_warning (operations_warning (operations o) (operations n)) c
  else c.

(** Lines 187-195 *)
Definition check_machine (o n : GCodeMetadata) (c : comparison)
  : comparison :=
  if decide (machine o ≠ machine n) then
    let c := set_has_changes c in
    let c := set_change "machine" (VStr (machine o)) (VStr (machine n)) c in
    append_warning (machine_warning (machine o) (machine n)) c
  else c.

(** Lines 197-202 *)
Definition check_setup (o n : GCodeMetadata) (c : comparison) : comparison :=
  if decide (setup o ≠ setup n) then
    let c := set_has_changes c in
    set_change "setup" (VStr (setup o)) (VStr (setup n)) c
  else c.

Definition no_changes : comparison :=
  {| has_changes := false; warnings := []; changes := ∅ |}.

(** [compare_metadata(old, new)] *)
Definition compare_metadata (o n : GCodeMetadata) : comparison :=
  check_setup o n
    (check_machine o n
       (check_operations o n
          (check_tool_count o n no_changes))).

End GCodeParser.


(** ** [file_manager.py] *)

Module FileManager.
Import GCodeParser.

Definition nl : string := String "010" EmptyString.

(** The exceptions the file system raises. *)
Inductive exn := FileNotFoundError | PermissionError | ValueError.

Inductive outcome (A : Type) :=
| Ok (x : A)
| Raised (e : exn).
Arguments Ok {A} x.
Arguments Raised {A} e.

(** *** The parts archive

    A file of the archive has a text and a modification time.  A directory
    maps the names of its files to them; the archive maps the path of a
    directory, given by its components below [parts_archive], to the
    directory.  Version control is an external tool that writes below
    [.git] only; [_git_commit] is left out, and the model describes the
    calls that return. *)

Record file := { content : string; mtime : Z }.

Abbreviation directory := (gmap string file).
Abbreviation archive := (gmap (list string) (gmap string file)).

(** [path / name]; joining the empty name gives the path back. *)
Definition path_join (p : list string) (name : string) : list string :=
  if decide (name = "") then p else p ++ [name].

(** [path.mkdir(parents=True, exist_ok=True)] *)
Definition mkdir (p : list string) (a : archive) : archive :=
  match a !! p with
  | Some _ => a
  | None => <[p := ∅]> a
  end.

Definition listdir (a : archive) (p : list string) : directory :=
  default ∅ (a !! p).

Definition write_file (p : list string) (name : string) (f : file)
    (a : archive) : archive :=
  <[p := <[name := f]> (listdir a p)]> a.

(** [_sanitize_filename], lines 68-77 *)
Definition _sanitize_filename (name : string) : string :=
  let safe := Py.sub_unsafe name in
  let safe := Py.sub_underscores safe in
  let safe := Py.strip_chars "_" safe in
  Py.lower safe.

(** [get_project_dir], lines 52-58 *)
Definition get_project_dir (project_name : string) (a : archive)
  : archive * list string :=
  let safe_name := _sanitize_filename project_name in
  let project_dir := path_join [] safe_name in
  (mkdir project_dir a, project_dir).

(** [get_part_dir], lines 60-66 *)
Definition get_part_dir (project_name part_name : string) (a : archive)
  : archive * list string :=
  let '(a, project_dir) := get_project_dir project_name a in
  let safe_part := _sanitize_filename part_name in
  let part_dir := path_join project_dir safe_part in
  (mkdir part_dir a, part_dir).

(** [part_dir.glob("*.nc")] *)
Definition glob_nc (d : directory) : list (string * file) :=
  filter (λ e, Py.endswith ".nc" e.1) (map_to_list d).

(** [get_existing_versions], lines 79-90 *)
Definition get_existing_versions (project part : string) (a : archive)
  : archive * list (string * file) :=
  let '(a, part_dir) := get_part_dir project part a in
  let nc_files := glob_nc (listdir a part_dir) in
  (a, Py.sort_desc (λ e, mtime e.2) nc_files).

(** [get_next_version_number], lines 92-95 *)
Definition get_next_version_number (project part : string) (a : archive)
  : archive * nat :=
  let '(a, existing) := get_existing_versions project part a in
  (a, length existing + 1).

Definition changelog_header (m : GCodeMetadata) : string :=
  ("# " +:+ part m +:+ " - Change Log" +:+ nl +:+ nl)
  +:+ ("Project: " +:+ project m +:+ nl +:+ nl).

(** [metadata.posted_datetime or metadata.posted_timestamp], formatted. *)
Definition posted_text (m : GCodeMetadata) : string :=
  match posted_datetime m with
  | Some d => Py.str_datetime d
  | None => posted_timestamp m
  end.

Definition changelog_entry (m : GCodeMetadata) (version : nat) : string :=
  ("## Version " +:+ pretty version +:+ " - " +:+ posted_timestamp m
     +:+ nl +:+ nl)
  +:+ ("- **Setup:** " +:+ setup m +:+ nl)
  +:+ ("- **Machine:** " +:+ machine m +:+ nl)
  +:+ ("- **Operations:** " +:+ pretty (operations m) +:+ nl)
  +:+ ("- **Tools:** " +:+ pretty (tool_count m) +:+ nl)
  +:+ ("- **Posted:** " +:+ posted_text m +:+ nl +:+ nl).

(** Lines 149-158: what is kept of the changelog that is there. *)
Definition existing_content (d : directory) : string :=
  match d !! "CHANGELOG.md" with
  | Some f =>
      let lines := Py.readlines (Py.universal_newlines (content f)) in
      match lines with
      | l0 :: _ =>
          if Py.startswith "#" l0 then Py.join (drop 3 lines)
          else Py.join lines
      | [] => Py.join lines
      end
  | None => ""
  end.

(** [_update_changelog], lines 138-175; [now] is the time of the write. *)
Definition _update_changelog (part_dir : list string) (m : GCodeMetadata)
    (version : nat) (now : Z) (a : archive) : archive :=
  let d := listdir a part_dir in
  let header :=
    match d !! "CHANGELOG.md" with
    | None => changelog_header m
    | Some _ => ""
    end in
  let existing := existing_content d in
  let entry := changelog_entry m version in
  write_file part_dir "CHANGELOG.md"
    {| content := header +:+ entry +:+ existing; mtime := now |} a.

Definition version_filename (safe_part : string) (version : nat)
    (posted : string) : string :=
  safe_part +:+ "_v" +:+ pretty version +:+ "_" +:+ posted +:+ ".nc".

(** What [shutil.copy2] raises for a destination name.  The archive has no
    directory below a part directory, so a name with a separator points
    into a directory that does not exist; a null character is refused
    before the file system is asked.  A name over the limit of the file
    system is refused as well; the limit depends on the file system and is
    not modelled, so that [None] does not say that the copy is made. *)
Definition name_error (name : string) : option exn :=
  if Py.contains (String "000" EmptyString) name then Some ValueError
  else if Py.contains "/" name then Some FileNotFoundError
  else None.

(** [archive_gcode], lines 97-136.  [source] is the file at [source_file];
    [shutil.copy2] copies its text and its modification time.  The commit
    of lines 133-134 comes after the file and the changelog are written: a
    failure the tool reports is caught, and when the tool cannot be started
    the call raises with its writes done.  [Ok] is what a call that returns
    gives; [Raised] is a name refused before anything is written. *)
Definition archive_gcode (source : file) (m : GCodeMetadata) (now : Z)
    (a : archive) : archive * outcome (list string * string * nat) :=
  let '(a, part_dir) := get_part_dir (project m) (part m) a in
  let '(a, version) := get_next_version_number (project m) (part m) a in
  let safe_part := _sanitize_filename (part m) in
  let filename := version_filename safe_part version (posted_timestamp m) in
  match name_error filename with
  | Some e => (a, Raised e)
  | None =>
      let a := write_file part_dir filename source a in
      let a := _update_changelog part_dir m version now a in
      (a, Ok (part_dir, filename, version))
  end.

(** Archival calls one after the other, with what each returned. *)
Fixpoint archive_all (calls : list (file * GCodeMetadata * Z)) (a : archive)
  : archive * list (outcome (list string * string * nat)) :=
  match calls with
  | [] => (a, [])
  | (source, m, now) :: rest =>
      let '(a, r) := archive_gcode source m now a in
      let '(a, rs) := archive_all rest a in
      (a, r :: rs)
  end.

(** *** The FTP directory

    The listing of [ftp_dir], in the order the operating system gives it.
    [unlink_ok] tells whether the operating system lets the entry be
    removed. *)

Record ftp_file := { name : string; st_mtime : Z; unlink_ok : bool }.

(** [ftp_dir.glob("*.nc")] *)
Definition ftp_glob_nc (d : list ftp_file) : list ftp_file :=
  filter (λ f, Py.endswith ".nc" (name f)) d.

(** Line 254 *)
Definition part_key (f : ftp_file) : string :=
  Py.before_first "_v" (Py.stem (name f)).

(** [files_by_part[key].append(f)]: keys keep the order of their first
    insertion. *)
Fixpoint group_append (key : string) (f : ftp_file)
    (groups : list (string * list ftp_file)) : list (string * list ftp_file) :=
  match groups with
  | [] => [(key, [f])]
  | (k, fs) :: rest =>
      if decide (k = key) then (k, fs ++ [f]) :: rest
      else (k, fs) :: group_append key f rest
  end.

(** Lines 250-255 *)
Definition files_by_part (listing : list ftp_file)
  : list (string * list ftp_file) :=
  foldl (λ groups f, group_append (part_key f) f groups) [] listing.

(** [old_file.unlink()] *)
Definition unlink (f : ftp_file) (d : list ftp_file)
  : outcome (list ftp_file) :=
  match List.find (λ g, bool_decide (name g = name f)) d with
  | None => Raised FileNotFoundError
  | Some g =>
      if unlink_ok g
      then Ok (filter (λ g, name g ≠ name f) d)
      else Raised PermissionError
  end.

(** Lines 264-267: the inner loop.  An exception leaves the loop. *)
Fixpoint remove_files (old_files : list ftp_file) (d : list ftp_file)
    (removed_count : nat) : list ftp_file * outcome nat :=
  match old_files with
  | [] => (d, Ok removed_count)
  | old_file :: rest =>
      match unlink old_file d with
      | Ok d' => remove_files rest d' (removed_count + 1)
      | Raised e => (d, Raised e)
      end
  end.

(** Lines 259-267: the outer loop. *)
Fixpoint sweep (groups : list (string * list ftp_file)) (keep_count : Z)
    (d : list ftp_file) (removed_count : nat)
  : list ftp_file * outcome nat :=
  match groups with
  | [] => (d, Ok removed_count)
  | (_, files) :: rest =>
      let files := Py.sort_desc st_mtime files in
      match remove_files (Py.slice_from keep_count files) d removed_count with
      | (d', Ok n) => sweep rest keep_count d' n
      | (d', Raised e) => (d', Raised e)
      end
  end.

(** [cleanup_old_ftp_files], lines 241-272 *)
Definition cleanup_old_ftp_files (keep_count : Z) (d : list ftp_file)
  : list ftp_file * outcome nat :=
  sweep (files_by_part (ftp_glob_nc d)) keep_count d 0.

End FileManager.

(** ** Vocabulary of the specification *)

Import GCodeParser FileManager.

(** The high-severity warning about the tool count, told by its text. *)
Definition is_tool_count_warning (w : string) : bool :=
  Py.startswith "⚠️ Tool count changed significantly" w.

(** Exchanging the old and the new value of a change. *)
Definition swap_change (c : change) : change :=
  {| old := new c; new := old c |}.

(** The fields [compare_metadata] is said to look at. *)
Definition compared_fields (m : GCodeMetadata) : Z * Z * string * string :=
  (tool_count m, operations m, machine m, setup m).

Definition with_setup (s : string) (m : GCodeMetadata) : GCodeMetadata :=
  {| project := project m; part := part m;
     posted_timestamp := posted_timestamp m;
     operations := operations m; tool_count := tool_count m;
     machine := machine m; setup := s;
     program_number := program_number m |}.

(** The record of the test at the end of [file_manager.py]. *)
Definition test_metadata : GCodeMetadata :=
  {| project := "test-project"; part := "1001";
     posted_timestamp := "2025-10-30-1445";
     operations := 3; tool_count := 5;
     machine := "PUMA"; setup := "OP1-TEST";
     program_number := None |}.

Definition with_tool_count (n : Z) (m : GCodeMetadata) : GCodeMetadata :=
  {| project := project m; part := part m;
     posted_timestamp := posted_timestamp m;
     operations := operations m; tool_count := n;
     machine := machine m; setup := setup m;
     program_number := program_number m |}.

(** *** Name sanitization as the specification words it

    The four steps of the rule, each written from its wording rather than
    from the regular expressions of the source.  [keep_hyphen] selects
    between the rule as it is worded (a hyphen is replaced like any other
    unsafe character) and the rule with the hyphen kept. *)

Definition is_underscore (c : ascii) : bool := Ascii.eqb c "_".

(** Replace every character that is not a letter, digit or underscore. *)
Definition spec_replace (keep_hyphen : bool) (s : string) : string :=
  Py.smap (λ c, if Py.is_alnum c || is_underscore c
                   || (keep_hyphen && Ascii.eqb c "-")
                then c else "_"%char) s.

(** Collapse consecutive underscores to one: an underscore that is followed
    by an underscore is dropped. *)
Fixpoint spec_collapse (s : string) : string :=
  match s with
  | EmptyString => EmptyString
  | String c r =>
      match r with
      | String c' _ =>
          if is_underscore c && is_underscore c' then spec_collapse r
          else String c (spec_collapse r)
      | EmptyString => String c EmptyString
      end
  end.

Fixpoint all_underscores (s : string) : bool :=
  match s with
  | EmptyString => true
  | String c r => is_underscore c && all_underscores r
  end.

(** Strip leading underscores: drop them up to the first other character. *)
Fixpoint spec_lstrip (s : string) : string :=
  match s with
  | EmptyString => EmptyString
  | String c r => if is_underscore c then spec_lstrip r else s
  end.

(** Strip trailing underscores: cut the text where only underscores
    remain. *)
Fixpoint spec_rstrip (s : string) : string :=
  match s with
  | EmptyString => EmptyString
  | String c r => if all_underscores s then EmptyString
                  else String c (spec_rstrip r)
  end.

Definition spec_sanitize (keep_hyphen : bool) (name : string) : string :=
  Py.lower (spec_rstrip (spec_lstrip (spec_collapse
    (spec_replace keep_hyphen name)))).

(** The program of the test at the end of [gcode_parser.py]. *)
Definition test_gcode : string :=
  "
%
O1001 (HYDRAULIC MANIFOLD)
(CHIP-WARDEN-START)
(PROJECT: HYDRAULIC MANIFOLD)
(PART: 1001)
(POSTED: 2025-10-30-1445)
(OPERATIONS: 3)
(TOOL-COUNT: 5)
(MACHINE: PUMA)
(SETUP: OP1-ROUGH-FACE)
(CHIP-WARDEN-END)

G28 U0 W0
".

(** A header whose tool count is not a number, and one without a part. *)
Definition gcode_bad_tool_count : string :=
  "(CHIP-WARDEN-START)
(PROJECT: HYDRAULIC MANIFOLD)
(PART: 1001)
(POSTED: 2025-10-30-1445)
(TOOL-COUNT: five)
(CHIP-WARDEN-END)".

Definition gcode_no_part : string :=
  "(CHIP-WARDEN-START)
(PROJECT: HYDRAULIC MANIFOLD)
(POSTED: 2025-10-30-1445)
(TOOL-COUNT: 5)
(CHIP-WARDEN-END)".

(** *** The retention sweep *)

(** The files of a listing that have a given part key. *)
Definition group (key : string) (l : list ftp_file) : list ftp_file :=
  filter (λ f, part_key f = key) l.

(** The files the sweep sets out to remove, in the order it comes to them:
    group after group, what the slice leaves of the sorted group. *)
Definition stale (keep_count : Z) (d : list ftp_file) : list ftp_file :=
  concat ((λ g, Py.slice_from keep_count (Py.sort_desc st_mtime g.2))
            <$> files_by_part (ftp_glob_nc d)).

(** A directory without the files named as those of [fs]. *)
Definition without (fs : list ftp_file) (d : list ftp_file) : list ftp_file :=
  filter (λ g, name g ∉ name <$> fs) d.

(** Largest key first. *)
Definition desc {A} (key : A → Z) (x y : A) : Prop := (key y ≤ key x)%Z.

(** C4 as it is worded: whatever fails, the sweep returns a count, the count
    is the number of files gone, and every stale file that can be removed is
    gone. *)
Definition sweep_survives_failure (keep_count : Z) (d : list ftp_file)
  : Prop :=
  ∃ d' n, cleanup_old_ftp_files keep_count d = (d', Ok n)
          ∧ n = length d - length d'
          ∧ ∀ f, f ∈ stale keep_count d → unlink_ok f = true → f ∉ d'.

Definition ftp (n : string) (t : Z) (ok : bool) : ftp_file :=
  {| name := n; st_mtime := t; unlink_ok := ok |}.

(** Three versions of one part; the middle one cannot be removed. *)
Definition ftp_locked : list ftp_file :=
  [ftp "1001_v1_2025-10-28-0900.nc" 1 true;
   ftp "1001_v2_2025-10-29-0900.nc" 2 false;
   ftp "1001_v3_2025-10-30-0900.nc" 3 true].

(** Five versions of one part, listed in no particular order. *)
Definition ftp_five : list ftp_file :=
  [ftp "1001_v3_2025-10-30-0900.nc" 30 true;
   ftp "1001_v1_2025-10-28-0900.nc" 10 true;
   ftp "1001_v5_2025-11-01-0900.nc" 50 true;
   ftp "1001_v2_2025-10-29-0900.nc" 20 true;
   ftp "1001_v4_2025-10-31-0900.nc" 40 true].

(** *** Archival *)

(** The directory [get_part_dir] returns for a project and a part. *)
Definition part_dir_of (project_name part_name : string) : list string :=
  path_join (path_join [] (_sanitize_filename project_name))
    (_sanitize_filename part_name).


(** Every character of a text satisfies [p]. *)
Fixpoint sall (p : ascii → bool) (s : string) : bool :=
  match s with
  | EmptyString => true
  | String c r => p c && sall p r
  end.

(** A character a file name may have. *)
Definition path_safe (c : ascii) : bool :=
  negb (Ascii.eqb c "000") && negb (Ascii.eqb c "/").

(** The text of the changelog of a part, if there is one. *)
Definition changelog_of (a : gmap (list string) (gmap string file))
    (project_name part_name : string) : option string :=
  content <$> listdir a (part_dir_of project_name part_name) !! "CHANGELOG.md".

(** The lines of a changelog that open an entry. *)
Definition entry_headings (text : string) : list string :=
  filter (λ line, Py.startswith "## Version " line) (Py.readlines text).

(** A text without line feed and carriage return. *)
Definition no_line_break (s : string) : bool :=
  sall (λ c, negb (Ascii.eqb c "010") && negb (Ascii.eqb c "013")) s.

(** The first three lines of a changelog entry, and the lines after them. *)
Definition entry_head (m : GCodeMetadata) (version : nat) : string :=
  ("## Version " +:+ pretty version +:+ " - " +:+ posted_timestamp m
     +:+ nl +:+ nl)
  +:+ ("- **Setup:** " +:+ setup m +:+ nl).

Definition entry_tail (m : GCodeMetadata) : string :=
  ("- **Machine:** " +:+ machine m +:+ nl)
  +:+ ("- **Operations:** " +:+ pretty (operations m) +:+ nl)
  +:+ ("- **Tools:** " +:+ pretty (tool_count m) +:+ nl)
  +:+ ("- **Posted:** " +:+ posted_text m +:+ nl +:+ nl).

(** The program file of the test at the end of [file_manager.py]. *)
Definition test_source : file :=
  {| content := "G28 U0 W0" +:+ nl; mtime := 10 |}.

Definition with_posted (ts : string) (m : GCodeMetadata) : GCodeMetadata :=
  {| project := project m; part := part m;
     posted_timestamp := ts;
     operations := operations m; tool_count := tool_count m;
     machine := machine m; setup := setup m;
     program_number := program_number m |}.

(** Three posts of the test part, a day apart. *)
Definition three_posts : list (file * GCodeMetadata * Z) :=
  [(test_source, test_metadata, 100%Z);
   (test_source, with_posted "2025-10-31-0930" test_metadata, 200%Z);
   (test_source, with_posted "2025-11-01-1015" test_metadata, 300%Z)].

(** The first [n] of them archived into an empty archive. *)
Definition archived_times (n : nat)
  : gmap (list string) (gmap string file)
    * list (outcome (list string * string * nat)) :=
  archive_all (take n three_posts) ∅.

(** *** More vocabulary *)

(** The names of the compared fields on which two records differ. *)
Definition differing_fields (o n : GCodeMetadata) : gset string :=
  (if decide (tool_count o ≠ tool_count n) then {["tool_count"]} else ∅)
  ∪ (if decide (operations o ≠ operations n) then {["operations"]} else ∅)
  ∪ (if decide (machine o ≠ machine n) then {["machine"]} else ∅)
  ∪ (if decide (setup o ≠ setup n) then {["setup"]} else ∅).

(** A character a sanitized name can have: a word character or a hyphen
    that lower-casing leaves as it is. *)
Definition sanitized_char (c : ascii) : bool :=
  (Py.is_word c || Ascii.eqb c "-") && Ascii.eqb (Py.lower_char c) c.

(** A character of which the sanitizer leaves nothing at all: neither a
    letter, a digit nor a hyphen. *)
Definition dropped_char (c : ascii) : bool :=
  is_underscore c || negb (Py.is_word c || Ascii.eqb c "-").

(** The line at which the loop of [parse_content] stops: it has the end
    sentinel and not the start sentinel, which is looked for first. *)
Definition is_end_line (raw : string) : bool :=
  negb (Py.contains METADATA_START (Py.strip raw))
  && Py.contains METADATA_END (Py.strip raw).

(** The lines the loop reads: those up to the first end line, with it. *)
Fixpoint lines_read (lines : list string) : list string :=
  match lines with
  | [] => []
  | raw :: rest => if is_end_line raw then [raw] else raw :: lines_read rest
  end.

(** The digits of a line that opens, once stripped, with [O] and a digit. *)
Definition program_of_line (raw : string) : option string :=
  Py.match_program_number (Py.strip raw).

(** The name under which the field of a header line is stored. *)
Definition field_name (key : string) : string :=
  Py.replace_char "-" "_" (Py.lower (Py.strip key)).

(** A header line, as the post processor writes it: [(KEY:value)]. *)
Definition header_line (key value : string) : string :=
  "(" +:+ key +:+ ":" +:+ value +:+ ")".

(** A text that can stand in a header line without ending the comment,
    the line or the block. *)
Definition no_sentinel (s : string) : bool :=
  negb (Py.contains METADATA_START s) && negb (Py.contains METADATA_END s).

Definition field_value (v : string) : bool :=
  sall (λ c, negb (Ascii.eqb c ")") && negb (Ascii.eqb c "010")) v
  && no_sentinel v.

Definition field_key (k : string) : bool :=
  sall (λ c, negb (Ascii.eqb c ":")) k && field_value k.

(** A line before the block: it has no sentinel. *)
Definition preamble_line (l : string) : bool :=
  sall (λ c, negb (Ascii.eqb c "010")) l && no_sentinel (Py.strip l).

(** The lines of a text file. *)
Definition unlines (lines : list string) : string :=
  Py.join ((λ l, l +:+ nl) <$> lines).

(** The dictionary after the fields of a block, read in order. *)
Definition fields_read (kvs : list (string * string))
    (md : gmap string string) : gmap string string :=
  foldl (λ md kv, <[field_name kv.1 := Py.strip kv.2]> md) md kvs.

(** A file with a header block: the lines before it, the block with its
    fields, and whatever text follows the line of the end sentinel. *)
Definition block_lines (kvs : list (string * string)) : list string :=
  "(CHIP-WARDEN-START)" :: ((λ kv, header_line kv.1 kv.2) <$> kvs)
  ++ ["(CHIP-WARDEN-END)"].

Definition posted_file (pre : list string) (kvs : list (string * string))
    (rest : string) : string :=
  unlines (pre ++ block_lines kvs) +:+ rest.

(** The fields of the header that [test_gcode] shows. *)
Definition header_fields (prj prt posted ops tools mach stp : string)
  : list (string * string) :=
  [ ("PROJECT", prj); ("PART", prt); ("POSTED", posted);
    ("OPERATIONS", ops); ("TOOL-COUNT", tools); ("MACHINE", mach);
    ("SETUP", stp) ].

(** A part directory whose changelog has one entry and no header. *)
Definition changelog_one_entry : gmap (list string) (gmap string file) :=
  {[ ["test-project"; "1001"] :=
       {[ "CHANGELOG.md" :=
            {| content := changelog_entry test_metadata 1; mtime := 100 |} ]} ]}.

(** [copy_to_ftp], lines 215-239: the entry the copy makes in the FTP
    directory.  The name is built as the archive builds it, and
    [shutil.copy2] gives the copy the modification time of the archived
    file, which is that of the posted file; whether the entry can be
    removed later is for the operating system to say. *)
Definition ftp_filename (m : GCodeMetadata) (version : nat) : string :=
  version_filename (_sanitize_filename (part m)) version (posted_timestamp m).

Definition copy_to_ftp (source_file : file) (m : GCodeMetadata)
    (version : nat) (removable : bool) : ftp_file :=
  {| name := ftp_filename m version;
     st_mtime := mtime source_file;
     unlink_ok := removable |}.

(** The timestamp the post processor writes: [YYYY-MM-DD-HHMM]. *)
Definition timestamp_text (d : Py.datetime) : string :=
  Py.pad4 (Py.dt_year d) +:+ "-" +:+ Py.pad2 (Py.dt_month d) +:+ "-"
  +:+ Py.pad2 (Py.dt_day d) +:+ "-" +:+ Py.pad2 (Py.dt_hour d)
  +:+ Py.pad2 (Py.dt_minute d).

(** A date of the calendar with a time of the day. *)
Definition valid_datetime (d : Py.datetime) : Prop :=
  (1 ≤ Z.of_nat (Py.dt_year d) ≤ 9999)%Z ∧ 1 ≤ Py.dt_month d ≤ 12
  ∧ 1 ≤ Py.dt_day d ≤ Py.days_in_month (Py.dt_year d) (Py.dt_month d)
  ∧ Py.dt_hour d < 24 ∧ Py.dt_minute d < 60.

(** A text with Windows line ends: a carriage return before every line
    feed. *)
Fixpoint crlf (s : string) : string :=
  match s with
  | EmptyString => EmptyString
  | String c r =>
      if Ascii.eqb c "010" then String "013" (String "010" (crlf r))
      else String c (crlf r)
  end.

(** *** [russ.py]: which files the watcher takes *)

(** [PurePath.suffix] of a file name, as CPython 3.11 computes it: the name
    from its last dot on; a leading or a trailing dot starts no suffix. *)
Definition path_suffix (name : string) : string :=
  match Py.stem_cut name with
  | Some t =>
      if (0 <? String.length t)%nat
         && (String.length t <? String.length name - 1)%nat
      then Py.sdrop (String.length t) name else EmptyString
  | None => EmptyString
  end.

(** [on_created], lines 44-62: whether the handler goes on to
    [process_file] for the file of an event. *)
Definition on_created (is_directory : bool) (name : string)
    (processed_files : gset string) : bool :=
  negb is_directory
  && bool_decide (Py.lower (path_suffix name) ∈ [".nc"; ".gcode"])
  && bool_decide (name ∉ processed_files).

(** *** Archive keys *)











(** Versions of two parts and a text file in one FTP directory. *)
Definition ftp_two_parts : list ftp_file :=
  [ftp "1001_v1_2025-10-28-0900.nc" 10 true;
   ftp "2002_v1_2025-10-28-1000.nc" 11 true;
   ftp "1001_v2_2025-10-29-0900.nc" 20 true;
   ftp "README.txt" 1 true;
   ftp "2002_v2_2025-10-29-1000.nc" 21 true;
   ftp "1001_v3_2025-10-30-0900.nc" 30 true].

(** A character that is safe in a file name if it is below 128: a
    lower-case letter, a digit, an underscore or a hyphen. *)
Definition ascii_safe (c : ascii) : bool :=
  (128 <=? Py.code c)%N || Py.between 97 122 c || Py.is_digit c
  || Ascii.eqb c "_" || Ascii.eqb c "-".

(** ** Change detection *)

Section Compare.

Implicit Types o n : GCodeMetadata.

Lemma operations_warning_not_tool a b :
  is_tool_count_warning (operations_warning a b) = false.
Proof. reflexivity. Qed.

Lemma machine_warning_not_tool a b :
  is_tool_count_warning (machine_warning a b) = false.
Proof. reflexivity. Qed.

Lemma tool_count_warning_is_tool a b :
  is_tool_count_warning (tool_count_warning a b) = true.
Proof. reflexivity. Qed.

(** The three later checks leave the entry of the tool count alone. *)
Lemma changes_tool_count_after o n c :
  changes (check_setup o n (check_machine o n (check_operations o n c)))
    !! "tool_count" = changes c !! "tool_count".
Proof.
  unfold check_setup, check_machine, check_operations.
  repeat case_decide; simpl; by simplify_map_eq.
Qed.

Lemma has_changes_mono_setup o n c :
  has_changes c = true → has_changes (check_setup o n c) = true.
Proof. unfold check_setup. by case_decide. Qed.

Lemma has_changes_mono_machine o n c :
  has_changes c = true → has_changes (check_machine o n c) = true.
Proof. unfold check_machine. by case_decide. Qed.

Lemma has_changes_mono_operations o n c :
  has_changes c = true → has_changes (check_operations o n c) = true.
Proof. unfold check_operations. by case_decide. Qed.

(** Which warnings of the three later checks are tool-count warnings:
    none. *)
Lemma tool_warnings_after o n c :
  List.filter is_tool_count_warning
    (warnings (check_setup o n (check_machine o n (check_operations o n c))))
  = List.filter is_tool_count_warning (warnings c).
Proof.
  unfold check_setup, check_machine, check_operations.
  repeat case_decide; simpl;
    rewrite ?List.filter_app; simpl;
    rewrite ?operations_warning_not_tool, ?machine_warning_not_tool;
    by rewrite ?app_nil_r.
Qed.

End Compare.

(** C6.  When the tool counts of the two records differ, the comparison
    reports a change and records the old and the new count under
    [tool_count]; the tool-count warning is among the warnings exactly when
    the counts differ by 2 or more, and then it is there once. *)
Theorem tool_count_change_and_warning (o n : GCodeMetadata) :
  tool_count o ≠ tool_count n →
  let r := compare_metadata o n in
  has_changes r = true
  ∧ changes r !! "tool_count"
    = Some {| old := VInt (tool_count o); new := VInt (tool_count n) |}
  ∧ (existsb is_tool_count_warning (warnings r) = true
     ↔ (Z.abs (tool_count n - tool_count o) >= 2)%Z)
  ∧ List.filter is_tool_count_warning (warnings r)
    = if decide (Z.abs (tool_count n - tool_count o) >= 2)%Z
      then [tool_count_warning (tool_count o) (tool_count n)] else [].
Proof.
  intros Hne r.
  assert (Hfilter : List.filter is_tool_count_warning (warnings r)
    = if decide (Z.abs (tool_count n - tool_count o) >= 2)%Z
      then [tool_count_warning (tool_count o) (tool_count n)] else []).
  { subst r. unfold compare_metadata. rewrite tool_warnings_after.
    unfold check_tool_count. rewrite decide_True by done. simpl.
    by destruct (decide _). }
  split_and!.
  - subst r. unfold compare_metadata.
    apply has_changes_mono_setup, has_changes_mono_machine,
      has_changes_mono_operations.
    unfold check_tool_count. rewrite decide_True by done. simpl.
    by destruct (decide _).
  - subst r. unfold compare_metadata. rewrite changes_tool_count_after.
    unfold check_tool_count. rewrite decide_True by done. simpl.
    destruct (decide _); simpl; by simplify_map_eq.
  - rewrite existsb_exists. split.
    + intros (w & Hin & Hw).
      assert (In w (List.filter is_tool_count_warning (warnings r))) as Hf
        by (apply filter_In; done).
      rewrite Hfilter in Hf. by destruct (decide _).
    + intros Hge. exists (tool_count_warning (tool_count o) (tool_count n)).
      split; [|done].
      eapply (proj1 (filter_In is_tool_count_warning _ _)).
      rewrite Hfilter, decide_True by done. by left.
  - done.
Qed.

Lemma tool_count_change_and_warning_witness :
  tool_count test_metadata ≠ tool_count (with_tool_count 7 test_metadata)
  ∧ existsb is_tool_count_warning
      (warnings (compare_metadata test_metadata
                   (with_tool_count 7 test_metadata))) = true.
Proof.
  split; [simpl; lia|].
  apply (tool_count_change_and_warning test_metadata
           (with_tool_count 7 test_metadata)); simpl; lia.
Defined.

(** A delta of one: a change and no warning.  A delta of two: the warning. *)
Example tool_count_delta_one :
  compare_metadata test_metadata (with_tool_count 6 test_metadata)
  = {| has_changes := true; warnings := [];
       changes := {[ "tool_count" := {| old := VInt 5; new := VInt 6 |} ]} |}.
Proof. reflexivity. Qed.

Example tool_count_delta_two :
  compare_metadata test_metadata (with_tool_count 7 test_metadata)
  = {| has_changes := true;
       warnings := ["⚠️ Tool count changed significantly: 5 → 7"];
       changes := {[ "tool_count" := {| old := VInt 5; new := VInt 7 |} ]} |}.
Proof. reflexivity. Qed.

(** C8.  For two records whose tool counts differ, comparing them in the
    other order gives the same [has_changes], the same set of changed
    fields, and the same changes with old and new exchanged. *)
Theorem compare_metadata_swap (a b : GCodeMetadata) :
  tool_count a ≠ tool_count b →
  changes (compare_metadata b a) = swap_change <$> changes (compare_metadata a b)
  ∧ changes (compare_metadata a b) !! "tool_count"
    = Some {| old := VInt (tool_count a); new := VInt (tool_count b) |}
  ∧ changes (compare_metadata b a) !! "tool_count"
    = Some {| old := VInt (tool_count b); new := VInt (tool_count a) |}
  ∧ has_changes (compare_metadata b a) = has_changes (compare_metadata a b)
  ∧ dom (changes (compare_metadata b a)) = dom (changes (compare_metadata a b)).
Proof.
  intros Hne.
  assert (Hswap : changes (compare_metadata b a)
                  = swap_change <$> changes (compare_metadata a b)).
  { unfold compare_metadata, check_setup, check_machine, check_operations,
      check_tool_count.
    repeat case_decide; try congruence; simpl;
      by rewrite ?fmap_insert, ?fmap_empty. }
  split_and!.
  - done.
  - unfold compare_metadata. rewrite changes_tool_count_after.
    unfold check_tool_count. rewrite decide_True by done.
    destruct (decide _); simpl; by simplify_map_eq.
  - unfold compare_metadata. rewrite changes_tool_count_after.
    unfold check_tool_count. rewrite decide_True by done.
    destruct (decide _); simpl; by simplify_map_eq.
  - unfold compare_metadata, check_setup, check_machine, check_operations,
      check_tool_count.
    repeat case_decide; try congruence; done.
  - rewrite Hswap. apply dom_fmap_L.
Qed.

Lemma compare_metadata_swap_witness :
  tool_count test_metadata ≠ tool_count (with_tool_count 7 test_metadata)
  ∧ dom (changes (compare_metadata (with_tool_count 7 test_metadata)
                    test_metadata))
    = dom (changes (compare_metadata test_metadata
                      (with_tool_count 7 test_metadata))).
Proof.
  split; [simpl; lia|].
  apply (compare_metadata_swap test_metadata
           (with_tool_count 7 test_metadata)); simpl; lia.
Defined.

(** C9.  The comparison looks at the tool count, the operations, the machine
    and the setup and at nothing else: records that agree on these four give
    the same result, whatever their project, part, posted timestamp and
    program number.  A setup that differs is recorded as a change, and the
    warnings are those of the comparison with the setup left as it was. *)
Theorem compare_metadata_fields (o n o' n' : GCodeMetadata) :
  compared_fields o = compared_fields o' →
  compared_fields n = compared_fields n' →
  compare_metadata o' n' = compare_metadata o n
  ∧ (setup o ≠ setup n →
     has_changes (compare_metadata o n) = true
     ∧ changes (compare_metadata o n) !! "setup"
       = Some {| old := VStr (setup o); new := VStr (setup n) |}
     ∧ warnings (compare_metadata o n)
       = warnings (compare_metadata o (with_setup (setup o) n))).
Proof.
  unfold compared_fields. intros [= Ht Ho Hm Hs] [= Ht' Ho' Hm' Hs']. split.
  - unfold compare_metadata, check_setup, check_machine, check_operations,
      check_tool_count.
    by rewrite Ht, Ho, Hm, Hs, Ht', Ho', Hm', Hs'.
  - intros Hne.
    unfold compare_metadata, check_setup at 1 2 3.
    rewrite decide_True by done. simpl. split_and!.
    + done.
    + by simplify_map_eq.
    + unfold check_setup. simpl. rewrite decide_False by (intros ?; done).
      unfold check_machine, check_operations, check_tool_count; simpl.
      by repeat case_decide.
Qed.

Lemma compare_metadata_fields_witness :
  compare_metadata
    {| project := "other"; part := "2002"; posted_timestamp := "2025-11-01-0900";
       operations := 3; tool_count := 5; machine := "PUMA";
       setup := "OP1-TEST"; program_number := Some "1001" |}
    (with_setup "OP2" test_metadata)
  = compare_metadata test_metadata (with_setup "OP2" test_metadata)
  ∧ warnings (compare_metadata test_metadata (with_setup "OP2" test_metadata))
    = [].
Proof.
  pose proof (compare_metadata_fields test_metadata
    (with_setup "OP2" test_metadata)
    {| project := "other"; part := "2002"; posted_timestamp := "2025-11-01-0900";
       operations := 3; tool_count := 5; machine := "PUMA";
       setup := "OP1-TEST"; program_number := Some "1001" |}
    (with_setup "OP2" test_metadata) eq_refl eq_refl) as [H1 H2].
  split; [exact H1|].
  destruct H2 as (_ & _ & H3); [simpl; discriminate|].
  rewrite H3. reflexivity.
Defined.

(** C10.  Records that agree on tool count, operations, machine and setup
    compare as unchanged: no change flag, no changes, no warnings; so does a
    record with itself. *)
Theorem compare_metadata_equal (o n : GCodeMetadata) :
  tool_count o = tool_count n →
  operations o = operations n →
  machine o = machine n →
  setup o = setup n →
  (has_changes (compare_metadata o n) = false
   ∧ changes (compare_metadata o n) = ∅
   ∧ warnings (compare_metadata o n) = [])
  ∧ compare_metadata o o = no_changes.
Proof.
  intros Ht Ho Hm Hs.
  unfold compare_metadata, check_setup, check_machine, check_operations,
    check_tool_count.
  rewrite Ht, Ho, Hm, Hs. by rewrite !decide_False by (intros ?; done).
Qed.

Lemma compare_metadata_equal_witness :
  has_changes (compare_metadata test_metadata
     {| project := "p"; part := "q"; posted_timestamp := "2025-11-01-0900";
        operations := 3; tool_count := 5; machine := "PUMA";
        setup := "OP1-TEST"; program_number := Some "7" |}) = false.
Proof.
  apply (compare_metadata_equal test_metadata
     {| project := "p"; part := "q"; posted_timestamp := "2025-11-01-0900";
        operations := 3; tool_count := 5; machine := "PUMA";
        setup := "OP1-TEST"; program_number := Some "7" |});
    reflexivity.
Defined.

(** ** Name sanitization *)

Section Sanitize.

Lemma sub_unsafe_spec s : Py.sub_unsafe s = spec_replace true s.
Proof.
  unfold Py.sub_unsafe, spec_replace, Py.is_word, is_underscore.
  induction s as [|c r IH]; simpl; [done|]. by rewrite IH.
Qed.

(** The scan of the source against the wording, with and without a run
    of underscores under way. *)
Lemma sub_underscores_from_spec s :
  Py.sub_underscores_from false s = spec_collapse s
  ∧ String "_" (Py.sub_underscores_from true s)
    = spec_collapse (String "_" s).
Proof.
  induction s as [|c r [IH1 IH2]]; [done|].
  assert (Hne : Ascii.eqb c "_" = false
                → spec_collapse (String c r) = String c (spec_collapse r)).
  { intros Hc. simpl. unfold is_underscore. rewrite Hc. simpl.
    by destruct r. }
  split.
  - simpl Py.sub_underscores_from.
    destruct (Ascii.eqb c "_") eqn:Hc.
    + apply Ascii.eqb_eq in Hc as ->. by rewrite IH2.
    + by rewrite IH1, Hne.
  - change (spec_collapse (String "_" (String c r)))
      with (if is_underscore "_" && is_underscore c
            then spec_collapse (String c r)
            else String "_" (spec_collapse (String c r))).
    simpl Py.sub_underscores_from. unfold is_underscore at 1 2.
    destruct (Ascii.eqb c "_") eqn:Hc; simpl andb; cbv iota.
    + apply Ascii.eqb_eq in Hc as ->. by rewrite IH2.
    + by rewrite IH1, Hne.
Qed.

Lemma sub_underscores_spec s : Py.sub_underscores s = spec_collapse s.
Proof. apply sub_underscores_from_spec. Qed.

Lemma lstrip_spec s : Py.lstrip_by is_underscore s = spec_lstrip s.
Proof. induction s as [|c r IH]; cbn; [done|]. by rewrite IH. Qed.

Lemma rstrip_empty_iff s :
  Py.rstrip_by is_underscore s = EmptyString ↔ all_underscores s = true.
Proof.
  induction s as [|c r IH]; cbn [Py.rstrip_by all_underscores]; [done|].
  destruct (Py.rstrip_by is_underscore r) eqn:Hr.
  - rewrite (proj1 IH eq_refl), andb_true_r.
    by destruct (is_underscore c).
  - split; [done|]. intros [_ Hall]%andb_prop.
    by apply IH in Hall.
Qed.

Lemma rstrip_spec s : Py.rstrip_by is_underscore s = spec_rstrip s.
Proof.
  induction s as [|c r IH]; [done|].
  change (spec_rstrip (String c r))
    with (if is_underscore c && all_underscores r then EmptyString
          else String c (spec_rstrip r)).
  cbn [Py.rstrip_by]. rewrite <- IH.
  destruct (Py.rstrip_by is_underscore r) eqn:Hr.
  - rewrite (proj1 (rstrip_empty_iff r) Hr), andb_true_r.
    by destruct (is_underscore c).
  - destruct (all_underscores r) eqn:Hall.
    + apply rstrip_empty_iff in Hall. congruence.
    + by rewrite andb_false_r.
Qed.

Lemma strip_chars_spec s :
  Py.strip_chars "_" s = spec_rstrip (spec_lstrip s).
Proof.
  change (Py.strip_chars "_" s)
    with (Py.rstrip_by is_underscore (Py.lstrip_by is_underscore s)).
  by rewrite rstrip_spec, lstrip_spec.
Qed.

End Sanitize.

(** C3, as the claim words it, fails: the source keeps a hyphen, which is
    neither a letter, a digit nor an underscore. *)
Lemma sanitize_keeps_hyphen :
  _sanitize_filename "test-project" = "test-project"
  ∧ spec_sanitize false "test-project" = "test_project"
  ∧ _sanitize_filename "test-project" ≠ spec_sanitize false "test-project".
Proof. split_and!; [reflexivity | reflexivity | discriminate]. Qed.

(** C3, amended.  For every name, [_sanitize_filename] replaces every
    character that is not a letter, a digit, an underscore or a hyphen with
    an underscore, collapses consecutive underscores to one, strips leading
    and trailing underscores, and lower-cases the result. *)
Theorem sanitize_filename_rule (name : string) :
  _sanitize_filename name = spec_sanitize true name.
Proof.
  unfold _sanitize_filename, spec_sanitize.
  by rewrite strip_chars_spec, sub_underscores_spec, sub_unsafe_spec.
Qed.

(** ** Metadata extraction *)

Section Parse.

Implicit Types md : gmap string string.

Lemma required_fields_present md :
  forallb (λ field, bool_decide (field ∈ dom md)) required_fields = true
  ↔ is_Some (md !! "project") ∧ is_Some (md !! "part")
    ∧ is_Some (md !! "posted").
Proof.
  unfold required_fields. cbn [forallb].
  rewrite !andb_true_iff, !bool_decide_eq_true, !elem_of_dom. tauto.
Qed.

Lemma parse_content_None_absent content field :
  field ∈ required_fields →
  metadata (scan_content content) !! field = None →
  parse_content content = None.
Proof.
  intros Hin Hnone. unfold parse_content.
  destruct (forallb _ required_fields) eqn:Hall; [|done].
  apply required_fields_present in Hall as (Hp & Hq & Hr).
  unfold required_fields in Hin.
  rewrite !elem_of_cons, elem_of_nil in Hin.
  destruct Hin as [->|[->|[->|[]]]]; rewrite Hnone in *;
    by match goal with H : is_Some None |- _ => destruct H end.
Qed.

Lemma parse_content_None_operations content v :
  metadata (scan_content content) !! "operations" = Some v →
  Py.int v = None →
  parse_content content = None.
Proof.
  intros Hv Hint. unfold parse_content, int_field.
  destruct (negb _); [done|]. by rewrite Hv, Hint.
Qed.

Lemma parse_content_None_tool_count content v :
  metadata (scan_content content) !! "tool_count" = Some v →
  Py.int v = None →
  parse_content content = None.
Proof.
  intros Hv Hint. unfold parse_content.
  destruct (negb _); [done|].
  destruct (int_field _ "operations"); [|done].
  unfold int_field. by rewrite Hv, Hint.
Qed.

Lemma parse_content_Some content r :
  parse_content content = Some r →
  let st := scan_content content in
  metadata st !! "project" = Some (project r)
  ∧ metadata st !! "part" = Some (part r)
  ∧ metadata st !! "posted" = Some (posted_timestamp r)
  ∧ int_field (metadata st) "operations" = Some (operations r)
  ∧ int_field (metadata st) "tool_count" = Some (tool_count r)
  ∧ machine r = default "unknown" (metadata st !! "machine")
  ∧ setup r = default "unknown" (metadata st !! "setup")
  ∧ program_number r = seen_program st.
Proof.
  intros Hparse st. unfold parse_content in Hparse. cbv zeta in Hparse.
  fold st in Hparse.
  destruct (forallb _ required_fields) eqn:Hall; [|done].
  apply required_fields_present in Hall as ([p Hp] & [q Hq] & [t Ht]).
  simpl in Hparse.
  destruct (int_field (metadata st) "operations") as [ops|]; [|done].
  destruct (int_field (metadata st) "tool_count") as [tools|]; [|done].
  injection Hparse as <-. simpl. by rewrite Hp, Hq, Ht.
Qed.

End Parse.

(** C7.  [parse_content] returns a whole record or [None].  It returns
    [None] when one of [project], [part] and [posted] is absent after the
    scan, and when the value of [operations] or of [tool_count] is there
    and [int] rejects it.  A record it returns has its three required
    fields from the header, its two counts converted from the header or
    defaulted to 0, and its machine and setup from the header or
    defaulted. *)
Theorem parse_content_all_or_nothing (content : string) :
  let st := scan_content content in
  (∀ field, field ∈ required_fields → metadata st !! field = None →
     parse_content content = None)
  ∧ (∀ key v, key = "operations" ∨ key = "tool_count" →
       metadata st !! key = Some v → Py.int v = None →
       parse_content content = None)
  ∧ (parse_content content = None
     ∨ ∃ r, parse_content content = Some r
        ∧ metadata st !! "project" = Some (project r)
        ∧ metadata st !! "part" = Some (part r)
        ∧ metadata st !! "posted" = Some (posted_timestamp r)
        ∧ int_field (metadata st) "operations" = Some (operations r)
        ∧ int_field (metadata st) "tool_count" = Some (tool_count r)
        ∧ machine r = default "unknown" (metadata st !! "machine")
        ∧ setup r = default "unknown" (metadata st !! "setup")
        ∧ program_number r = seen_program st).
Proof.
  intros st. split_and!.
  - intros field. apply parse_content_None_absent.
  - intros key v [->| ->].
    + apply parse_content_None_operations.
    + apply parse_content_None_tool_count.
  - destruct (parse_content content) as [r|] eqn:Hparse; [right|by left].
    exists r. split; [done|]. by apply parse_content_Some.
Qed.

Lemma parse_content_all_or_nothing_witness :
  parse_content gcode_bad_tool_count = None
  ∧ parse_content gcode_no_part = None.
Proof.
  split.
  - destruct (parse_content_all_or_nothing gcode_bad_tool_count)
      as (_ & Hbad & _).
    apply (Hbad "tool_count" "five"); [by right | vm_compute; reflexivity
                                       | vm_compute; reflexivity].
  - destruct (parse_content_all_or_nothing gcode_no_part) as (Habsent & _).
    apply (Habsent "part"); [vm_compute; set_solver | vm_compute; reflexivity].
Defined.

(** The header of the test program gives the record the source prints. *)
Example parse_content_test_gcode :
  parse_content test_gcode
  = Some {| project := "HYDRAULIC MANIFOLD"; part := "1001";
            posted_timestamp := "2025-10-30-1445";
            operations := 3; tool_count := 5;
            machine := "PUMA"; setup := "OP1-ROUGH-FACE";
            program_number := Some "1001" |}.
Proof. vm_compute. reflexivity. Qed.

(** ** Texts *)

Section PartKey.

Implicit Types (s t u sep a b : string) (c : ascii).

Lemma append_cons c s t : String c s +:+ t = String c (s +:+ t).
Proof. reflexivity. Qed.

Lemma append_assoc s t u : (s +:+ t) +:+ u = s +:+ (t +:+ u).
Proof.
  induction s as [|c s IH]; [done|]. by rewrite !append_cons, IH.
Qed.

Lemma prefix_append sep t : String.prefix sep (sep +:+ t) = true.
Proof.
  induction sep as [|c sep IH]; [by destruct t|].
  rewrite append_cons. cbn [String.prefix]. by destruct (ascii_dec c c).
Qed.

Lemma prefix_sdrop sep s :
  String.prefix sep s = true → s = sep +:+ Py.sdrop (String.length sep) s.
Proof.
  revert s. induction sep as [|c sep IH]; intros [|x s]; try done.
  cbn [String.prefix String.length Py.sdrop].
  destruct (ascii_dec c x) as [->|]; [|done].
  intros Hp. by rewrite append_cons, <- (IH s Hp).
Qed.

(** [split_once] cuts at the first place where [sep] occurs. *)
Lemma split_once_Some sep s a b :
  Py.split_once sep s = Some (a, b) →
  s = a +:+ sep +:+ b
  ∧ ∀ a' b', s = a' +:+ sep +:+ b' → String.length a ≤ String.length a'.
Proof.
  revert a. induction s as [|c s IH]; intros a; cbn [Py.split_once].
  - destruct (String.prefix sep EmptyString) eqn:Hp; [|done].
    intros [= <- <-]. split; [by apply prefix_sdrop|]. intros; cbn; lia.
  - destruct (String.prefix sep (String c s)) eqn:Hp.
    + intros [= <- <-]. split; [by apply prefix_sdrop|]. intros; cbn; lia.
    + destruct (Py.split_once sep s) as [[a0 b0]|] eqn:Hs; [|done].
      intros [= <- <-]. destruct (IH a0 eq_refl) as [-> Hmin].
      split; [done|]. intros [|c' a'] b' Heq.
      * change (EmptyString +:+ sep +:+ b') with (sep +:+ b') in Heq.
        by rewrite Heq, prefix_append in Hp.
      * rewrite append_cons in Heq. injection Heq as -> Heq.
        cbn [String.length]. apply le_n_S. by eapply Hmin.
Qed.

Lemma split_once_None sep s a b :
  Py.split_once sep s = None → s ≠ a +:+ sep +:+ b.
Proof.
  revert a. induction s as [|c s IH]; intros a; cbn [Py.split_once].
  - destruct (String.prefix sep EmptyString) eqn:Hp; [done|].
    intros _ Heq. destruct a; [|done].
    change (EmptyString +:+ sep +:+ b) with (sep +:+ b) in Heq.
    by rewrite Heq, prefix_append in Hp.
  - destruct (String.prefix sep (String c s)) eqn:Hp; [done|].
    destruct (Py.split_once sep s) as [[a0 b0]|] eqn:Hs; [done|].
    intros _ Heq. destruct a as [|c' a].
    + change (EmptyString +:+ sep +:+ b) with (sep +:+ b) in Heq.
      by rewrite Heq, prefix_append in Hp.
    + rewrite append_cons in Heq. injection Heq as -> Heq. by eapply IH.
Qed.

(** The part key of a file is the text of its stem before the first [_v],
    and the whole stem when it has none. *)
Lemma part_key_spec (f : ftp_file) :
  (∃ b, Py.stem (name f) = part_key f +:+ "_v" +:+ b
        ∧ ∀ a' b', Py.stem (name f) = a' +:+ "_v" +:+ b' →
                   String.length (part_key f) ≤ String.length a')
  ∨ (part_key f = Py.stem (name f)
     ∧ ∀ a' b', Py.stem (name f) ≠ a' +:+ "_v" +:+ b').
Proof.
  unfold part_key, Py.before_first.
  destruct (Py.split_once "_v" (Py.stem (name f))) as [[a b]|] eqn:Hs.
  - left. exists b. by apply split_once_Some.
  - right. split; [done|]. intros a' b'. by apply split_once_None.
Qed.

End PartKey.

(** ** The retention sweep *)

Section Sort.

Context {A : Type} (key : A → Z).

Lemma insert_desc_perm x l : Py.insert_desc key x l ≡ₚ x :: l.
Proof.
  induction l as [|y l IH]; simpl; [done|].
  destruct (key x <? key y)%Z; [|done].
  by rewrite IH, Permutation_swap.
Qed.

Lemma sort_desc_perm l : Py.sort_desc key l ≡ₚ l.
Proof.
  induction l as [|x l IH]; simpl; [done|].
  by rewrite insert_desc_perm, IH.
Qed.

Lemma insert_desc_sorted x l :
  StronglySorted (desc key) l → StronglySorted (desc key) (Py.insert_desc key x l).
Proof.
  induction 1 as [|y l Hl IH Hy]; simpl.
  - repeat constructor.
  - destruct (key x <? key y)%Z eqn:Hlt.
    + constructor; [done|].
      apply Forall_forall. intros z Hz.
      rewrite insert_desc_perm in Hz.
      apply elem_of_cons in Hz as [->|Hz].
      * unfold desc. lia.
      * by eapply Forall_forall in Hy.
    + constructor; [by constructor|].
      constructor; [unfold desc; lia|].
      eapply Forall_impl; [done|]. unfold desc. intros; lia.
Qed.

Lemma sort_desc_sorted l : StronglySorted (desc key) (Py.sort_desc key l).
Proof.
  induction l as [|x l IH]; simpl; [constructor|].
  by apply insert_desc_sorted.
Qed.

Lemma sort_desc_length l : length (Py.sort_desc key l) = length l.
Proof. by rewrite sort_desc_perm. Qed.

End Sort.

Section Lists.

Context {A : Type}.
Implicit Types l k : list A.

Lemma submseteq_NoDup l k : l ⊆+ k → NoDup k → NoDup l.
Proof.
  intros [k' Hk]%submseteq_Permutation Hnd.
  rewrite Hk in Hnd. by apply NoDup_app in Hnd as (? & _).
Qed.

Lemma concat_fmap_submseteq {B} (h1 h2 : B → list A) (G : list B) :
  (∀ g, h1 g ⊆+ h2 g) → concat (h1 <$> G) ⊆+ concat (h2 <$> G).
Proof.
  intros Hh. induction G as [|g G IH]; simpl; [done|].
  by apply submseteq_app.
Qed.

Lemma elem_of_concat (ls : list (list A)) x :
  x ∈ concat ls ↔ ∃ l, x ∈ l ∧ l ∈ ls.
Proof.
  induction ls as [|l ls IH]; cbn [concat].
  - split; [by intros ?%elem_of_nil|by intros (? & _ & ?%elem_of_nil)].
  - rewrite elem_of_app, IH. setoid_rewrite elem_of_cons. naive_solver.
Qed.

Lemma slice_from_drop (k : Z) l :
  ∃ i, Py.slice_from k l = drop i l ∧ ((0 ≤ k)%Z → i = Z.to_nat k).
Proof.
  unfold Py.slice_from. destruct (0 <=? k)%Z eqn:Hk.
  - by eexists.
  - eexists. split; [done|]. lia.
Qed.

Lemma slice_from_submseteq (k : Z) l : Py.slice_from k l ⊆+ l.
Proof.
  destruct (slice_from_drop k l) as (i & -> & _). apply submseteq_drop.
Qed.

Lemma slice_from_short (k : Z) l :
  (0 ≤ k)%Z → length l ≤ Z.to_nat k → Py.slice_from k l = [].
Proof.
  intros Hk Hlen. destruct (slice_from_drop k l) as (i & -> & Hi).
  rewrite (Hi Hk). by apply drop_ge.
Qed.

End Lists.

Section Groups.

Implicit Types (f : ftp_file) (l : list ftp_file).
Implicit Types (G : list (string * list ftp_file)).

Lemma group_append_concat key f G :
  concat ((group_append key f G).*2) ≡ₚ concat (G.*2) ++ [f].
Proof.
  induction G as [|[k fs] G IH]; simpl; [done|].
  case_decide; simpl.
  - by rewrite <- !(assoc_L (++)), (Permutation_app_comm [f]).
  - by rewrite IH, (assoc_L (++)).
Qed.

Lemma files_by_part_snoc l f :
  files_by_part (l ++ [f]) = group_append (part_key f) f (files_by_part l).
Proof. unfold files_by_part. by rewrite foldl_snoc. Qed.

Lemma files_by_part_concat l : concat ((files_by_part l).*2) ≡ₚ l.
Proof.
  induction l as [|f l IH] using rev_ind; [done|].
  by rewrite files_by_part_snoc, group_append_concat, IH.
Qed.

Lemma group_snoc key l f :
  group key (l ++ [f])
  = if decide (part_key f = key) then group key l ++ [f] else group key l.
Proof.
  unfold group. rewrite filter_app.
  case_decide.
  - by rewrite filter_cons_True.
  - by rewrite filter_cons_False, app_nil_r.
Qed.

Lemma group_append_keys key f G :
  (group_append key f G).*1
  = if decide (key ∈ G.*1) then G.*1 else G.*1 ++ [key].
Proof.
  induction G as [|[k fs] G IH]; [done|].
  cbn [group_append].
  destruct (decide (k = key)) as [->|Hk]; rewrite !fmap_cons; cbn [fst].
  - rewrite decide_True by apply list_elem_of_here. done.
  - rewrite IH. destruct (decide (key ∈ G.*1)).
    + rewrite decide_True by (by apply list_elem_of_further). done.
    + rewrite decide_False; [done|].
      by intros [?|?]%elem_of_cons.
Qed.

Lemma group_append_elem key f G k fs :
  NoDup G.*1 →
  ((k, fs) ∈ group_append key f G) ↔
    ((k ≠ key ∧ (k, fs) ∈ G)
     ∨ (k = key ∧ ((∃ fs0, (key, fs0) ∈ G ∧ fs = fs0 ++ [f])
                   ∨ ((key ∉ G.*1) ∧ fs = [f])))).
Proof.
  induction G as [|[k0 fs0] G IH]; cbn [group_append]; intros Hnd.
  { rewrite list_elem_of_singleton. split.
    - intros [= -> ->]. right. split; [done|]. right.
      split; [apply not_elem_of_nil|done].
    - intros [[_ []%elem_of_nil]|[-> [(x & []%elem_of_nil & _)|[_ ->]]]].
      done. }
  rewrite fmap_cons in Hnd. cbn [fst] in Hnd.
  apply NoDup_cons in Hnd as [Hk0 Hnd]. specialize (IH Hnd).
  assert (Hin : ∀ x, (k0, x) ∈ G → False).
  { intros x Hx. apply Hk0. apply list_elem_of_fmap. by exists (k0, x). }
  assert (Hnot0 : key ∉ ((k0, fs0) :: G).*1 ↔ key ≠ k0 ∧ key ∉ G.*1).
  { rewrite fmap_cons. cbn [fst]. by rewrite not_elem_of_cons. }
  destruct (decide (k0 = key)) as [Hk|Hk].
  - subst k0. rewrite Hnot0. setoid_rewrite elem_of_cons. naive_solver.
  - rewrite Hnot0. setoid_rewrite elem_of_cons. rewrite IH. naive_solver.
Qed.

(** The keys of [files_by_part l] are distinct; every group holds the files
    of [l] with its key, in the order of [l], and is not empty; every file
    of [l] has a group. *)
Lemma files_by_part_inv l :
  NoDup (files_by_part l).*1
  ∧ (∀ k fs, (k, fs) ∈ files_by_part l → fs = group k l ∧ fs ≠ [])
  ∧ (∀ f, f ∈ l → part_key f ∈ (files_by_part l).*1).
Proof.
  induction l as [|f l (Hnd & Hgroups & Hkeys)] using rev_ind.
  { split_and!; [apply NoDup_nil_2|by intros ? ? ?%elem_of_nil
                 |by intros ? ?%elem_of_nil]. }
  rewrite files_by_part_snoc. split_and!.
  - rewrite group_append_keys. case_decide; [done|].
    apply NoDup_app. split_and!; [done| |apply NoDup_singleton].
    intros x Hx ->%list_elem_of_singleton. done.
  - intros k fs. rewrite group_append_elem, group_snoc by done.
    intros [[Hne Hin]|[-> [(fs0 & Hin & ->)|[Hnot ->]]]].
    + rewrite decide_False by done. by apply Hgroups.
    + rewrite decide_True by done.
      destruct (Hgroups _ _ Hin) as [-> _]. split; [done|].
      intros [_ ?]%app_eq_nil. done.
    + rewrite decide_True by done. split; [|done].
      replace (group (part_key f) l) with (@nil ftp_file); [done|].
      symmetry. apply elem_of_nil_inv. intros g [Hg Hgl]%list_elem_of_filter.
      apply Hnot. rewrite <- Hg. by apply Hkeys.
  - intros g [Hg| ->%list_elem_of_singleton]%elem_of_app;
      rewrite group_append_keys; case_decide; try done.
    + by apply Hkeys.
    + apply elem_of_app. left. by apply Hkeys.
    + apply elem_of_app. right. by apply list_elem_of_singleton.
Qed.

End Groups.

Section Sweep.

Implicit Types (f g : ftp_file) (d fs : list ftp_file).

(** In a directory no two entries have the same name. *)
Lemma name_inj d f g :
  NoDup (name <$> d) → f ∈ d → g ∈ d → name f = name g → f = g.
Proof.
  induction d as [|x d IH]; [by intros _ ?%elem_of_nil|].
  rewrite fmap_cons, NoDup_cons, !elem_of_cons.
  intros [Hx Hnd] [->|Hf] [->|Hg] Hname; [done| | |by apply IH].
  - destruct Hx. rewrite Hname. by apply list_elem_of_fmap_2.
  - destruct Hx. rewrite <- Hname. by apply list_elem_of_fmap_2.
Qed.

Lemma find_by_name d f :
  NoDup (name <$> d) → f ∈ d →
  List.find (λ g, bool_decide (name g = name f)) d = Some f.
Proof.
  intros Hnd. induction d as [|x d IH]; [by intros ?%elem_of_nil|].
  intros Hf. cbn [List.find]. case_bool_decide as Hname.
  - f_equal. eapply name_inj; [done|apply list_elem_of_here|done|done].
  - apply elem_of_cons in Hf as [->|Hf]; [done|].
    rewrite fmap_cons in Hnd. apply NoDup_cons in Hnd as [_ Hnd]. by apply IH.
Qed.

Lemma elem_of_without f fs d :
  f ∈ without fs d ↔ f ∈ d ∧ name f ∉ name <$> fs.
Proof. unfold without. rewrite list_elem_of_filter. tauto. Qed.

Lemma without_nil d : without [] d = d.
Proof.
  unfold without. induction d as [|x d IH]; [done|].
  rewrite filter_cons_True by apply not_elem_of_nil. by rewrite IH.
Qed.

Lemma without_app fs1 fs2 d :
  without (fs1 ++ fs2) d = without fs2 (without fs1 d).
Proof.
  unfold without. rewrite list_filter_filter. apply list_filter_iff.
  intros x. rewrite fmap_app, not_elem_of_app. tauto.
Qed.

Lemma without_sublist fs d : without fs d `sublist_of` d.
Proof. apply sublist_filter. Qed.

Lemma without_NoDup fs d :
  NoDup (name <$> d) → NoDup (name <$> without fs d).
Proof.
  intros Hnd. eapply sublist_NoDup; [done|].
  apply fmap_sublist, without_sublist.
Qed.

Lemma unlink_present f d :
  NoDup (name <$> d) → f ∈ d →
  unlink f d = if unlink_ok f then Ok (without [f] d)
               else Raised PermissionError.
Proof.
  intros Hnd Hf. unfold unlink. rewrite find_by_name by done.
  destruct (unlink_ok f); [|done]. f_equal. unfold without.
  apply list_filter_iff. intros x.
  by rewrite fmap_cons, fmap_nil, list_elem_of_singleton.
Qed.

Lemma remove_files_app fs1 fs2 d c :
  remove_files (fs1 ++ fs2) d c
  = match remove_files fs1 d c with
    | (d', Ok n) => remove_files fs2 d' n
    | (d', Raised e) => (d', Raised e)
    end.
Proof.
  revert d c. induction fs1 as [|f fs1 IH]; intros d c; [done|].
  cbn [app remove_files]. destruct (unlink f d); [apply IH|done].
Qed.

(** When every file can be removed, all of them go and all are counted. *)
Lemma remove_files_all fs d c :
  NoDup (name <$> d) → NoDup fs → fs ⊆ d →
  Forall (λ f, unlink_ok f = true) fs →
  remove_files fs d c = (without fs d, Ok (c + length fs)).
Proof.
  revert d c. induction fs as [|f fs IH]; intros d c Hnd Hfs Hsub Hok.
  { cbn. by rewrite without_nil, Nat.add_0_r. }
  apply NoDup_cons in Hfs as [Hf Hfs].
  apply Forall_cons in Hok as [Hokf Hok].
  assert (f ∈ d) as Hfd by (apply Hsub, list_elem_of_here).
  cbn [remove_files]. rewrite unlink_present, Hokf by done.
  rewrite IH; [|by apply without_NoDup|done| |done].
  - change (f :: fs) with ([f] ++ fs). rewrite without_app.
    f_equal. f_equal. cbn. lia.
  - intros g Hg. apply elem_of_without. split.
    + apply Hsub. by apply list_elem_of_further.
    + rewrite fmap_cons, fmap_nil, list_elem_of_singleton. intros Hname.
      assert (g = f) as ->; [|done].
      eapply name_inj; [done| |done|done].
      apply Hsub. by apply list_elem_of_further.
Qed.

(** The first file that cannot be removed ends the sweep with its
    exception; the files before it are gone, the others stay. *)
Lemma remove_files_stops pre e post d c :
  NoDup (name <$> d) → NoDup (pre ++ e :: post) → pre ++ e :: post ⊆ d →
  Forall (λ f, unlink_ok f = true) pre → unlink_ok e = false →
  remove_files (pre ++ e :: post) d c
  = (without pre d, Raised PermissionError).
Proof.
  intros Hnd Hfs Hsub Hok He.
  apply NoDup_app in Hfs as (Hpre & Hdisj & Hpost).
  rewrite remove_files_app, remove_files_all; [|done|done| |done].
  - cbn [remove_files]. rewrite unlink_present, He; [done| |].
    + by apply without_NoDup.
    + apply elem_of_without. split.
      * apply Hsub, elem_of_app. right. apply list_elem_of_here.
      * intros (g & Hname & Hg)%list_elem_of_fmap.
        assert (e = g) as ->.
        { eapply name_inj; [done| | |done].
          - apply Hsub, elem_of_app. right. apply list_elem_of_here.
          - apply Hsub, elem_of_app. by left. }
        eapply Hdisj; [done|]. apply list_elem_of_here.
  - intros g Hg. apply Hsub, elem_of_app. by left.
Qed.

(** The two loops of the sweep remove the stale files one after the
    other. *)
Lemma sweep_flat (G : list (string * list ftp_file)) keep d c :
  sweep G keep d c
  = remove_files
      (concat ((λ kfs, Py.slice_from keep (Py.sort_desc st_mtime kfs.2)) <$> G))
      d c.
Proof.
  revert d c. induction G as [|[k fs] G IH]; intros d c; [done|].
  cbn [sweep fmap list_fmap concat snd]. rewrite remove_files_app.
  destruct (remove_files _ d c) as [d' [n|e]]; [apply IH|done].
Qed.

Lemma cleanup_flat keep d :
  cleanup_old_ftp_files keep d = remove_files (stale keep d) d 0.
Proof. apply sweep_flat. Qed.

Lemma stale_submseteq keep d : stale keep d ⊆+ ftp_glob_nc d.
Proof.
  unfold stale. rewrite <- (files_by_part_concat (ftp_glob_nc d)) at 2.
  apply (concat_fmap_submseteq _ snd). intros kfs.
  etrans; [apply slice_from_submseteq|].
  apply Permutation_submseteq, sort_desc_perm.
Qed.

Lemma stale_subseteq keep d : stale keep d ⊆ d.
Proof.
  intros f Hf. eapply elem_of_submseteq in Hf; [|apply stale_submseteq].
  by apply list_elem_of_filter in Hf as [_ ?].
Qed.

Lemma stale_NoDup keep d : NoDup (name <$> d) → NoDup (stale keep d).
Proof.
  intros Hnd%NoDup_fmap_1. eapply submseteq_NoDup; [apply stale_submseteq|].
  by apply NoDup_filter.
Qed.

(** A file is stale when the slice of its own sorted group has it. *)
Lemma elem_of_stale keep d f :
  f ∈ stale keep d
  ↔ f ∈ Py.slice_from keep
          (Py.sort_desc st_mtime (group (part_key f) (ftp_glob_nc d))).
Proof.
  destruct (files_by_part_inv (ftp_glob_nc d)) as (_ & Hgroups & Hkeys).
  unfold stale. rewrite elem_of_concat. split.
  - intros (fs & Hf & ([k fs0] & -> & Hin)%list_elem_of_fmap).
    destruct (Hgroups _ _ Hin) as [Hfs0 _]. cbn [snd] in Hf.
    assert (f ∈ fs0) as Hf0.
    { eapply elem_of_submseteq in Hf; [|apply slice_from_submseteq].
      by rewrite sort_desc_perm in Hf. }
    rewrite Hfs0 in Hf0. apply list_elem_of_filter in Hf0 as [-> _].
    by rewrite <- Hfs0.
  - intros Hf.
    assert (f ∈ ftp_glob_nc d) as Hfd.
    { eapply elem_of_submseteq in Hf; [|apply slice_from_submseteq].
      rewrite sort_desc_perm in Hf.
      by apply list_elem_of_filter in Hf as [_ ?]. }
    apply Hkeys, list_elem_of_fmap in Hfd as ([k fs] & Hk & Hin).
    cbn [fst] in Hk. subst k.
    destruct (Hgroups _ _ Hin) as [-> _].
    eexists. split; [done|]. apply list_elem_of_fmap.
    by exists (part_key f, group (part_key f) (ftp_glob_nc d)).
Qed.

End Sweep.

Section Retention.

Implicit Types (f g : ftp_file) (d fs : list ftp_file).

Lemma filter_all {A} (P : A → Prop) `{∀ x, Decision (P x)} (l : list A) :
  Forall P l → filter P l = l.
Proof.
  induction 1 as [|x l Hx _ IH]; [done|].
  by rewrite filter_cons_True, IH.
Qed.

Lemma filter_none {A} (P : A → Prop) `{∀ x, Decision (P x)} (l : list A) :
  Forall (λ x, ¬ P x) l → filter P l = [].
Proof.
  induction 1 as [|x l Hx _ IH]; [done|].
  by rewrite filter_cons_False.
Qed.

(** Within a directory, having the name of a stale file is being one. *)
Lemma stale_by_name keep d f :
  NoDup (name <$> d) → f ∈ d →
  name f ∈ name <$> stale keep d ↔ f ∈ stale keep d.
Proof.
  intros Hnd Hf. split; [|apply list_elem_of_fmap_2].
  intros (g & Hname & Hg)%list_elem_of_fmap.
  assert (f = g) as ->; [|done].
  eapply name_inj; [done|done| |done]. by apply stale_subseteq in Hg.
Qed.

Lemma group_glob_without key fs d :
  group key (ftp_glob_nc (without fs d))
  = without fs (group key (ftp_glob_nc d)).
Proof.
  unfold group, ftp_glob_nc, without.
  rewrite !list_filter_filter. apply list_filter_iff. intros x. tauto.
Qed.

(** What is left of a group is its [keep_count] first files in sorted
    order. *)
Lemma kept_of_group keep d key :
  (0 ≤ keep)%Z → NoDup (name <$> d) →
  group key (ftp_glob_nc (without (stale keep d) d))
  ≡ₚ take (Z.to_nat keep)
       (Py.sort_desc st_mtime (group key (ftp_glob_nc d))).
Proof.
  intros Hkeep Hnd. rewrite group_glob_without.
  set (g0 := group key (ftp_glob_nc d)).
  set (sg := Py.sort_desc st_mtime g0).
  assert (Hsg : sg ≡ₚ g0) by apply sort_desc_perm.
  assert (Hin : ∀ f, f ∈ sg → f ∈ d ∧ part_key f = key).
  { intros f Hf. rewrite Hsg in Hf.
    apply list_elem_of_filter in Hf as [Hk Hf].
    by apply list_elem_of_filter in Hf as [_ Hf]. }
  assert (Hsplit : ∀ f, f ∈ sg →
            f ∈ stale keep d ↔ f ∈ drop (Z.to_nat keep) sg).
  { intros f [_ Hf]%Hin. rewrite elem_of_stale, Hf. fold g0. fold sg.
    unfold Py.slice_from. by rewrite (proj2 (Z.leb_le 0 keep) Hkeep). }
  assert (Hndsg : NoDup sg).
  { rewrite Hsg. unfold g0, group, ftp_glob_nc.
    apply NoDup_filter, NoDup_filter. by apply NoDup_fmap_1 in Hnd. }
  assert (Hparts : ∀ f, f ∈ sg ↔ f ∈ take (Z.to_nat keep) sg
                                 ∨ f ∈ drop (Z.to_nat keep) sg).
  { intros f. by rewrite <- elem_of_app, take_drop. }
  rewrite <- (take_drop (Z.to_nat keep) sg) in Hndsg.
  apply NoDup_app in Hndsg as (_ & Hdisj & _).
  unfold without. rewrite <- Hsg.
  rewrite <- (take_drop (Z.to_nat keep) sg) at 1.
  rewrite filter_app, filter_all, filter_none, app_nil_r; [done| |].
  - apply Forall_forall. intros f Hf Hnot. apply Hnot.
    assert (f ∈ sg) as Hfsg by (apply Hparts; by right).
    apply stale_by_name; [done|by apply Hin|]. by apply Hsplit.
  - apply Forall_forall. intros f Hf Hname.
    assert (f ∈ sg) as Hfsg by (apply Hparts; by left).
    apply stale_by_name in Hname; [|done|by apply Hin].
    apply Hsplit in Hname; [|done]. by eapply Hdisj.
Qed.

(** The directory splits into what stays and what is stale. *)
Lemma without_stale_perm keep d :
  NoDup (name <$> d) → d ≡ₚ without (stale keep d) d ++ stale keep d.
Proof.
  intros Hnd. assert (NoDup d) as Hd by (by apply NoDup_fmap_1 in Hnd).
  apply NoDup_Permutation; [done| |].
  - apply NoDup_app. split_and!.
    + by apply NoDup_filter.
    + intros f [Hf Hname]%elem_of_without Hs. apply Hname.
      by apply list_elem_of_fmap_2.
    + by apply stale_NoDup.
  - intros f. rewrite elem_of_app, elem_of_without. split.
    + intros Hf.
      destruct (decide (name f ∈ name <$> stale keep d)) as [Hs|Hs].
      * right. by apply stale_by_name in Hs.
      * by left.
    + intros [[? _]|?%stale_subseteq]; done.
Qed.

Lemma stale_after_sweep keep d :
  (0 ≤ keep)%Z → NoDup (name <$> d) →
  stale keep (without (stale keep d) d) = [].
Proof.
  intros Hkeep Hnd. apply elem_of_nil_inv. intros f.
  rewrite elem_of_stale, slice_from_short; [apply not_elem_of_nil|done|].
  rewrite sort_desc_length, kept_of_group by done. apply firstn_le_length.
Qed.

End Retention.

(** C4, as the claim words it, fails: with one copy kept, the sweep of
    three versions comes to the second version first, cannot remove it, and
    ends with the exception; no count is returned, and the first version,
    which could be removed, is still there. *)
Lemma sweep_raises_on_locked_file :
  cleanup_old_ftp_files 1 ftp_locked = (ftp_locked, Raised PermissionError)
  ∧ ¬ sweep_survives_failure 1 ftp_locked.
Proof.
  split; [reflexivity|].
  intros (d' & n & Hsweep & _). vm_compute in Hsweep. discriminate.
Qed.

(** C4, amended.  When the sweep comes to a stale file that cannot be
    removed, the exception ends the sweep: the stale files before it are
    gone, that file and the stale files after it are still in the
    directory, and no count is returned. *)
Theorem sweep_stops_at_failure (keep_count : Z) (d pre post : list ftp_file)
    (e : ftp_file) :
  NoDup (name <$> d) →
  stale keep_count d = pre ++ e :: post →
  Forall (λ f, unlink_ok f = true) pre →
  unlink_ok e = false →
  cleanup_old_ftp_files keep_count d
  = (without pre d, Raised PermissionError)
  ∧ (∀ f, f ∈ e :: post → f ∈ without pre d)
  ∧ (∀ f, f ∈ pre → f ∉ without pre d).
Proof.
  intros Hnd Hstale Hok He.
  pose proof (stale_NoDup keep_count d Hnd) as Hnds.
  pose proof (stale_subseteq keep_count d) as Hsub.
  rewrite Hstale in Hnds, Hsub. split_and!.
  - rewrite cleanup_flat, Hstale. by apply remove_files_stops.
  - intros f Hf. apply elem_of_without. split.
    + apply Hsub, elem_of_app. by right.
    + intros (g & Hname & Hg)%list_elem_of_fmap.
      assert (f = g) as ->.
      { eapply name_inj; [done| | |done]; apply Hsub, elem_of_app; auto. }
      apply NoDup_app in Hnds as (_ & Hdisj & _). by eapply Hdisj.
  - intros f Hf [_ Hname]%elem_of_without. apply Hname.
    by apply list_elem_of_fmap_2.
Qed.

Lemma sweep_stops_at_failure_witness :
  cleanup_old_ftp_files 0 ftp_locked
  = ([ftp "1001_v1_2025-10-28-0900.nc" 1 true;
      ftp "1001_v2_2025-10-29-0900.nc" 2 false],
     Raised PermissionError).
Proof.
  apply (sweep_stops_at_failure 0 ftp_locked
           [ftp "1001_v3_2025-10-30-0900.nc" 3 true]
           [ftp "1001_v1_2025-10-28-0900.nc" 1 true]
           (ftp "1001_v2_2025-10-29-0900.nc" 2 false)).
  - apply (bool_decide_unpack _). vm_compute. exact I.
  - vm_compute. reflexivity.
  - repeat constructor.
  - reflexivity.
Defined.

(** ** Version numbers *)

Section Names.

Implicit Types (s t : string) (c : ascii) (p q : ascii → bool).

Lemma sall_app p s t : sall p (s +:+ t) = sall p s && sall p t.
Proof.
  induction s as [|c s IH]; [done|].
  simpl. by rewrite IH, andb_assoc.
Qed.

Lemma sall_impl p q s :
  (∀ c, p c = true → q c = true) → sall p s = true → sall q s = true.
Proof.
  intros Hpq. induction s as [|c s IH]; [done|]. cbn [sall].
  intros [Hc Hs]%andb_prop. by rewrite (Hpq c Hc), IH.
Qed.

Lemma sall_smap p f s : sall p (Py.smap f s) = sall (λ c, p (f c)) s.
Proof. induction s as [|c s IH]; [done|]. cbn. by rewrite IH. Qed.

Lemma sall_lstrip p q s :
  sall p s = true → sall p (Py.lstrip_by q s) = true.
Proof.
  induction s as [|c s IH]; [done|]. cbn [Py.lstrip_by].
  destruct (q c); [|done]. cbn [sall]. intros [_ Hs]%andb_prop. auto.
Qed.

Lemma sall_rstrip p q s :
  sall p s = true → sall p (Py.rstrip_by q s) = true.
Proof.
  induction s as [|c s IH]; [done|]. cbn [Py.rstrip_by sall].
  intros [Hc Hs]%andb_prop. specialize (IH Hs).
  destruct (Py.rstrip_by q s).
  - destruct (q c); [done|]. cbn. by rewrite Hc.
  - cbn [sall] in *. by rewrite Hc, IH.
Qed.

Lemma sall_sub_underscores p b s :
  sall p s = true → sall p (Py.sub_underscores_from b s) = true.
Proof.
  revert b. induction s as [|c s IH]; intros b; [done|].
  cbn [Py.sub_underscores_from sall]. intros [Hc Hs]%andb_prop.
  destruct (Ascii.eqb c "_") eqn:Hu.
  - apply Ascii.eqb_eq in Hu as ->.
    destruct b; cbn [sall]; rewrite ?Hc; by apply IH.
  - cbn [sall]. rewrite Hc. by apply IH.
Qed.

Lemma path_safe_sub_unsafe c :
  path_safe (if Py.is_word c || Ascii.eqb c "-" then c else "_"%char) = true.
Proof. by destruct c as [[] [] [] [] [] [] [] []]. Qed.

Lemma path_safe_lower c : path_safe c = true → path_safe (Py.lower_char c) = true.
Proof. by destruct c as [[] [] [] [] [] [] [] []]. Qed.

Lemma path_safe_digit c : Py.is_digit c = true → path_safe c = true.
Proof. by destruct c as [[] [] [] [] [] [] [] []]. Qed.

(** A sanitized name has neither a separator nor a null character. *)
Lemma sanitize_path_safe s : sall path_safe (_sanitize_filename s) = true.
Proof.
  unfold _sanitize_filename, Py.lower, Py.strip_chars, Py.strip_by.
  rewrite sall_smap.
  apply (sall_impl path_safe); [apply path_safe_lower|].
  apply sall_rstrip, sall_lstrip, sall_sub_underscores.
  unfold Py.sub_unsafe. rewrite sall_smap.
  induction s as [|c s IH]; [done|]. cbn [sall].
  by rewrite path_safe_sub_unsafe, IH.
Qed.

Lemma pretty_N_char_digit x : Py.is_digit (pretty_N_char x) = true.
Proof. unfold pretty_N_char. by repeat case_match. Qed.

Lemma pretty_N_go_digits x s :
  sall Py.is_digit s = true → sall Py.is_digit (pretty_N_go x s) = true.
Proof.
  revert s. induction (N.lt_wf_0 x) as [x _ IH]; intros s Hs.
  destruct (decide (x = 0)%N) as [->|Hx]; [done|].
  rewrite pretty_N_go_step by lia. apply IH.
  - apply N.div_lt; lia.
  - cbn [sall]. by rewrite pretty_N_char_digit, Hs.
Qed.

Lemma pretty_nat_digits (n : nat) : sall Py.is_digit (pretty n) = true.
Proof.
  unfold pretty, pretty_nat, pretty, pretty_N.
  case_decide; [done|]. by apply pretty_N_go_digits.
Qed.



Lemma contains_char c s :
  Py.contains (String c EmptyString) s
  = negb (sall (λ x, negb (Ascii.eqb x c)) s).
Proof.
  induction s as [|x s IH]; [done|].
  cbn [Py.contains String.prefix sall]. rewrite IH.
  destruct (ascii_dec c x) as [->|Hne].
  - rewrite Ascii.eqb_refl. by destruct s.
  - apply not_eq_sym, Ascii.eqb_neq in Hne. by rewrite Hne.
Qed.

End Names.

Section Archive.

Implicit Types (a : gmap (list string) (gmap string file)).
Implicit Types (p q : list string) (d : gmap string file).

Lemma listdir_mkdir q a p : listdir (mkdir q a) p = listdir a p.
Proof.
  unfold listdir, mkdir. destruct (a !! q) eqn:Hq; [done|].
  destruct (decide (q = p)) as [->|Hne].
  - by rewrite lookup_insert_eq, Hq.
  - by rewrite lookup_insert_ne.
Qed.

Lemma listdir_write_file p n f a :
  listdir (write_file p n f a) p = <[n := f]> (listdir a p).
Proof. unfold write_file, listdir at 1. by rewrite lookup_insert_eq. Qed.

Lemma listdir_write_file_ne p q n f a :
  p ≠ q → listdir (write_file p n f a) q = listdir a q.
Proof. intros. unfold write_file, listdir at 1. by rewrite lookup_insert_ne. Qed.

Lemma get_part_dir_spec proj prt a :
  ∃ a', get_part_dir proj prt a = (a', part_dir_of proj prt)
        ∧ ∀ q, listdir a' q = listdir a q.
Proof.
  eexists. split; [reflexivity|].
  intros q. by rewrite !listdir_mkdir.
Qed.

Lemma get_next_version_number_spec proj prt a :
  ∃ a', get_next_version_number proj prt a
        = (a', length (glob_nc (listdir a (part_dir_of proj prt))) + 1)
        ∧ ∀ q, listdir a' q = listdir a q.
Proof.
  unfold get_next_version_number, get_existing_versions.
  destruct (get_part_dir_spec proj prt a) as (a' & -> & Ha').
  exists a'. split; [|done]. by rewrite sort_desc_length, Ha'.
Qed.


Lemma NoDup_glob_nc_names d : NoDup (glob_nc d).*1.
Proof.
  eapply sublist_NoDup; [apply (NoDup_fst_map_to_list d)|].
  apply fmap_sublist, sublist_filter.
Qed.




(** One archival: the version is the number of [*.nc] files of the part
    directory plus one; the call writes the versioned file and the
    changelog into that directory and nothing elsewhere, unless the file
    name is refused, in which case it writes nothing. *)
Lemma archive_gcode_spec source m now a :
  let p := part_dir_of (project m) (part m) in
  let v := length (glob_nc (listdir a p)) + 1 in
  let filename :=
    version_filename (_sanitize_filename (part m)) v (posted_timestamp m) in
  ∃ a',
    (∀ q, q ≠ p → listdir a' q = listdir a q)
    ∧ match name_error filename with
      | Some e =>
          archive_gcode source m now a = (a', Raised e)
          ∧ listdir a' p = listdir a p
      | None =>
          archive_gcode source m now a = (a', Ok (p, filename, v))
          ∧ ∃ log, listdir a' p
                   = <["CHANGELOG.md" := log]> (<[filename := source]> (listdir a p))
      end.
Proof.
  intros p v filename. unfold archive_gcode.
  destruct (get_part_dir_spec (project m) (part m) a) as (a1 & -> & Ha1).
  destruct (get_next_version_number_spec (project m) (part m) a1)
    as (a2 & -> & Ha2).
  fold p. rewrite Ha1. fold v. fold filename.
  destruct (name_error filename) as [e|].
  - exists a2. split_and!; [|done|]; intros; by rewrite Ha2, Ha1.
  - eexists. split_and!; [|reflexivity|].
    + intros q Hq. unfold _update_changelog.
      by rewrite !listdir_write_file_ne, Ha2, Ha1.
    + eexists. unfold _update_changelog.
      by rewrite !listdir_write_file, Ha2, Ha1.
Qed.

End Archive.

Section Versions.

Implicit Types (a : gmap (list string) (gmap string file)).
Implicit Types (d : gmap string file) (tss : list string).

Lemma endswith_append_r suffix s t :
  Py.endswith suffix t = true → Py.endswith suffix (s +:+ t) = true.
Proof.
  intros Ht. induction s as [|c s IH]; [done|].
  simpl. rewrite IH. apply orb_true_r.
Qed.

Lemma endswith_self suffix : Py.endswith suffix suffix = true.
Proof. destruct suffix; simpl; [done|]. by rewrite Ascii.eqb_refl, String.eqb_refl. Qed.

Lemma version_filename_nc safe v ts :
  Py.endswith ".nc" (version_filename safe v ts) = true.
Proof.
  unfold version_filename.
  do 4 apply endswith_append_r. simpl.
  apply endswith_append_r, endswith_self.
Qed.

End Versions.

(** ** The changelog *)

Section Changelog.

Implicit Types (s t : string) (d : gmap string file) (v : nat).

Lemma universal_newlines_clean s t :
  sall (λ c, negb (Ascii.eqb c "013")) s = true →
  Py.universal_newlines (s +:+ t) = s +:+ Py.universal_newlines t.
Proof.
  induction s as [|c s IH]; [done|]. cbn [sall].
  intros [Hc Hs]%andb_prop. rewrite !append_cons.
  cbn [Py.universal_newlines].
  apply negb_true_iff in Hc. by rewrite Hc, IH.
Qed.

Lemma readlines_line s t :
  sall (λ c, negb (Ascii.eqb c "010")) s = true →
  Py.readlines (s +:+ nl +:+ t) = (s +:+ nl) :: Py.readlines t.
Proof.
  induction s as [|c s IH]; [done|]. cbn [sall].
  intros [Hc Hs]%andb_prop. rewrite !append_cons.
  cbn [Py.readlines].
  apply negb_true_iff in Hc. by rewrite Hc, IH.
Qed.

Lemma join_readlines s : Py.join (Py.readlines s) = s.
Proof.
  induction s as [|c s IH]; [done|]. simpl.
  destruct (Ascii.eqb c "010"); simpl.
  - by rewrite IH.
  - unfold Py.join in IH. destruct (Py.readlines s); simpl in *; by rewrite <- IH.
Qed.

Lemma no_line_break_lf s :
  no_line_break s = true → sall (λ c, negb (Ascii.eqb c "010")) s = true.
Proof. apply sall_impl. by intros c [? _]%andb_prop. Qed.

Lemma no_line_break_cr s :
  no_line_break s = true → sall (λ c, negb (Ascii.eqb c "013")) s = true.
Proof. apply sall_impl. by intros c [_ ?]%andb_prop. Qed.

Lemma digits_no_line_break s :
  sall Py.is_digit s = true → no_line_break s = true.
Proof.
  apply sall_impl. intros c. by destruct c as [[] [] [] [] [] [] [] []].
Qed.

Lemma changelog_entry_split m v :
  changelog_entry m v = entry_head m v +:+ entry_tail m.
Proof. unfold changelog_entry, entry_head, entry_tail. by rewrite !append_assoc. Qed.

Lemma no_line_break_app s t :
  no_line_break (s +:+ t) = no_line_break s && no_line_break t.
Proof. apply sall_app. Qed.

Lemma entry_head_no_line_feed_1 m v :
  no_line_break (posted_timestamp m) = true →
  no_line_break
    ("## Version " +:+ pretty v +:+ " - " +:+ posted_timestamp m) = true.
Proof.
  intros Hts. rewrite !no_line_break_app, Hts.
  by rewrite (digits_no_line_break _ (pretty_nat_digits v)).
Qed.

Lemma entry_head_no_line_feed_3 m :
  no_line_break (setup m) = true →
  no_line_break ("- **Setup:** " +:+ setup m) = true.
Proof. intros Hs. by rewrite !no_line_break_app, Hs. Qed.

(** Re-reading a changelog that opens with an entry takes the heading, the
    blank line and the setup line of that entry for the header: what is
    kept starts at the machine line. *)
Lemma existing_content_after_entry d f m v rest :
  d !! "CHANGELOG.md" = Some f →
  content f = changelog_entry m v +:+ rest →
  no_line_break (posted_timestamp m) = true →
  no_line_break (setup m) = true →
  existing_content d = Py.universal_newlines (entry_tail m +:+ rest).
Proof.
  intros Hf Hcontent Hts Hsetup. unfold existing_content.
  rewrite Hf, Hcontent, changelog_entry_split, append_assoc.
  set (y := entry_tail m +:+ rest).
  set (l1 := "## Version " +:+ pretty v +:+ " - " +:+ posted_timestamp m).
  set (l3 := "- **Setup:** " +:+ setup m).
  assert (Hhead : ∀ t, entry_head m v +:+ t
                       = l1 +:+ nl +:+ (EmptyString +:+ nl +:+ (l3 +:+ nl +:+ t))).
  { intros t. unfold entry_head, l1, l3. by rewrite !append_assoc. }
  assert (H1 : no_line_break l1 = true) by (by apply entry_head_no_line_feed_1).
  assert (H3 : no_line_break l3 = true) by (by apply entry_head_no_line_feed_3).
  assert (Hcr : sall (λ c, negb (Ascii.eqb c "013")) (entry_head m v) = true).
  { unfold entry_head.
    rewrite !sall_app, (no_line_break_cr _ Hts), (no_line_break_cr _ Hsetup).
    by rewrite (no_line_break_cr _
                  (digits_no_line_break _ (pretty_nat_digits v))). }
  rewrite universal_newlines_clean by done.
  rewrite Hhead.
  rewrite (readlines_line l1) by (by apply no_line_break_lf).
  rewrite (readlines_line EmptyString) by done.
  rewrite (readlines_line l3) by (by apply no_line_break_lf).
  assert (Py.startswith "#" (l1 +:+ nl) = true) as -> by reflexivity.
  cbn [drop]. by rewrite drop_0, join_readlines.
Qed.

End Changelog.

(** The first archival writes the header and the entry. *)
Example changelog_after_one :
  changelog_of (archived_times 1).1 "test-project" "1001"
  = Some (changelog_header test_metadata +:+ changelog_entry test_metadata 1).
Proof. vm_compute. reflexivity. Qed.

(** The second archival keeps the first entry and writes no header: the
    header is read over and not written again. *)
Example changelog_after_two :
  changelog_of (archived_times 2).1 "test-project" "1001"
  = Some (changelog_entry (with_posted "2025-10-31-0930" test_metadata) 2
          +:+ nl +:+ changelog_entry test_metadata 1).
Proof. vm_compute. reflexivity. Qed.

(** C1 fails on the code at the third archival.  The changelog then opens
    with the heading of the second entry, which begins with [#] as the
    header did, so its first three lines are taken for the header and
    dropped: of three entries two headings are left, and the second entry
    is no longer in the text. *)
Theorem changelog_third_archival_drops_lines :
  ∃ text,
    changelog_of (archived_times 3).1 "test-project" "1001" = Some text
    ∧ text
      = changelog_entry (with_posted "2025-11-01-1015" test_metadata) 3
        +:+ Py.join (drop 3 (Py.readlines
              (changelog_entry (with_posted "2025-10-31-0930" test_metadata) 2)))
        +:+ nl +:+ changelog_entry test_metadata 1
    ∧ entry_headings text
      = ["## Version 3 - 2025-11-01-1015" +:+ nl;
         "## Version 1 - 2025-10-30-1445" +:+ nl]
    ∧ Py.contains
        (changelog_entry (with_posted "2025-10-31-0930" test_metadata) 2)
        text = false
    ∧ Py.contains "## Version 2" text = false.
Proof.
  eexists. split; [vm_compute; reflexivity|].
  split_and!; vm_compute; reflexivity.
Qed.

(** ** Change detection: the rules together *)

(** X1.  The warnings of a comparison, in the order they are emitted: the
    tool-count warning when the counts differ by two or more, then the
    operations warning when the operation counts differ, then the machine
    warning when the machines differ; nothing else, and nothing for the
    setup. *)
Theorem compare_metadata_warnings (o n : GCodeMetadata) :
  warnings (compare_metadata o n)
  = (if decide (Z.abs (tool_count n - tool_count o) >= 2)%Z
     then [tool_count_warning (tool_count o) (tool_count n)] else [])
    ++ (if decide (operations o ≠ operations n)
        then [operations_warning (operations o) (operations n)] else [])
    ++ (if decide (machine o ≠ machine n)
        then [machine_warning (machine o) (machine n)] else []).
Proof.
  unfold compare_metadata, check_setup, check_machine, check_operations,
    check_tool_count.
  destruct (decide (tool_count o ≠ tool_count n)) as [Ht|Ht].
  - repeat case_decide; reflexivity.
  - apply dec_stable in Ht.
    rewrite (decide_False (P := (Z.abs _ >= 2)%Z)) by lia.
    repeat case_decide; reflexivity.
Qed.

(** X2.  The keys of [changes] are the compared fields on which the records
    differ, each with the old and the new value; [has_changes] is set
    exactly when there is such a field. *)
Theorem compare_metadata_changes (o n : GCodeMetadata) :
  dom (changes (compare_metadata o n)) = differing_fields o n
  ∧ (has_changes (compare_metadata o n) = true
     ↔ compared_fields o ≠ compared_fields n)
  ∧ (has_changes (compare_metadata o n) = true
     ↔ changes (compare_metadata o n) ≠ ∅)
  ∧ (∀ c, changes (compare_metadata o n) !! "operations" = Some c →
          c = {| old := VInt (operations o); new := VInt (operations n) |})
  ∧ (∀ c, changes (compare_metadata o n) !! "machine" = Some c →
          c = {| old := VStr (machine o); new := VStr (machine n) |}).
Proof.
  unfold compare_metadata, check_setup, check_machine, check_operations,
    check_tool_count, differing_fields, compared_fields.
  split_and!.
  - repeat case_decide; cbn [changes set_change set_has_changes no_changes];
      rewrite ?dom_insert_L, ?dom_empty_L; set_solver.
  - repeat case_decide; cbn; split; try done; try congruence.
  - repeat case_decide; cbn; split; try done;
      try (intros _; apply insert_non_empty).
  - intros c. repeat case_decide; cbn; intros; by simplify_map_eq.
  - intros c. repeat case_decide; cbn; intros; by simplify_map_eq.
Qed.

(** ** Sanitized names *)

Section SanitizedNames.

Implicit Types (s t u sub : string) (c : ascii) (p : ascii → bool).

Lemma append_nil_r s : s +:+ EmptyString = s.
Proof. induction s as [|c s IH]; [done|]. by rewrite append_cons, IH. Qed.

(** [sub in s] holds when [s] can be cut around an occurrence of [sub]. *)
Lemma contains_iff sub s :
  Py.contains sub s = true ↔ ∃ a b, s = a +:+ sub +:+ b.
Proof.
  split.
  - induction s as [|c s IH]; cbn [Py.contains].
    + rewrite orb_false_r. intros Hp%prefix_sdrop. by exists EmptyString, (Py.sdrop (String.length sub) EmptyString).
    + intros [Hp%prefix_sdrop|Hc]%orb_prop.
      * by exists EmptyString, (Py.sdrop (String.length sub) (String c s)).
      * destruct (IH Hc) as (a & b & ->). by exists (String c a), b.
  - intros (a & b & ->). induction a as [|c a IH].
    + change (EmptyString +:+ sub +:+ b) with (sub +:+ b).
      destruct (sub +:+ b) eqn:E; cbn [Py.contains];
        rewrite <- E, prefix_append; done.
    + rewrite append_cons. cbn [Py.contains]. rewrite IH. apply orb_true_r.
Qed.

Lemma lstrip_suffix p s : ∃ u, s = u +:+ Py.lstrip_by p s.
Proof.
  induction s as [|c s [u IH]]; [by exists EmptyString|].
  cbn [Py.lstrip_by]. destruct (p c).
  - exists (String c u). by rewrite append_cons, <- IH.
  - by exists EmptyString.
Qed.

Lemma rstrip_prefix p s : ∃ u, s = Py.rstrip_by p s +:+ u.
Proof.
  induction s as [|c s [u IH]]; [by exists EmptyString|].
  cbn [Py.rstrip_by]. destruct (Py.rstrip_by p s) as [|c' r] eqn:Hr.
  - destruct (p c).
    + by exists (String c s).
    + exists s. by rewrite append_cons.
  - exists u. by rewrite append_cons, <- IH.
Qed.

Lemma contains_lstrip sub p s :
  Py.contains sub (Py.lstrip_by p s) = true → Py.contains sub s = true.
Proof.
  rewrite !contains_iff. intros (a & b & Heq).
  destruct (lstrip_suffix p s) as [u Hu]. exists (u +:+ a), b.
  by rewrite Hu at 1; rewrite Heq, !append_assoc.
Qed.

Lemma contains_rstrip sub p s :
  Py.contains sub (Py.rstrip_by p s) = true → Py.contains sub s = true.
Proof.
  rewrite !contains_iff. intros (a & b & Heq).
  destruct (rstrip_prefix p s) as [u Hu]. exists a, (b +:+ u).
  by rewrite Hu at 1; rewrite Heq, !append_assoc.
Qed.

Lemma contains_strip sub p s :
  Py.contains sub (Py.strip_by p s) = true → Py.contains sub s = true.
Proof. intros H%contains_rstrip. by eapply contains_lstrip. Qed.


Lemma prefix_nil s : String.prefix EmptyString s = true.
Proof. by destruct s. Qed.

Lemma startswith_underscore c s :
  Py.startswith "_" (String c s) = is_underscore c.
Proof.
  unfold Py.startswith, is_underscore. cbn [String.prefix].
  rewrite prefix_nil.
  destruct (ascii_dec "_" c) as [<-|Hn]; [done|].
  symmetry. apply Ascii.eqb_neq. congruence.
Qed.

Lemma prefix_underscores c s :
  String.prefix "__" (String c s) = is_underscore c && Py.startswith "_" s.
Proof.
  change (String.prefix "__" (String c s))
    with (if ascii_dec "_" c then Py.startswith "_" s else false).
  unfold is_underscore.
  destruct (ascii_dec "_" c) as [<-|Hn]; [done|].
  symmetry. apply andb_false_intro1, Ascii.eqb_neq. congruence.
Qed.

Lemma contains_underscores c s :
  Py.contains "__" (String c s)
  = is_underscore c && Py.startswith "_" s || Py.contains "__" s.
Proof. cbn [Py.contains]. by rewrite prefix_underscores. Qed.

Lemma endswith_underscore c s :
  Py.endswith "_" (String c s)
  = match s with
    | EmptyString => is_underscore c
    | _ => Py.endswith "_" s
    end.
Proof.
  cbn [Py.endswith]. destruct s as [|c' s].
  - cbn. unfold is_underscore. by destruct (Ascii.eqb c "_").
  - cbn [String.eqb]. by destruct (Ascii.eqb c "_").
Qed.

(** What the collapsing pass leaves. *)
Lemma sub_underscores_from_shape b s :
  Py.contains "__" (Py.sub_underscores_from b s) = false
  ∧ (b = true → Py.startswith "_" (Py.sub_underscores_from b s) = false).
Proof.
  revert b. induction s as [|c s IH]; intros b; [done|].
  cbn [Py.sub_underscores_from].
  destruct (Ascii.eqb c "_") eqn:Hc.
  - destruct b; [apply IH|].
    destruct (IH true) as [H1 H2]. split; [|done].
    by rewrite contains_underscores, H1, (H2 eq_refl).
  - destruct (IH false) as [H1 _]. split.
    + rewrite contains_underscores, H1. unfold is_underscore. by rewrite Hc.
    + intros _. by rewrite startswith_underscore.
Qed.

Lemma startswith_lstrip s :
  Py.startswith "_" (Py.lstrip_by is_underscore s) = false.
Proof.
  induction s as [|c s IH]; [done|]. cbn [Py.lstrip_by].
  destruct (is_underscore c) eqn:Hc; [done|].
  by rewrite startswith_underscore.
Qed.

Lemma startswith_rstrip p s :
  Py.startswith "_" s = false → Py.startswith "_" (Py.rstrip_by p s) = false.
Proof.
  destruct s as [|c s]; [done|]. cbn [Py.rstrip_by].
  rewrite startswith_underscore. intros Hc.
  destruct (Py.rstrip_by p s); [destruct (p c)|];
    by rewrite ?startswith_underscore.
Qed.

Lemma endswith_rstrip s :
  Py.endswith "_" (Py.rstrip_by is_underscore s) = false.
Proof.
  induction s as [|c s IH]; [done|]. cbn [Py.rstrip_by].
  destruct (Py.rstrip_by is_underscore s) as [|c' r].
  - destruct (is_underscore c) eqn:Hc; [done|].
    by rewrite endswith_underscore.
  - by rewrite endswith_underscore.
Qed.

(** A character map that keeps underscores, and only them, as they are
    moves no underscore. *)
Section Smap.

Variable f : ascii → ascii.
Hypothesis f_underscore : ∀ c, is_underscore (f c) = is_underscore c.

Lemma startswith_smap s :
  Py.startswith "_" (Py.smap f s) = Py.startswith "_" s.
Proof.
  destruct s as [|c s]; [done|]. cbn [Py.smap].
  by rewrite !startswith_underscore.
Qed.

Lemma endswith_smap s :
  Py.endswith "_" (Py.smap f s) = Py.endswith "_" s.
Proof.
  induction s as [|c s IH]; [done|]. cbn [Py.smap].
  rewrite !endswith_underscore, IH, f_underscore. by destruct s.
Qed.

Lemma contains_smap s :
  Py.contains "__" (Py.smap f s) = Py.contains "__" s.
Proof.
  induction s as [|c s IH]; [done|]. cbn [Py.smap].
  by rewrite !contains_underscores, IH, startswith_smap, f_underscore.
Qed.

End Smap.

Lemma lower_char_underscore c :
  is_underscore (Py.lower_char c) = is_underscore c.
Proof. by destruct c as [[] [] [] [] [] [] [] []]. Qed.

Lemma sanitized_char_sub_unsafe c :
  sanitized_char
    (Py.lower_char (if Py.is_word c || Ascii.eqb c "-" then c else "_"%char))
  = true.
Proof. by destruct c as [[] [] [] [] [] [] [] []]. Qed.

Lemma sanitized_char_word c :
  sanitized_char c = true → (Py.is_word c || Ascii.eqb c "-") = true.
Proof. unfold sanitized_char. by intros [? _]%andb_prop. Qed.

Lemma sanitized_char_lower c :
  sanitized_char c = true → Py.lower_char c = c.
Proof.
  unfold sanitized_char. intros [_ H]%andb_prop. by apply Ascii.eqb_eq.
Qed.

Lemma smap_id f s :
  sall (λ c, Ascii.eqb (f c) c) s = true → Py.smap f s = s.
Proof.
  induction s as [|c s IH]; [done|]. cbn [sall Py.smap].
  intros [Hc Hs]%andb_prop. apply Ascii.eqb_eq in Hc. by rewrite Hc, IH.
Qed.

Lemma sub_underscores_from_id b s :
  Py.contains "__" s = false →
  (b = true → Py.startswith "_" s = false) →
  Py.sub_underscores_from b s = s.
Proof.
  revert b. induction s as [|c s IH]; intros b Hc Hb; [done|].
  rewrite contains_underscores in Hc. apply orb_false_elim in Hc as [Hp Hc].
  rewrite startswith_underscore in Hb.
  cbn [Py.sub_underscores_from]. fold (is_underscore c).
  destruct (is_underscore c) eqn:Hu.
  - destruct b; [by specialize (Hb eq_refl)|].
    f_equal; [by apply Ascii.eqb_eq in Hu|]. by apply IH.
  - f_equal. by apply IH.
Qed.

Lemma lstrip_id s :
  Py.startswith "_" s = false → Py.lstrip_by is_underscore s = s.
Proof.
  destruct s as [|c s]; [done|]. rewrite startswith_underscore.
  cbn [Py.lstrip_by]. by intros ->.
Qed.

Lemma rstrip_id s :
  Py.endswith "_" s = false → Py.rstrip_by is_underscore s = s.
Proof.
  induction s as [|c s IH]; [done|]. rewrite endswith_underscore.
  cbn [Py.rstrip_by]. destruct s as [|c' s].
  - by intros ->.
  - intros Hs. by rewrite (IH Hs).
Qed.

End SanitizedNames.

Section SanitizeFilename.

Implicit Types (s : string) (c : ascii) (p : ascii → bool).

Lemma rstrip_nil_iff p s :
  Py.rstrip_by p s = EmptyString ↔ sall p s = true.
Proof.
  induction s as [|c s IH]; [done|]. cbn [Py.rstrip_by sall].
  destruct (Py.rstrip_by p s) eqn:Hr.
  - destruct (p c); [|by split].
    split; [intros _; by apply IH|done].
  - split; [done|]. intros [_ Hs]%andb_prop. by apply IH in Hs.
Qed.

Lemma lstrip_nil_iff p s :
  Py.lstrip_by p s = EmptyString ↔ sall p s = true.
Proof.
  induction s as [|c s IH]; [done|]. cbn [Py.lstrip_by sall].
  destruct (p c); [done|by split].
Qed.

Lemma strip_nil_iff p s :
  Py.strip_by p s = EmptyString ↔ sall p s = true.
Proof.
  unfold Py.strip_by. rewrite rstrip_nil_iff. split.
  - induction s as [|c s IH]; [done|]. cbn [Py.lstrip_by sall].
    destruct (p c) eqn:Hc; [done|]. cbn [sall]. by rewrite Hc.
  - apply sall_lstrip.
Qed.

Lemma sall_sub_underscores_iff b s :
  sall is_underscore (Py.sub_underscores_from b s) = sall is_underscore s.
Proof.
  revert b. induction s as [|c s IH]; intros b; [done|].
  cbn [Py.sub_underscores_from sall]. fold (is_underscore c).
  destruct (is_underscore c) eqn:Hc.
  - destruct b; [apply IH|]. cbn [sall]. by rewrite IH.
  - cbn [sall]. by rewrite Hc.
Qed.

Lemma smap_nil_iff f s : Py.smap f s = EmptyString ↔ s = EmptyString.
Proof. by destruct s. Qed.

Lemma dropped_char_spec c :
  is_underscore (if Py.is_word c || Ascii.eqb c "-" then c else "_"%char)
  = dropped_char c.
Proof. by destruct c as [[] [] [] [] [] [] [] []]. Qed.

Lemma sanitized_shape s :
  sall sanitized_char (_sanitize_filename s) = true
  ∧ Py.startswith "_" (_sanitize_filename s) = false
  ∧ Py.endswith "_" (_sanitize_filename s) = false
  ∧ Py.contains "__" (_sanitize_filename s) = false.
Proof.
  unfold _sanitize_filename, Py.lower, Py.strip_chars. fold is_underscore.
  split_and!.
  - rewrite sall_smap. unfold Py.strip_by.
    apply sall_rstrip, sall_lstrip, sall_sub_underscores.
    unfold Py.sub_unsafe. rewrite sall_smap.
    induction s as [|c s IH]; [done|]. cbn [sall].
    by rewrite sanitized_char_sub_unsafe, IH.
  - rewrite startswith_smap by apply lower_char_underscore.
    apply startswith_rstrip, startswith_lstrip.
  - rewrite endswith_smap by apply lower_char_underscore.
    apply endswith_rstrip.
  - rewrite contains_smap by apply lower_char_underscore.
    destruct (Py.contains "__" (Py.strip_by _ _)) eqn:Hc; [|done].
    apply contains_strip in Hc.
    unfold Py.sub_underscores in Hc.
    by rewrite (proj1 (sub_underscores_from_shape false _)) in Hc.
Qed.

Lemma sanitized_fixed s :
  sall sanitized_char s = true → Py.startswith "_" s = false →
  Py.endswith "_" s = false → Py.contains "__" s = false →
  _sanitize_filename s = s.
Proof.
  intros Hall Hs He Hc.
  unfold _sanitize_filename, Py.lower, Py.strip_chars, Py.sub_underscores,
    Py.sub_unsafe, Py.strip_by.
  fold is_underscore.
  rewrite (smap_id _ s).
  2:{ eapply sall_impl; [|exact Hall]. intros c Hch.
      apply sanitized_char_word in Hch. rewrite Hch. apply Ascii.eqb_refl. }
  rewrite sub_underscores_from_id by done.
  rewrite lstrip_id, rstrip_id by done.
  apply smap_id. eapply sall_impl; [|exact Hall].
  intros c Hch. apply Ascii.eqb_eq. by apply sanitized_char_lower.
Qed.

End SanitizeFilename.

Lemma sanitized_char_ascii_safe (c : ascii) :
  sanitized_char c = true → ascii_safe c = true.
Proof. by destruct c as [[] [] [] [] [] [] [] []]. Qed.

(** X3. [_sanitize_filename]: whatever the name given, every character of
    the result that is below 128 is a lower-case letter, a digit, an
    underscore or a hyphen; lower-casing leaves the result as it is; it
    neither starts nor ends with an underscore and has no two underscores
    in a row. *)
Theorem sanitize_filename_shape (s : string) :
  sall ascii_safe (_sanitize_filename s) = true
  ∧ Py.lower (_sanitize_filename s) = _sanitize_filename s
  ∧ Py.startswith "_" (_sanitize_filename s) = false
  ∧ Py.endswith "_" (_sanitize_filename s) = false
  ∧ Py.contains "__" (_sanitize_filename s) = false.
Proof.
  destruct (sanitized_shape s) as (Hall & Hs & He & Hc). split_and!; try done.
  - eapply sall_impl; [|exact Hall]. apply sanitized_char_ascii_safe.
  - apply smap_id. eapply sall_impl; [|exact Hall].
    intros c Hch. apply Ascii.eqb_eq. by apply sanitized_char_lower.
Qed.

(** X4. [_sanitize_filename] leaves a name as it is exactly when the name
    is made of word characters and hyphens that lower-casing leaves as they
    are, neither starts nor ends with an underscore and has no two
    underscores in a row. *)
Theorem sanitize_filename_fixed_points (s : string) :
  _sanitize_filename s = s
  ↔ sall sanitized_char s = true ∧ Py.startswith "_" s = false
    ∧ Py.endswith "_" s = false ∧ Py.contains "__" s = false.
Proof.
  split.
  - intros <-. apply sanitized_shape.
  - intros (? & ? & ? & ?). by apply sanitized_fixed.
Qed.

(** X5. [_sanitize_filename] gives the empty name exactly for a name
    without any letter, digit or hyphen; the directory of such a part is
    the directory of its project. *)
Theorem sanitize_filename_empty (s : string) :
  (_sanitize_filename s = EmptyString ↔ sall dropped_char s = true)
  ∧ (sall dropped_char s = true →
     ∀ prj a, (get_part_dir prj s a).2 = (get_project_dir prj a).2).
Proof.
  assert (_sanitize_filename s = EmptyString ↔ sall dropped_char s = true)
    as Hiff.
  { unfold _sanitize_filename, Py.lower, Py.strip_chars, Py.sub_underscores,
      Py.sub_unsafe.
    fold is_underscore.
    rewrite smap_nil_iff, strip_nil_iff, sall_sub_underscores_iff, sall_smap.
    assert (∀ s, sall (λ c, is_underscore
                (if Py.is_word c || Ascii.eqb c "-" then c else "_"%char)) s
              = sall dropped_char s) as ->; [|done].
    intros s'. induction s' as [|c s' IH]; [done|]. cbn [sall].
    by rewrite dropped_char_spec, IH. }
  split; [done|]. intros Hs%Hiff prj a.
  unfold get_part_dir, get_project_dir. cbn. rewrite Hs.
  unfold path_join at 1. by rewrite decide_True.
Qed.

Lemma sanitize_filename_empty_witness :
  _sanitize_filename "?? __ !!" = EmptyString
  ∧ (get_part_dir "Test Project" "?? __ !!" ∅).2 = ["test_project"].
Proof.
  destruct (sanitize_filename_empty "?? __ !!") as [H1 H2]. split.
  - apply H1. reflexivity.
  - rewrite H2; reflexivity.
Defined.

(** ** The scan of the lines *)

Section Scan.

Implicit Types (s t sub : string) (c : ascii) (st : scan_state)
  (lines : list string).

Lemma contains_substring sub s a b :
  Py.contains sub s = true → Py.contains sub (a +:+ s +:+ b) = true.
Proof.
  rewrite !contains_iff. intros (x & y & ->).
  exists (a +:+ x), (y +:+ b). by rewrite !append_assoc.
Qed.

Lemma strip_substring p s : ∃ a b, s = a +:+ Py.strip_by p s +:+ b.
Proof.
  unfold Py.strip_by. destruct (lstrip_suffix p s) as [a Ha].
  destruct (rstrip_prefix p (Py.lstrip_by p s)) as [b Hb].
  exists a, b. by rewrite <- Hb.
Qed.

Lemma split_char_cons c s : ∃ l ls, Py.split_char c s = l :: ls.
Proof.
  destruct s as [|x s]; cbn [Py.split_char]; [by eexists _, _|].
  destruct (Ascii.eqb x c); [by eexists _, _|].
  destruct (Py.split_char c s); by eexists _, _.
Qed.

Lemma split_char_app c s t :
  Py.split_char c (s +:+ String c t) = Py.split_char c s ++ Py.split_char c t.
Proof.
  induction s as [|x s IH].
  - change (EmptyString +:+ String c t) with (String c t).
    cbn [Py.split_char]. by rewrite Ascii.eqb_refl.
  - rewrite append_cons. cbn [Py.split_char]. rewrite IH.
    destruct (Ascii.eqb x c); [done|].
    by destruct (split_char_cons c s) as (l & ls & ->).
Qed.

Lemma split_char_line c s :
  sall (λ x, negb (Ascii.eqb x c)) s = true → Py.split_char c s = [s].
Proof.
  induction s as [|x s IH]; [done|]. cbn [sall Py.split_char].
  intros [Hx Hs]%andb_prop. apply negb_true_iff in Hx.
  by rewrite Hx, (IH Hs).
Qed.

(** A line of a text is a part of the text. *)
Lemma split_char_substring c s l :
  l ∈ Py.split_char c s → ∃ a b, s = a +:+ l +:+ b.
Proof.
  revert l. induction s as [|x s IH]; intros l; cbn [Py.split_char].
  - intros ->%list_elem_of_singleton. by exists EmptyString, EmptyString.
  - destruct (Ascii.eqb x c).
    + intros [->|Hl]%elem_of_cons.
      * by exists EmptyString, (String x s).
      * destruct (IH _ Hl) as (a & b & ->). by exists (String x a), b.
    + assert (∀ l0 ls, Py.split_char c s = l0 :: ls → ∃ b, s = l0 +:+ b)
        as Hhead.
      { clear. induction s as [|y s IH]; intros l0 ls; cbn [Py.split_char].
        - intros [= <- <-]. by exists EmptyString.
        - destruct (Ascii.eqb y c).
          + intros [= <- <-]. by exists (String y s).
          + destruct (Py.split_char c s) as [|l1 ls1]; intros [= <- <-].
            * exists s. by rewrite append_cons.
            * destruct (IH _ _ eq_refl) as [b ->]. exists b.
              by rewrite append_cons. }
      destruct (Py.split_char c s) as [|l0 ls] eqn:Hs.
      * intros ->%list_elem_of_singleton. exists EmptyString, s.
        change (EmptyString +:+ String x EmptyString +:+ s)
          with (String x EmptyString +:+ s).
        by rewrite append_cons.
      * intros [->|Hl]%elem_of_cons.
        -- destruct (Hhead _ _ eq_refl) as [b ->]. exists EmptyString, b.
           change (EmptyString +:+ String x l0 +:+ b)
             with (String x l0 +:+ b).
           by rewrite append_cons.
        -- destruct (IH l) as (a & b & ->); [by right|].
           by exists (String x a), b.
Qed.

Lemma contains_line sub c s l :
  l ∈ Py.split_char c s → Py.contains sub (Py.strip l) = true →
  Py.contains sub s = true.
Proof.
  intros (a & b & ->)%split_char_substring Hc.
  apply contains_substring. by apply contains_strip in Hc.
Qed.

Lemma capture_program_data line st :
  in_metadata (capture_program line st) = in_metadata st
  ∧ metadata (capture_program line st) = metadata st.
Proof.
  unfold capture_program. destruct (_ && _); [|done].
  by destruct (Py.match_program_number line).
Qed.

(** Outside the block, lines without the start sentinel add no field. *)
Lemma scan_no_start lines st :
  Forall (λ l, Py.contains METADATA_START (Py.strip l) = false) lines →
  in_metadata st = false →
  metadata (scan lines st) = metadata st.
Proof.
  intros Hall. revert st.
  induction Hall as [|raw lines Hraw _ IH]; intros st Hst; [done|].
  cbn [scan]. rewrite Hraw.
  destruct (capture_program_data (Py.strip raw) st) as [Hin Hmd].
  destruct (Py.contains METADATA_END _); [done|].
  rewrite Hin, Hst. rewrite IH by congruence. done.
Qed.

(** The loop reads no line after the first end line. *)
Lemma scan_lines_read lines st : scan lines st = scan (lines_read lines) st.
Proof.
  revert st. induction lines as [|raw lines IH]; intros st; [done|].
  cbn [lines_read]. unfold is_end_line.
  destruct (Py.contains METADATA_START (Py.strip raw)) eqn:Hs.
  - cbn [negb andb scan]. rewrite Hs. apply IH.
  - destruct (Py.contains METADATA_END (Py.strip raw)) eqn:He.
    + cbn [negb andb scan]. by rewrite Hs, He.
    + cbn [negb andb scan]. rewrite Hs, He.
      destruct (in_metadata _); apply IH.
Qed.

Lemma lines_read_app lines raw rest :
  is_end_line raw = true →
  lines_read (lines ++ raw :: rest) = lines_read (lines ++ [raw]).
Proof.
  intros Hraw. induction lines as [|l lines IH]; cbn [app lines_read].
  - by rewrite Hraw.
  - destruct (is_end_line l); [done|]. by rewrite IH.
Qed.

(** The program number is taken from the first line read that gives one. *)
Lemma scan_seen_program lines st :
  seen_program (scan lines st)
  = match seen_program st with
    | Some n => Some n
    | None => head (omap program_of_line (lines_read lines))
    end.
Proof.
  assert (∀ line st, seen_program (capture_program line st)
            = match seen_program st with
              | Some n => Some n
              | None => Py.match_program_number line
              end) as Hcap.
  { intros line st'. unfold capture_program.
    destruct (seen_program st') as [n|] eqn:Hn.
    - rewrite bool_decide_false by done. by rewrite andb_false_r.
    - rewrite bool_decide_true by done. rewrite andb_true_r.
      destruct (Py.startswith "O" line) eqn:Ho.
      + by destruct (Py.match_program_number line).
      + rewrite Hn. destruct line as [|x line]; [done|].
        unfold Py.match_program_number.
        destruct x as [[] [] [] [] [] [] [] []]; try done.
        cbn in Ho. by rewrite prefix_nil in Ho. }
  revert st. induction lines as [|raw lines IH]; intros st.
  { cbn. by destruct (seen_program st). }
  cbn [scan lines_read]. unfold is_end_line.
  specialize (Hcap (Py.strip raw) st).
  assert (∀ L, head (omap program_of_line (raw :: L))
            = match Py.match_program_number (Py.strip raw) with
              | Some n => Some n
              | None => head (omap program_of_line L)
              end) as Hhd.
  { intros L. change (omap program_of_line (raw :: L))
      with (match program_of_line raw with
            | Some n => n :: omap program_of_line L
            | None => omap program_of_line L
            end).
    unfold program_of_line at 1.
    by destruct (Py.match_program_number (Py.strip raw)). }
  destruct (Py.contains METADATA_START (Py.strip raw)) eqn:Hs;
    [|destruct (Py.contains METADATA_END (Py.strip raw)) eqn:He;
      [|destruct (in_metadata (capture_program (Py.strip raw) st))]];
    cbn [negb andb]; rewrite ?IH; cbn [seen_program]; rewrite Hhd, Hcap;
    destruct (seen_program st); try done;
    by destruct (Py.match_program_number (Py.strip raw)).
Qed.

End Scan.

(** ** Header blocks *)

Section Header.

Implicit Types (s t sub k v : string) (c : ascii) (st : scan_state)
  (lines : list string) (md : gmap string string).

Lemma prefix_app_char sub c a b :
  sall (λ x, negb (Ascii.eqb x c)) sub = true →
  String.prefix sub (a +:+ String c b) = String.prefix sub a.
Proof.
  revert a. induction sub as [|s0 sub IH]; intros a; [by destruct a|].
  cbn [sall]. intros [Hs0 Hsub]%andb_prop.
  apply negb_true_iff, Ascii.eqb_neq in Hs0.
  destruct a as [|x a].
  - change (EmptyString +:+ String c b) with (String c b).
    cbn [String.prefix]. by destruct (ascii_dec s0 c).
  - rewrite append_cons. cbn [String.prefix].
    destruct (ascii_dec s0 x); [by apply IH|done].
Qed.

(** A text without [c] occurs around a [c] only on one of its sides. *)
Lemma contains_app_char sub c a b :
  sall (λ x, negb (Ascii.eqb x c)) sub = true →
  Py.contains sub (a +:+ String c b) = Py.contains sub a || Py.contains sub b.
Proof.
  intros Hsub. induction a as [|x a IH].
  - change (EmptyString +:+ String c b) with (String c b).
    cbn [Py.contains].
    rewrite <- (prefix_app_char sub c EmptyString b Hsub), orb_false_r.
    done.
  - rewrite append_cons. cbn [Py.contains].
    rewrite <- append_cons, (prefix_app_char _ _ _ _ Hsub), IH.
    by rewrite orb_assoc.
Qed.

Lemma span_app p s c t :
  sall p s = true → p c = false →
  Py.span p (s +:+ String c t) = (s, String c t).
Proof.
  intros Hs Hc. induction s as [|x s IH].
  - change (EmptyString +:+ String c t) with (String c t).
    cbn [Py.span]. by rewrite Hc.
  - cbn [sall] in Hs. apply andb_prop in Hs as [Hx Hs].
    rewrite append_cons. cbn [Py.span]. by rewrite Hx, (IH Hs).
Qed.

Lemma search_comment_paren body rest :
  body ≠ EmptyString →
  sall (λ x, negb (Ascii.eqb x ")")) body = true →
  Py.search_comment (String "(" (body +:+ String ")" rest)) = Some body.
Proof.
  intros Hne Hbody. cbn [Py.search_comment].
  rewrite Ascii.eqb_refl, span_app by (by rewrite ?Ascii.eqb_refl).
  by destruct body.
Qed.

Lemma split_once_char c k v :
  sall (λ x, negb (Ascii.eqb x c)) k = true →
  Py.split_once (String c EmptyString) (k +:+ String c v) = Some (k, v).
Proof.
  intros Hk. induction k as [|x k IH].
  - change (EmptyString +:+ String c v) with (String c v).
    cbn. destruct (ascii_dec c c); [|done]. by rewrite prefix_nil.
  - cbn [sall] in Hk. apply andb_prop in Hk as [Hx Hk].
    apply negb_true_iff, Ascii.eqb_neq in Hx.
    rewrite append_cons.
    change (Py.split_once (String c EmptyString) (String x (k +:+ String c v)))
      with (if String.prefix (String c EmptyString) (String x (k +:+ String c v))
            then Some (EmptyString,
              Py.sdrop 1 (String x (k +:+ String c v)))
            else match Py.split_once (String c EmptyString) (k +:+ String c v)
                 with
                 | Some (a, b) => Some (String x a, b)
                 | None => None
                 end).
    rewrite (IH Hk). cbn [String.prefix].
    destruct (ascii_dec c x); [congruence|done].
Qed.

Lemma rstrip_app_last p s c :
  p c = false →
  Py.rstrip_by p (s +:+ String c EmptyString) = s +:+ String c EmptyString.
Proof.
  intros Hc. induction s as [|x s IH].
  - change (EmptyString +:+ String c EmptyString) with (String c EmptyString).
    cbn [Py.rstrip_by]. by rewrite Hc.
  - rewrite append_cons. cbn [Py.rstrip_by]. rewrite IH. by destruct s.
Qed.

Lemma header_line_eq k v :
  header_line k v
  = String "(" ((k +:+ String ":" v) +:+ String ")" EmptyString).
Proof.
  unfold header_line.
  change ("(" +:+ k +:+ ":" +:+ v +:+ ")")
    with (String "(" (k +:+ (String ":" (v +:+ String ")" EmptyString)))).
  by rewrite append_assoc, append_cons.
Qed.

Lemma strip_header_line k v : Py.strip (header_line k v) = header_line k v.
Proof.
  rewrite header_line_eq. unfold Py.strip, Py.strip_by.
  cbn [Py.lstrip_by].
  change (Py.is_space "(") with false. cbn match.
  by rewrite <- append_cons, rstrip_app_last.
Qed.

Lemma parse_header_line k v md :
  sall (λ c, negb (Ascii.eqb c ":")) k = true →
  sall (λ c, negb (Ascii.eqb c ")")) k = true →
  sall (λ c, negb (Ascii.eqb c ")")) v = true →
  parse_metadata_line (header_line k v) md
  = <[field_name k := Py.strip v]> md.
Proof.
  intros Hk1 Hk2 Hv. unfold parse_metadata_line.
  rewrite header_line_eq, search_comment_paren.
  - by rewrite split_once_char.
  - by destruct k.
  - rewrite sall_app. cbn [sall]. by rewrite Hk2, Hv.
Qed.

Lemma contains_header_line sub k v :
  sall (λ x, negb (Ascii.eqb x "(") && negb (Ascii.eqb x ":")
             && negb (Ascii.eqb x ")")) sub = true →
  sub ≠ EmptyString →
  Py.contains sub (header_line k v) = Py.contains sub k || Py.contains sub v.
Proof.
  intros Hsub Hne.
  assert (Py.contains sub EmptyString = false) as Hnil by (by destruct sub).
  assert (∀ c, (c = "(" ∨ c = ":" ∨ c = ")")%char →
            sall (λ x, negb (Ascii.eqb x c)) sub = true) as Hc.
  { intros c Hcs. eapply sall_impl; [|exact Hsub]. intros x. cbn beta.
    destruct Hcs as [->| [->| ->]];
      by destruct (Ascii.eqb x "("), (Ascii.eqb x ":"), (Ascii.eqb x ")"). }
  unfold header_line.
  change ("(" +:+ k +:+ ":" +:+ v +:+ ")")
    with (EmptyString
          +:+ String "(" (k +:+ (String ":" (v +:+ String ")" EmptyString)))).
  rewrite (contains_app_char sub "(") by auto.
  rewrite (contains_app_char sub ":") by auto.
  rewrite (contains_app_char sub ")") by auto.
  by rewrite Hnil, orb_false_r.
Qed.

Lemma no_sentinel_header_line k v :
  no_sentinel k = true → no_sentinel v = true →
  Py.contains METADATA_START (header_line k v) = false
  ∧ Py.contains METADATA_END (header_line k v) = false.
Proof.
  unfold no_sentinel.
  intros [Hk1 Hk2]%andb_prop [Hv1 Hv2]%andb_prop.
  apply negb_true_iff in Hk1, Hk2, Hv1, Hv2.
  by rewrite !contains_header_line, Hk1, Hk2, Hv1, Hv2.
Qed.

Lemma capture_header_line k v st :
  capture_program (header_line k v) st = st.
Proof. by rewrite header_line_eq. Qed.

(** Inside the block, every field line is stored under its name; a later
    line of the same name replaces an earlier one. *)
Lemma scan_fields kvs lines st :
  in_metadata st = true →
  Forall (λ kv, field_key kv.1 = true ∧ field_value kv.2 = true) kvs →
  scan (((λ kv, header_line kv.1 kv.2) <$> kvs) ++ lines) st
  = scan lines {| in_metadata := true;
                  metadata := fields_read kvs (metadata st);
                  seen_program := seen_program st |}.
Proof.
  intros Hin Hall. revert st Hin.
  induction Hall as [|[k v] kvs [Hk Hv] _ IH]; intros st Hin.
  { destruct st as [? ? ?]. cbn in Hin. by subst. }
  unfold field_key, field_value in Hk, Hv. cbn [fst snd] in Hk, Hv.
  apply andb_prop in Hk as [Hk1 [Hk2 Hk3]%andb_prop].
  apply andb_prop in Hv as [Hv1 Hv2].
  destruct (no_sentinel_header_line k v Hk3 Hv2) as [Hs He].
  rewrite fmap_cons. cbn [app scan fst snd].
  rewrite strip_header_line, Hs, He.
  rewrite !capture_header_line, Hin.
  rewrite parse_header_line; first last.
  - eapply sall_impl; [|exact Hv1]. by intros c [? _]%andb_prop.
  - eapply sall_impl; [|exact Hk2]. by intros c [? _]%andb_prop.
  - done.
  - by rewrite IH.
Qed.

End Header.

Section PostedFile.

Implicit Types (s t rest : string) (st : scan_state)
  (lines pre : list string) (kvs : list (string * string)).

Lemma split_unlines lines rest :
  Forall (λ l, sall (λ c, negb (Ascii.eqb c "010")) l = true) lines →
  Py.split_char "010" (unlines lines +:+ rest)
  = lines ++ Py.split_char "010" rest.
Proof.
  induction 1 as [|l lines Hl _ IH]; [done|].
  unfold unlines. rewrite fmap_cons. cbn [Py.join foldr].
  fold (Py.join ((λ l, l +:+ nl) <$> lines)). fold (unlines lines).
  rewrite !append_assoc. unfold nl at 1. rewrite append_cons.
  change (EmptyString +:+ unlines lines +:+ rest)
    with (unlines lines +:+ rest).
  by rewrite split_char_app, IH, split_char_line.
Qed.

Lemma scan_preamble pre lines st :
  in_metadata st = false →
  Forall (λ l, preamble_line l = true) pre →
  ∃ st', scan (pre ++ lines) st = scan lines st'
         ∧ in_metadata st' = false ∧ metadata st' = metadata st.
Proof.
  intros Hin Hall. revert st Hin.
  induction Hall as [|l pre Hl _ IH]; intros st Hin; [by exists st|].
  unfold preamble_line, no_sentinel in Hl.
  apply andb_prop in Hl as [_ [Hs He]%andb_prop].
  apply negb_true_iff in Hs, He.
  cbn [app scan]. rewrite Hs, He.
  destruct (capture_program_data (Py.strip l) st) as [Hin' Hmd].
  rewrite Hin', Hin.
  destruct (IH (capture_program (Py.strip l) st)) as (st' & -> & ? & ?);
    [congruence|].
  exists st'. split_and!; congruence.
Qed.

Lemma scan_block kvs lines st :
  Forall (λ kv, field_key kv.1 = true ∧ field_value kv.2 = true) kvs →
  metadata (scan (block_lines kvs ++ lines) st)
  = fields_read kvs (metadata st).
Proof.
  intros Hkvs. unfold block_lines. cbn [app scan].
  change (Py.strip "(CHIP-WARDEN-START)") with "(CHIP-WARDEN-START)".
  change (Py.contains METADATA_START "(CHIP-WARDEN-START)") with true.
  cbn match. rewrite <- app_assoc, scan_fields by done.
  cbn [app scan].
  change (Py.strip "(CHIP-WARDEN-END)") with "(CHIP-WARDEN-END)".
  change (Py.contains METADATA_START "(CHIP-WARDEN-END)") with false.
  change (Py.contains METADATA_END "(CHIP-WARDEN-END)") with true.
  done.
Qed.

Lemma lines_read_preamble pre lines :
  Forall (λ l, preamble_line l = true) pre →
  lines_read (pre ++ lines) = pre ++ lines_read lines.
Proof.
  induction 1 as [|l pre Hl _ IH]; [done|]. cbn [app lines_read].
  unfold preamble_line, no_sentinel in Hl.
  apply andb_prop in Hl as [_ [_ He]%andb_prop].
  apply negb_true_iff in He. unfold is_end_line. rewrite He, andb_false_r.
  by rewrite IH.
Qed.

Lemma program_of_block kvs lines :
  Forall (λ kv, field_key kv.1 = true ∧ field_value kv.2 = true) kvs →
  omap program_of_line (lines_read (block_lines kvs ++ lines)) = [].
Proof.
  intros Hkvs. unfold block_lines. cbn [app lines_read].
  change (is_end_line "(CHIP-WARDEN-START)") with false. cbn match.
  change (omap program_of_line ("(CHIP-WARDEN-START)" :: ?l))
    with (omap program_of_line l).
  rewrite <- app_assoc.
  induction Hkvs as [|[k v] kvs [Hk Hv] _ IH].
  - cbn [fmap list_fmap app lines_read].
    by change (is_end_line "(CHIP-WARDEN-END)") with true.
  - rewrite fmap_cons. cbn [app lines_read fst snd].
    unfold field_key, field_value in Hk, Hv. cbn [fst snd] in Hk, Hv.
    apply andb_prop in Hk as [_ [_ Hk]%andb_prop].
    apply andb_prop in Hv as [_ Hv].
    destruct (no_sentinel_header_line k v Hk Hv) as [Hs He].
    unfold is_end_line. rewrite strip_header_line, He, andb_false_r.
    change (omap program_of_line (header_line k v :: ?l))
      with (match program_of_line (header_line k v) with
            | Some n => n :: omap program_of_line l
            | None => omap program_of_line l
            end).
    unfold program_of_line at 1.
    rewrite strip_header_line, header_line_eq. apply IH.
Qed.

(** The scan of a posted file. *)
Lemma scan_posted_file pre kvs rest :
  Forall (λ l, preamble_line l = true) pre →
  Forall (λ kv, field_key kv.1 = true ∧ field_value kv.2 = true) kvs →
  metadata (scan_content (posted_file pre kvs rest)) = fields_read kvs ∅
  ∧ seen_program (scan_content (posted_file pre kvs rest))
    = head (omap program_of_line pre).
Proof.
  intros Hpre Hkvs. unfold scan_content, posted_file.
  rewrite split_unlines, <- app_assoc.
  - split.
    + destruct (scan_preamble pre
        (block_lines kvs ++ Py.split_char "010" rest) scan_init eq_refl Hpre)
        as (st' & -> & _ & Hmd).
      by rewrite scan_block, Hmd.
    + rewrite scan_seen_program. cbn [seen_program scan_init].
      rewrite lines_read_preamble by done.
      by rewrite omap_app, program_of_block, app_nil_r.
  - apply Forall_app. split.
    + eapply Forall_impl; [exact Hpre|]. intros l Hl.
      unfold preamble_line in Hl. by apply andb_prop in Hl as [? _].
    + unfold block_lines. apply Forall_cons. split; [done|].
      apply Forall_app. split; [|by apply Forall_singleton].
      apply Forall_fmap. eapply Forall_impl; [exact Hkvs|].
      intros [k v] [Hk Hv]. cbn [fst snd] in *.
      unfold field_key, field_value in Hk, Hv.
      apply andb_prop in Hk as [_ [Hk _]%andb_prop].
      apply andb_prop in Hv as [Hv _].
      change (sall (λ c, negb (Ascii.eqb c "010"))
                (String "(" (k +:+ String ":" (v +:+ String ")" EmptyString)))
              = true).
      cbn [sall]. rewrite sall_app. cbn [sall]. rewrite sall_app. cbn [sall].
      rewrite (sall_impl _ (λ c, negb (Ascii.eqb c "010")) k) by
        (try exact Hk; by intros c [_ ?]%andb_prop).
      by rewrite (sall_impl _ (λ c, negb (Ascii.eqb c "010")) v) by
        (try exact Hv; by intros c [_ ?]%andb_prop).
Qed.

End PostedFile.

Section ParseContent.

Implicit Types (content : string) (r : GCodeMetadata).

(** What [parse_content] returns, from what the scan leaves. *)
Lemma parse_content_Some_iff content r :
  parse_content content = Some r ↔
  metadata (scan_content content) !! "project" = Some (project r)
  ∧ metadata (scan_content content) !! "part" = Some (part r)
  ∧ metadata (scan_content content) !! "posted" = Some (posted_timestamp r)
  ∧ int_field (metadata (scan_content content)) "operations"
    = Some (operations r)
  ∧ int_field (metadata (scan_content content)) "tool_count"
    = Some (tool_count r)
  ∧ machine r = default "unknown" (metadata (scan_content content) !! "machine")
  ∧ setup r = default "unknown" (metadata (scan_content content) !! "setup")
  ∧ program_number r = seen_program (scan_content content).
Proof.
  split; [apply parse_content_Some|].
  intros (Hp & Hq & Ht & Hops & Htools & Hm & Hs & Hn).
  unfold parse_content. cbv zeta.
  assert (forallb (λ field, bool_decide
            (field ∈ dom (metadata (scan_content content))))
            required_fields = true) as ->.
  { apply required_fields_present. by rewrite Hp, Hq, Ht. }
  cbn [negb]. rewrite Hops, Htools, Hp, Hq, Ht, <- Hm, <- Hs, <- Hn.
  by destruct r.
Qed.

End ParseContent.

(** X6. [parse_content]: a text without the start sentinel gives [None],
    whatever fields it has. *)
Theorem parse_content_no_start (content : string) :
  Py.contains METADATA_START content = false →
  parse_content content = None.
Proof.
  intros Hc. apply (parse_content_None_absent content "project").
  { unfold required_fields. set_solver. }
  unfold scan_content. rewrite scan_no_start; [done| |done].
  apply Forall_forall. intros l Hl.
  destruct (Py.contains METADATA_START (Py.strip l)) eqn:Hs; [|done].
  by rewrite (contains_line _ _ _ _ Hl Hs) in Hc.
Qed.

Lemma parse_content_no_start_witness :
  Py.contains METADATA_START "(PROJECT: A)
(PART: 1)
(POSTED: 2025-10-30-1445)
(CHIP-WARDEN-END)" = false
  ∧ parse_content "(PROJECT: A)
(PART: 1)
(POSTED: 2025-10-30-1445)
(CHIP-WARDEN-END)" = None.
Proof.
  split; [reflexivity|]. apply parse_content_no_start. reflexivity.
Defined.

(** X7. [parse_content] reads nothing after the first line that has the end
    sentinel and not the start sentinel: the text that follows that line
    changes nothing of the result. *)
Theorem parse_content_after_end (before e after : string) :
  is_end_line e = true →
  sall (λ c, negb (Ascii.eqb c "010")) e = true →
  parse_content (before +:+ nl +:+ e +:+ nl +:+ after)
  = parse_content (before +:+ nl +:+ e)
  ∧ parse_content (e +:+ nl +:+ after) = parse_content e.
Proof.
  intros He Hnl.
  assert (∀ t, Py.split_char "010" (e +:+ nl +:+ t)
               = e :: Py.split_char "010" t) as Hsplit.
  { intros t. unfold nl. rewrite append_cons.
    change (EmptyString +:+ t) with t.
    rewrite split_char_app, split_char_line by done. done. }
  assert (∀ lines after,
    scan (lines ++ Py.split_char "010" (e +:+ nl +:+ after)) scan_init
    = scan (lines ++ Py.split_char "010" e) scan_init) as Hscan.
  { intros lines t. rewrite Hsplit, (split_char_line _ e) by done.
    by rewrite scan_lines_read, lines_read_app, <- scan_lines_read. }
  assert (∀ t, before +:+ nl +:+ t = before +:+ String "010" t) as Hnl'.
  { intros t. unfold nl. by rewrite append_cons. }
  split.
  - unfold parse_content, scan_content.
    by rewrite !Hnl', !split_char_app, Hscan.
  - unfold parse_content, scan_content. specialize (Hscan [] after).
    cbn [app] in Hscan. by rewrite Hscan.
Qed.

Lemma parse_content_after_end_witness :
  parse_content ("(CHIP-WARDEN-START)
(PROJECT: A)
(PART: 1)
(POSTED: 2025-10-30-1445)" +:+ nl +:+ "(CHIP-WARDEN-END)" +:+ nl +:+ "(PART: 2)")
  = parse_content ("(CHIP-WARDEN-START)
(PROJECT: A)
(PART: 1)
(POSTED: 2025-10-30-1445)" +:+ nl +:+ "(CHIP-WARDEN-END)").
Proof.
  apply (parse_content_after_end _ "(CHIP-WARDEN-END)" "(PART: 2)");
    reflexivity.
Defined.

(** X8. [parse_content]: the program number of the record is the run of
    digits after the [O] of the first line read that opens, once stripped,
    with [O] and a digit; it is [None] when no line read does.  The lines
    read are those up to the end line, inside the block or not. *)
Theorem parse_content_program_number (content : string) (r : GCodeMetadata) :
  parse_content content = Some r →
  program_number r
  = head (omap program_of_line (lines_read (Py.split_char "010" content))).
Proof.
  intros Hr. apply parse_content_Some_iff in Hr as (_&_&_&_&_&_&_& ->).
  unfold scan_content. by rewrite scan_seen_program.
Qed.

Lemma parse_content_program_number_witness :
  ∃ r, parse_content test_gcode = Some r ∧ program_number r = Some "1001".
Proof.
  destruct (parse_content test_gcode) as [r|] eqn:Hr; [|by vm_compute in Hr].
  exists r. split; [done|].
  by rewrite (parse_content_program_number test_gcode r Hr).
Defined.

(** X9. [parse_content] on a posted file, whose block has one field to a
    line: the fields are stored under their names in lower case with
    underscores for hyphens, a later line of a name replacing an earlier
    one, and the values stripped; the result is built from that
    dictionary, and the program number comes from the lines before the
    block. *)
Theorem parse_content_posted_file (pre : list string)
    (kvs : list (string * string)) (rest : string) (r : GCodeMetadata) :
  Forall (λ l, preamble_line l = true) pre →
  Forall (λ kv, field_key kv.1 = true ∧ field_value kv.2 = true) kvs →
  parse_content (posted_file pre kvs rest) = Some r ↔
  fields_read kvs ∅ !! "project" = Some (project r)
  ∧ fields_read kvs ∅ !! "part" = Some (part r)
  ∧ fields_read kvs ∅ !! "posted" = Some (posted_timestamp r)
  ∧ int_field (fields_read kvs ∅) "operations" = Some (operations r)
  ∧ int_field (fields_read kvs ∅) "tool_count" = Some (tool_count r)
  ∧ machine r = default "unknown" (fields_read kvs ∅ !! "machine")
  ∧ setup r = default "unknown" (fields_read kvs ∅ !! "setup")
  ∧ program_number r = head (omap program_of_line pre).
Proof.
  intros Hpre Hkvs. rewrite parse_content_Some_iff.
  by destruct (scan_posted_file pre kvs rest Hpre Hkvs) as [-> ->].
Qed.

Lemma parse_content_posted_file_witness :
  parse_content
    (posted_file ["O7 (BRACKET)"]
       [("Project", "a"); ("PART", " 1"); ("posted", "x"); ("part", "2 ");
        ("Tool-Count", "4")]
       "G0 X0")
  = Some {| project := "a"; part := "2"; posted_timestamp := "x";
            operations := 0; tool_count := 4;
            machine := "unknown"; setup := "unknown";
            program_number := Some "7" |}.
Proof.
  apply parse_content_posted_file.
  - repeat (apply Forall_cons; split; [reflexivity|]). apply Forall_nil_2.
  - repeat (apply Forall_cons; split; [split; reflexivity|]).
    apply Forall_nil_2.
  - vm_compute. repeat split.
Defined.

(** X10. [parse_content] reads the header of [test_gcode] back, whatever
    its seven values: a block with the fields [PROJECT], [PART], [POSTED],
    [OPERATIONS], [TOOL-COUNT], [MACHINE] and [SETUP], whose values have no
    closing parenthesis, line feed or sentinel and whose two counts [int]
    accepts, gives the record of the stripped values. *)
Theorem parse_content_header (pre : list string)
    (prj prt posted ops tools mach stp rest : string) (n k : Z) :
  Forall (λ l, preamble_line l = true) pre →
  Forall (λ v, field_value v = true) [prj; prt; posted; ops; tools; mach; stp] →
  Py.int (Py.strip ops) = Some n →
  Py.int (Py.strip tools) = Some k →
  parse_content
    (posted_file pre (header_fields prj prt posted ops tools mach stp) rest)
  = Some {| project := Py.strip prj;
            part := Py.strip prt;
            posted_timestamp := Py.strip posted;
            operations := n;
            tool_count := k;
            machine := Py.strip mach;
            setup := Py.strip stp;
            program_number := head (omap program_of_line pre) |}.
Proof.
  intros Hpre Hvs Hn Hk.
  apply parse_content_Some_iff.
  destruct (scan_posted_file pre
    (header_fields prj prt posted ops tools mach stp) rest Hpre) as [-> ->].
  { unfold header_fields.
    repeat match goal with
           | H : Forall _ (_ :: _) |- _ => apply Forall_cons in H as [? H]
           end.
    repeat (apply Forall_cons; split; [by split|]). apply Forall_nil_2. }
  unfold header_fields, fields_read. cbn [foldl fst snd].
  change (field_name "PROJECT") with "project".
  change (field_name "PART") with "part".
  change (field_name "POSTED") with "posted".
  change (field_name "OPERATIONS") with "operations".
  change (field_name "TOOL-COUNT") with "tool_count".
  change (field_name "MACHINE") with "machine".
  change (field_name "SETUP") with "setup".
  unfold int_field. cbn [project part posted_timestamp operations tool_count
    machine setup program_number].
  split_and!; by simplify_map_eq.
Qed.

Lemma parse_content_header_witness :
  parse_content test_gcode
  = Some {| project := "HYDRAULIC MANIFOLD";
            part := "1001";
            posted_timestamp := "2025-10-30-1445";
            operations := 3;
            tool_count := 5;
            machine := "PUMA";
            setup := "OP1-ROUGH-FACE";
            program_number := Some "1001" |}.
Proof.
  apply (parse_content_header [""; "%"; "O1001 (HYDRAULIC MANIFOLD)"]
           " HYDRAULIC MANIFOLD" " 1001" " 2025-10-30-1445" " 3" " 5" " PUMA"
           " OP1-ROUGH-FACE" "
G28 U0 W0
" 3 5).
  - repeat (apply Forall_cons; split; [reflexivity|]). apply Forall_nil_2.
  - repeat (apply Forall_cons; split; [reflexivity|]). apply Forall_nil_2.
  - reflexivity.
  - reflexivity.
Defined.

(** ** Re-reading the changelog *)

Section Reread.

Implicit Types (s t rest : string) (d : gmap string file) (v : nat)
  (m : GCodeMetadata).

(** Re-reading a changelog that opens with its header skips the title, the
    blank line and the project line; the blank line that ends the header
    is kept. *)
Lemma existing_content_after_header d f m rest :
  d !! "CHANGELOG.md" = Some f →
  content f = changelog_header m +:+ rest →
  no_line_break (part m) = true →
  no_line_break (project m) = true →
  existing_content d = nl +:+ Py.universal_newlines rest.
Proof.
  intros Hf Hcontent Hpart Hproject. unfold existing_content.
  rewrite Hf, Hcontent.
  set (l1 := "# " +:+ part m +:+ " - Change Log").
  set (l3 := "Project: " +:+ project m).
  assert (Hhead : ∀ t, changelog_header m +:+ t
            = l1 +:+ nl +:+ (EmptyString +:+ nl
                +:+ (l3 +:+ nl +:+ (EmptyString +:+ nl +:+ t)))).
  { intros t. unfold changelog_header, l1, l3. by rewrite !append_assoc. }
  assert (H1 : no_line_break l1 = true).
  { unfold l1. by rewrite !no_line_break_app, Hpart. }
  assert (H3 : no_line_break l3 = true).
  { unfold l3. by rewrite !no_line_break_app, Hproject. }
  assert (Hcr : sall (λ c, negb (Ascii.eqb c "013")) (changelog_header m)
                = true).
  { unfold changelog_header.
    by rewrite !sall_app, (no_line_break_cr _ Hpart),
      (no_line_break_cr _ Hproject). }
  rewrite universal_newlines_clean by done.
  rewrite Hhead.
  rewrite (readlines_line l1) by (by apply no_line_break_lf).
  rewrite (readlines_line EmptyString) by done.
  rewrite (readlines_line l3) by (by apply no_line_break_lf).
  rewrite (readlines_line EmptyString) by done.
  assert (Py.startswith "#" (l1 +:+ nl) = true) as -> by reflexivity.
  cbn [drop]. cbn [Py.join foldr].
  fold (Py.join (Py.readlines (Py.universal_newlines rest))).
  by rewrite join_readlines.
Qed.

(** Re-reading a changelog that does not open with [#] keeps all of it. *)
Lemma existing_content_other d f :
  d !! "CHANGELOG.md" = Some f →
  Py.startswith "#" (content f) = false →
  existing_content d = Py.universal_newlines (content f).
Proof.
  intros Hf Hc. unfold existing_content. rewrite Hf.
  destruct (Py.readlines (Py.universal_newlines (content f)))
    as [|l0 ls] eqn:Hl.
  - by rewrite <- (join_readlines (Py.universal_newlines _)), Hl.
  - assert (Py.startswith "#" l0 = false) as ->.
    { destruct (content f) as [|c s]; [done|].
      cbn [Py.universal_newlines] in Hl.
      destruct (Ascii.eqb c "013") eqn:Hcr.
      - cbn [Py.readlines] in Hl. rewrite Ascii.eqb_refl in Hl.
        by injection Hl as <- _.
      - cbn [Py.readlines] in Hl.
        assert (Py.startswith "#" (String c s) = false →
                ∀ t, Py.startswith "#" (String c t) = false) as Hfirst.
        { unfold Py.startswith. cbn [String.prefix].
          destruct (ascii_dec "#" c); [|done]. by rewrite prefix_nil. }
        destruct (Ascii.eqb c "010");
          [|destruct (Py.readlines _)]; injection Hl as <- _;
          by apply Hfirst. }
    by rewrite <- Hl, join_readlines.
Qed.

End Reread.

(** X11. [_update_changelog] puts the new entry before what it keeps of
    the text that is there, and writes the header only into a changelog
    that is new.  Of a text that opens with the header it keeps all but
    the title, the blank line and the project line; of a text that opens
    with an entry, as the changelog does after the second archival, it
    drops the heading, the blank line and the setup line of that entry; a
    text that does not open with [#] it keeps whole. *)
Theorem update_changelog_keeps (p : list string) (m : GCodeMetadata)
    (v : nat) (now : Z) (a : gmap (list string) (gmap string file)) :
  let text :=
    content <$> listdir (_update_changelog p m v now a) p !! "CHANGELOG.md" in
  match listdir a p !! "CHANGELOG.md" with
  | None => text = Some (changelog_header m +:+ changelog_entry m v)
  | Some f =>
      (∀ m0 rest,
         content f = changelog_header m0 +:+ rest →
         no_line_break (part m0) = true → no_line_break (project m0) = true →
         text = Some (changelog_entry m v +:+ nl +:+ Py.universal_newlines rest))
      ∧ (∀ m0 v0 rest,
           content f = changelog_entry m0 v0 +:+ rest →
           no_line_break (posted_timestamp m0) = true →
           no_line_break (setup m0) = true →
           text = Some (changelog_entry m v
                        +:+ Py.universal_newlines (entry_tail m0 +:+ rest)))
      ∧ (Py.startswith "#" (content f) = false →
         text = Some (changelog_entry m v
                      +:+ Py.universal_newlines (content f)))
  end.
Proof.
  intros text.
  destruct (listdir a p !! "CHANGELOG.md") as [f|] eqn:Hf.
  - assert (text
            = Some (changelog_entry m v +:+ existing_content (listdir a p)))
      as ->.
    { unfold text, _update_changelog. rewrite listdir_write_file, Hf.
      by rewrite lookup_insert_eq. }
    split_and!.
    + intros m0 rest Hc Hp Hq.
      by rewrite (existing_content_after_header _ f m0 rest).
    + intros m0 v0 rest Hc Hp Hq.
      by rewrite (existing_content_after_entry _ f m0 v0 rest).
    + intros Hc. by rewrite (existing_content_other _ f).
  - unfold text, _update_changelog, existing_content.
    rewrite listdir_write_file, Hf, lookup_insert_eq. cbn [fmap option_fmap
      option_map content]. by rewrite append_nil_r.
Qed.

Lemma update_changelog_keeps_witness :
  content <$> listdir
    (_update_changelog ["test-project"; "1001"]
       (with_posted "2025-10-31-0930" test_metadata) 2 200 changelog_one_entry)
    ["test-project"; "1001"] !! "CHANGELOG.md"
  = Some (changelog_entry (with_posted "2025-10-31-0930" test_metadata) 2
          +:+ Py.universal_newlines (entry_tail test_metadata +:+ "")).
Proof.
  pose proof (update_changelog_keeps ["test-project"; "1001"]
    (with_posted "2025-10-31-0930" test_metadata) 2 200 changelog_one_entry)
    as H.
  assert (listdir changelog_one_entry ["test-project"; "1001"]
            !! "CHANGELOG.md"
          = Some {| content := changelog_entry test_metadata 1; mtime := 100 |})
    as Hf by (vm_compute; reflexivity).
  cbv zeta in H. rewrite Hf in H. destruct H as (_ & H & _).
  apply (H test_metadata 1).
  - cbn [content]. by rewrite append_nil_r.
  - vm_compute. reflexivity.
  - vm_compute. reflexivity.
Defined.

(** ** What an archival writes *)

Lemma mkdir_is_Some (p : list string)
    (a : gmap (list string) (gmap string file)) :
  is_Some (mkdir p a !! p).
Proof.
  unfold mkdir. destruct (a !! p) eqn:Hp.
  - by rewrite Hp.
  - by rewrite lookup_insert_eq.
Qed.


(** X13. [get_existing_versions] lists the [*.nc] files of the part
    directory, each once, from the newest modification time to the oldest;
    the first of the list, which [process_file] takes for the previous
    version, is a file no other is newer than.  The call creates the
    directories and changes no file. *)
Theorem get_existing_versions_newest_first (proj prt : string)
    (a : gmap (list string) (gmap string file)) :
  let p := part_dir_of proj prt in
  let a' := (get_existing_versions proj prt a).1 in
  let vs := (get_existing_versions proj prt a).2 in
  (∀ n f, (n, f) ∈ vs ↔ listdir a p !! n = Some f ∧ Py.endswith ".nc" n)
  ∧ NoDup vs.*1
  ∧ StronglySorted (λ x y, (mtime y.2 ≤ mtime x.2)%Z) vs
  ∧ (∀ x y, head vs = Some x → y ∈ vs → (mtime y.2 ≤ mtime x.2)%Z)
  ∧ (∀ q, listdir a' q = listdir a q)
  ∧ is_Some (a' !! p).
Proof.
  intros p a' vs.
  assert (vs = Py.sort_desc (λ e, mtime e.2) (glob_nc (listdir a p))
          ∧ (∀ q, listdir a' q = listdir a q) ∧ is_Some (a' !! p))
    as (Hvs & Hframe & Hdir).
  { unfold vs, a', get_existing_versions, get_part_dir, get_project_dir.
    cbn [fst snd]. fold (part_dir_of proj prt). fold p.
    split_and!.
    - by rewrite !listdir_mkdir.
    - intros q. by rewrite !listdir_mkdir.
    - apply mkdir_is_Some. }
  assert (Hperm : vs ≡ₚ glob_nc (listdir a p)).
  { rewrite Hvs. apply sort_desc_perm. }
  assert (Hsorted : StronglySorted (λ x y, (mtime y.2 ≤ mtime x.2)%Z) vs).
  { rewrite Hvs. apply (sort_desc_sorted (λ e : string * file, mtime e.2)). }
  split_and!; [| |done| |done|done].
  - intros n f. rewrite Hperm. unfold glob_nc.
    rewrite list_elem_of_filter, elem_of_map_to_list. cbn [fst].
    split; intros [? ?]; split; try done; by destruct (Py.endswith ".nc" n).
  - rewrite Hperm. apply NoDup_glob_nc_names.
  - intros x y Hx Hy. destruct vs as [|x' vs']; [done|].
    injection Hx as ->. apply StronglySorted_inv in Hsorted as [_ Hall].
    apply elem_of_cons in Hy as [->|Hy]; [lia|].
    by apply (proj1 (Forall_forall _ _) Hall).
Qed.

(** ** What the sweep leaves alone *)

Section SweepSafety.

Implicit Types (f g : ftp_file) (d fs : list ftp_file) (keep : Z).

Lemma remove_files_sublist fs d c :
  (remove_files fs d c).1 `sublist_of` d.
Proof.
  revert d c. induction fs as [|f fs IH]; intros d c; [done|].
  cbn [remove_files]. unfold unlink.
  destruct (List.find _ d) as [g|]; [|done].
  destruct (unlink_ok g); [|done].
  etrans; [apply IH|apply sublist_filter].
Qed.

Lemma remove_files_keeps fs d c g :
  g ∈ d → name g ∉ name <$> fs → g ∈ (remove_files fs d c).1.
Proof.
  revert d c. induction fs as [|f fs IH]; intros d c Hg Hname; [done|].
  rewrite fmap_cons, not_elem_of_cons in Hname. destruct Hname as [Hf Hfs].
  cbn [remove_files]. unfold unlink.
  destruct (List.find _ d) as [g'|]; [|done].
  destruct (unlink_ok g'); [|done].
  apply IH; [|done]. by apply list_elem_of_filter.
Qed.

Lemma remove_files_count fs d c n :
  (remove_files fs d c).2 = Ok n → n = c + length fs.
Proof.
  revert d c. induction fs as [|f fs IH]; intros d c.
  { cbn. intros [= <-]. lia. }
  cbn [remove_files]. destruct (unlink f d) as [d'|e]; [|done].
  intros ->%IH. cbn [length]. lia.
Qed.

(** What is left of a group, for any count: the sorted group without the
    slice. *)
Lemma kept_of_group_at keep d key i :
  NoDup (name <$> d) →
  Py.slice_from keep (Py.sort_desc st_mtime (group key (ftp_glob_nc d)))
  = drop i (Py.sort_desc st_mtime (group key (ftp_glob_nc d))) →
  group key (ftp_glob_nc (without (stale keep d) d))
  ≡ₚ take i (Py.sort_desc st_mtime (group key (ftp_glob_nc d))).
Proof.
  intros Hnd Hslice. rewrite group_glob_without.
  set (g0 := group key (ftp_glob_nc d)) in *.
  set (sg := Py.sort_desc st_mtime g0) in *.
  assert (Hsg : sg ≡ₚ g0) by apply sort_desc_perm.
  assert (Hin : ∀ f, f ∈ sg → f ∈ d ∧ part_key f = key).
  { intros f Hf. rewrite Hsg in Hf.
    apply list_elem_of_filter in Hf as [Hk Hf].
    by apply list_elem_of_filter in Hf as [_ Hf]. }
  assert (Hsplit : ∀ f, f ∈ sg → f ∈ stale keep d ↔ f ∈ drop i sg).
  { intros f [_ Hf]%Hin. rewrite elem_of_stale, Hf. fold g0. fold sg.
    by rewrite Hslice. }
  assert (Hndsg : NoDup sg).
  { rewrite Hsg. unfold g0, group, ftp_glob_nc.
    apply NoDup_filter, NoDup_filter. by apply NoDup_fmap_1 in Hnd. }
  assert (Hparts : ∀ f, f ∈ sg ↔ f ∈ take i sg ∨ f ∈ drop i sg).
  { intros f. by rewrite <- elem_of_app, take_drop. }
  rewrite <- (take_drop i sg) in Hndsg.
  apply NoDup_app in Hndsg as (_ & Hdisj & _).
  unfold without. rewrite <- Hsg.
  rewrite <- (take_drop i sg) at 1.
  rewrite filter_app, filter_all, filter_none, app_nil_r; [done| |].
  - apply Forall_forall. intros f Hf Hnot. apply Hnot.
    assert (f ∈ sg) as Hfsg by (apply Hparts; by right).
    apply stale_by_name; [done|by apply Hin|]. by apply Hsplit.
  - apply Forall_forall. intros f Hf Hname.
    assert (f ∈ sg) as Hfsg by (apply Hparts; by left).
    apply stale_by_name in Hname; [|done|by apply Hin].
    apply Hsplit in Hname; [|done]. by eapply Hdisj.
Qed.

End SweepSafety.

(** X14. [cleanup_old_ftp_files], whatever the count and whether it returns
    or raises: the directory it leaves has files of the directory it found,
    in their order; a file that does not match [*.nc] is still there; with
    a count that is not negative, so is each of the [keep_count] newest
    files of a part key; a count it returns is the number of stale
    files. *)
Theorem sweep_never_removes (keep_count : Z) (d : list ftp_file) :
  let d' := (cleanup_old_ftp_files keep_count d).1 in
  d' `sublist_of` d
  ∧ (∀ f, f ∈ d → ¬ Py.endswith ".nc" (name f) → f ∈ d')
  ∧ (NoDup (name <$> d) → (0 ≤ keep_count)%Z →
     ∀ f, f ∈ take (Z.to_nat keep_count)
                (Py.sort_desc st_mtime (group (part_key f) (ftp_glob_nc d))) →
          f ∈ d')
  ∧ (∀ n, (cleanup_old_ftp_files keep_count d).2 = Ok n →
          n = length (stale keep_count d)).
Proof.
  intros d'. unfold d'. rewrite cleanup_flat. split_and!.
  - apply remove_files_sublist.
  - intros f Hf Hnc. apply remove_files_keeps; [done|].
    intros (g & Hname & Hg)%list_elem_of_fmap. apply Hnc.
    eapply elem_of_submseteq in Hg; [|apply stale_submseteq].
    apply list_elem_of_filter in Hg as [Hg _]. by rewrite Hname.
  - intros Hnd Hkeep f Hf.
    set (sg := Py.sort_desc st_mtime (group (part_key f) (ftp_glob_nc d))) in *.
    assert (f ∈ sg) as Hsg.
    { rewrite <- (take_drop (Z.to_nat keep_count) sg), elem_of_app. by left. }
    assert (f ∈ d) as Hfd.
    { unfold sg in Hsg. rewrite sort_desc_perm in Hsg.
      apply list_elem_of_filter in Hsg as [_ Hsg].
      by apply list_elem_of_filter in Hsg as [_ Hsg]. }
    assert (NoDup sg) as Hndsg.
    { unfold sg. rewrite sort_desc_perm. unfold group, ftp_glob_nc.
      apply NoDup_filter, NoDup_filter. by apply NoDup_fmap_1 in Hnd. }
    apply remove_files_keeps; [done|].
    rewrite stale_by_name, elem_of_stale by done. fold sg.
    unfold Py.slice_from. rewrite (proj2 (Z.leb_le 0 keep_count) Hkeep).
    rewrite <- (take_drop (Z.to_nat keep_count) sg) in Hndsg.
    apply NoDup_app in Hndsg as (_ & Hdisj & _). by apply Hdisj.
  - intros n Hn. by apply remove_files_count in Hn.
Qed.

Lemma sweep_never_removes_witness :
  ftp "1001_v3_2025-10-30-0900.nc" 3 true
  ∈ (cleanup_old_ftp_files 1 ftp_locked).1.
Proof.
  destruct (sweep_never_removes 1 ftp_locked) as (_ & _ & H & _).
  apply H.
  - apply (bool_decide_unpack _). vm_compute. exact I.
  - lia.
  - vm_compute. left.
Defined.

(** X15. [cleanup_old_ftp_files] with a negative count [-k], which the
    slice [files[keep_count:]] reads from the end: when the stale files can
    be removed, the sweep removes the [k] oldest files of every part key,
    and all the files of a key that has no more than [k]; what it leaves
    of a key are the newest files, [k] fewer than before. *)
Theorem retention_sweep_negative (keep_count : Z) (d : list ftp_file) :
  (keep_count < 0)%Z →
  NoDup (name <$> d) →
  Forall (λ f, unlink_ok f = true) (stale keep_count d) →
  let d' := without (stale keep_count d) d in
  let k := Z.to_nat (- keep_count) in
  cleanup_old_ftp_files keep_count d = (d', Ok (length (stale keep_count d)))
  ∧ (∀ key,
       group key (ftp_glob_nc d')
       ≡ₚ take (length (group key (ftp_glob_nc d)) - k)
            (Py.sort_desc st_mtime (group key (ftp_glob_nc d))))
  ∧ (∀ key,
       length (group key (ftp_glob_nc d'))
       = length (group key (ftp_glob_nc d)) - k).
Proof.
  intros Hkeep Hnd Hok d' k.
  assert (Hkept : ∀ key,
       group key (ftp_glob_nc d')
       ≡ₚ take (length (group key (ftp_glob_nc d)) - k)
            (Py.sort_desc st_mtime (group key (ftp_glob_nc d)))).
  { intros key. apply kept_of_group_at; [done|].
    unfold Py.slice_from. rewrite (proj2 (Z.leb_gt 0 keep_count) Hkeep).
    rewrite sort_desc_length. f_equal. unfold k. lia. }
  split_and!; [|done|].
  - rewrite cleanup_flat, remove_files_all;
      [done|done|by apply stale_NoDup|apply stale_subseteq|done].
  - intros key. rewrite Hkept, length_take, sort_desc_length. lia.
Qed.

Lemma retention_sweep_negative_witness :
  cleanup_old_ftp_files (-1) ftp_five
  = ([ftp "1001_v3_2025-10-30-0900.nc" 30 true;
      ftp "1001_v5_2025-11-01-0900.nc" 50 true;
      ftp "1001_v2_2025-10-29-0900.nc" 20 true;
      ftp "1001_v4_2025-10-31-0900.nc" 40 true], Ok 1).
Proof.
  assert ((-1 < 0)%Z) as H1 by lia.
  assert (NoDup (name <$> ftp_five)) as H2.
  { apply (bool_decide_unpack _). vm_compute. exact I. }
  assert (Forall (λ f, unlink_ok f = true) (stale (-1) ftp_five)) as H3.
  { vm_compute. repeat constructor. }
  destruct (retention_sweep_negative (-1) ftp_five H1 H2 H3) as (H & _).
  exact H.
Defined.

(** ** The part key of a published file *)

Section PublishedKey.

Implicit Types (s t sep : string) (c : ascii).

Lemma before_first_cons sep c s :
  Py.before_first sep (String c s)
  = if String.prefix sep (String c s) then EmptyString
    else String c (Py.before_first sep s).
Proof.
  unfold Py.before_first. cbn [Py.split_once].
  destruct (String.prefix sep (String c s)); [done|].
  by destruct (Py.split_once sep s) as [[a b]|].
Qed.

Lemma before_first_nil sep : Py.before_first sep EmptyString = EmptyString.
Proof.
  unfold Py.before_first. cbn [Py.split_once].
  by destruct (String.prefix sep EmptyString).
Qed.

Lemma before_first_absent sep s :
  Py.contains sep s = false → Py.before_first sep s = s.
Proof.
  induction s as [|c s IH]; [by rewrite before_first_nil|].
  cbn [Py.contains]. intros [Hp Hs]%orb_false_elim.
  by rewrite before_first_cons, Hp, IH.
Qed.

(** The separator [_v] cannot begin on the last character of a text and
    end in a [_v] put after it, so the first [_v] of a text stays the first
    when [_v] and more text follow. *)
Lemma before_first_v_app s t :
  Py.before_first "_v" (s +:+ "_v" +:+ t) = Py.before_first "_v" s.
Proof.
  induction s as [|c s IH].
  - change (EmptyString +:+ "_v" +:+ t) with (String "_" ("v" +:+ t)).
    rewrite before_first_cons, before_first_nil.
    change (String "_" ("v" +:+ t)) with ("_v" +:+ t).
    by rewrite prefix_append.
  - rewrite append_cons, !before_first_cons, IH.
    assert (String.prefix "_v" (String c (s +:+ "_v" +:+ t))
            = String.prefix "_v" (String c s)) as ->; [|done].
    cbn [String.prefix]. destruct (ascii_dec "_" c); [|done].
    destruct s as [|c' s].
    + change (EmptyString +:+ "_v" +:+ t) with (String "_" (String "v" t)).
      reflexivity.
    + rewrite append_cons. cbn [String.prefix].
      destruct (ascii_dec "v" c'); [|done]. by rewrite !prefix_nil.
Qed.

Lemma length_append s t :
  String.length (s +:+ t) = String.length s + String.length t.
Proof.
  induction s as [|c s IH]; [done|].
  rewrite append_cons. cbn [String.length]. by rewrite IH.
Qed.

Lemma stem_cut_nc s : Py.stem_cut (s +:+ ".nc") = Some s.
Proof.
  induction s as [|c s IH]; [done|].
  rewrite append_cons. cbn [Py.stem_cut]. by rewrite IH.
Qed.

(** The stem of a name that ends in [.nc] is the name without it. *)
Lemma stem_nc s : s ≠ EmptyString → Py.stem (s +:+ ".nc") = s.
Proof.
  intros Hs. unfold Py.stem. rewrite stem_cut_nc, length_append.
  destruct s as [|c s]; [done|]. cbn [String.length].
  assert ((0 <? S (String.length s)) = true) as -> by (by apply Nat.ltb_lt; lia).
  assert ((S (String.length s) <? S (String.length s) + 3 - 1) = true) as ->;
    [|done].
  apply Nat.ltb_lt. lia.
Qed.

Lemma version_filename_stem safe v ts :
  Py.stem (version_filename safe v ts)
  = safe +:+ "_v" +:+ (pretty v +:+ "_" +:+ ts).
Proof.
  unfold version_filename.
  assert (safe +:+ "_v" +:+ pretty v +:+ "_" +:+ ts +:+ ".nc"
          = (safe +:+ "_v" +:+ (pretty v +:+ "_" +:+ ts)) +:+ ".nc") as ->.
  { by rewrite !append_assoc. }
  apply stem_nc. by destruct safe.
Qed.

End PublishedKey.

(** X16. [copy_to_ftp] and [cleanup_old_ftp_files]: the sweep files a
    published program under the text of its sanitized part name before the
    first [_v] of that name, whatever the version and the timestamp.  For a
    name without [_v] that is the sanitized name itself; a part whose
    sanitized name continues that of another part with [_v] is filed with
    the other part, so that the retention count is spent on the two
    together. *)
Theorem published_part_key (source_file : file) (m : GCodeMetadata)
    (version : nat) (removable : bool) :
  part_key (copy_to_ftp source_file m version removable)
  = Py.before_first "_v" (_sanitize_filename (part m))
  ∧ (Py.contains "_v" (_sanitize_filename (part m)) = false →
     part_key (copy_to_ftp source_file m version removable)
     = _sanitize_filename (part m))
  ∧ (∀ source_file' m' version' removable' x,
       _sanitize_filename (part m')
       = _sanitize_filename (part m) +:+ "_v" +:+ x →
       part_key (copy_to_ftp source_file' m' version' removable')
       = part_key (copy_to_ftp source_file m version removable)).
Proof.
  assert (∀ source_file m version removable,
    part_key (copy_to_ftp source_file m version removable)
    = Py.before_first "_v" (_sanitize_filename (part m))) as Hkey.
  { intros s0 m0 v0 r0. unfold part_key, copy_to_ftp, ftp_filename.
    cbn [name]. by rewrite version_filename_stem, before_first_v_app. }
  split_and!.
  - apply Hkey.
  - intros Hc. by rewrite Hkey, before_first_absent.
  - intros s' m' v' r' x Hx. by rewrite !Hkey, Hx, before_first_v_app.
Qed.

Lemma published_part_key_witness :
  part_key (copy_to_ftp test_source test_metadata 3 true) = "1001"
  ∧ part_key (copy_to_ftp test_source
      {| project := "p"; part := "1001_v2 rework"; posted_timestamp := "t";
         operations := 0; tool_count := 0; machine := "m"; setup := "s";
         program_number := None |} 1 true)
    = part_key (copy_to_ftp test_source test_metadata 3 true).
Proof.
  destruct (published_part_key test_source test_metadata 3 true)
    as (_ & H2 & H3).
  split.
  - rewrite H2; reflexivity.
  - apply (H3 _ _ _ _ "2_rework"). reflexivity.
Defined.

(** X17. [archive_gcode] then [copy_to_ftp], as [process_file] calls them:
    the copy in the FTP directory has the name of the archived file and the
    modification time of the posted file, which is what the sweep sorts
    by. *)
Theorem published_as_archived (source : file) (m : GCodeMetadata) (now : Z)
    (a : gmap (list string) (gmap string file)) (removable : bool) :
  match archive_gcode source m now a with
  | (a', Ok (part_dir, filename, version)) =>
      ∃ archived,
        listdir a' part_dir !! filename = Some archived
        ∧ copy_to_ftp archived m version removable
          = {| name := filename; st_mtime := mtime source;
               unlink_ok := removable |}
  | (_, Raised _) => True
  end.
Proof.
  destruct (archive_gcode_spec source m now a) as (a1 & _ & Hres).
  cbv zeta in Hres.
  set (p := part_dir_of (project m) (part m)) in *.
  set (v := length (glob_nc (listdir a p)) + 1) in *.
  set (filename := version_filename (_sanitize_filename (part m)) v
                     (posted_timestamp m)) in *.
  destruct (name_error filename) as [e|].
  - by destruct Hres as [-> _].
  - destruct Hres as [-> [log Hp]]. exists source. split; [|done].
    rewrite Hp, lookup_insert_ne, lookup_insert_eq; [done|].
    intros Heq. pose proof (version_filename_nc (_sanitize_filename (part m))
      v (posted_timestamp m)) as Hnc.
    fold filename in Hnc. rewrite <- Heq in Hnc. by vm_compute in Hnc.
Qed.

(** ** Timestamps *)

Section Timestamps.

Import Py.

Implicit Types (s r : string) (n : nat).

Lemma m_bind_head {A B} (m : matcher A) (k : A → matcher B) s x r y r' o :
  m s = (x, r) :: o → (∃ o', k x r = (y, r') :: o') →
  ∃ o'', m_bind m k s = (y, r') :: o''.
Proof.
  intros Hm [o' Hk]. unfold m_bind. rewrite Hm. cbn [flat_map]. rewrite Hk.
  by eexists.
Qed.

Lemma two_digits n r :
  n < 100 → m_two m_digit m_digit (pad2 n +:+ r) = [(n, r)].
Proof.
  intros Hn.
  do 100 (destruct n as [|n]; [reflexivity|]). lia.
Qed.

Lemma pad4_pad2 n :
  n < 100 * 100 → pad4 n = pad2 (n / 100) +:+ pad2 (n mod 100).
Proof.
  intros Hn.
  assert (forallb (λ n, String.eqb (pad4 n)
            (pad2 (n / 100) +:+ pad2 (n mod 100))) (seq 0 (100 * 100)) = true)
    as Hall by (vm_compute; reflexivity).
  rewrite forallb_forall in Hall.
  apply String.eqb_eq, Hall, in_seq. lia.
Qed.

Lemma year_digits n r :
  n < 100 * 100 → m_year (pad4 n +:+ r) = [(n, r)].
Proof.
  intros Hn. rewrite pad4_pad2, append_assoc by done. unfold m_year, m_bind.
  rewrite two_digits by (apply Nat.Div0.div_lt_upper_bound; lia).
  cbn [flat_map]. rewrite two_digits by (apply Nat.mod_upper_bound; lia).
  cbn [flat_map app m_ret]. do 3 f_equal.
  rewrite (Nat.div_mod_eq n 100) at 3. lia.
Qed.

Lemma month_digits n r :
  1 ≤ n ≤ 12 → ∃ o, m_month (pad2 n +:+ r) = (n, r) :: o.
Proof.
  intros Hn. destruct n as [|n]; [lia|].
  do 12 (destruct n as [|n]; [by eexists|]). lia.
Qed.

Lemma day_digits n r :
  1 ≤ n ≤ 31 → ∃ o, m_day (pad2 n +:+ r) = (n, r) :: o.
Proof.
  intros Hn. destruct n as [|n]; [lia|].
  do 31 (destruct n as [|n]; [by eexists|]). lia.
Qed.

Lemma hour_digits n r :
  n < 24 → ∃ o, m_hour (pad2 n +:+ r) = (n, r) :: o.
Proof.
  intros Hn. do 24 (destruct n as [|n]; [by eexists|]). lia.
Qed.

Lemma minute_digits n r :
  n < 60 → ∃ o, m_minute (pad2 n +:+ r) = (n, r) :: o.
Proof.
  intros Hn. do 60 (destruct n as [|n]; [by eexists|]). lia.
Qed.

Lemma days_in_month_le y m : days_in_month y m ≤ 31.
Proof.
  unfold days_in_month.
  do 12 (destruct m as [|m]; [try lia; by destruct (is_leap y); lia|]). lia.
Qed.

(** The format reads its own timestamps back. *)
Lemma strptime_timestamp_text (d : datetime) :
  valid_datetime d → strptime (timestamp_text d) = Some d.
Proof.
  intros (Hy & Hm & Hd & Hh & Hmi).
  pose proof (days_in_month_le (dt_year d) (dt_month d)) as Hdim.
  unfold strptime, timestamp_text.
  assert (∃ o, m_format (pad4 (dt_year d) +:+ "-" +:+ pad2 (dt_month d)
                 +:+ "-" +:+ pad2 (dt_day d) +:+ "-" +:+ pad2 (dt_hour d)
                 +:+ pad2 (dt_minute d))
               = (d, EmptyString) :: o) as [o ->].
  { unfold m_format.
    eapply m_bind_head; [apply year_digits; lia|].
    eapply m_bind_head; [reflexivity|].
    destruct (month_digits (dt_month d)
      ("-" +:+ pad2 (dt_day d) +:+ "-" +:+ pad2 (dt_hour d)
       +:+ pad2 (dt_minute d)) Hm) as [o1 H1].
    eapply m_bind_head; [exact H1|].
    eapply m_bind_head; [reflexivity|].
    destruct (day_digits (dt_day d)
      ("-" +:+ pad2 (dt_hour d) +:+ pad2 (dt_minute d))) as [o2 H2]; [lia|].
    eapply m_bind_head; [exact H2|].
    eapply m_bind_head; [reflexivity|].
    destruct (hour_digits (dt_hour d) (pad2 (dt_minute d)) Hh) as [o3 H3].
    eapply m_bind_head; [exact H3|].
    destruct (minute_digits (dt_minute d) EmptyString Hmi) as [o4 H4].
    rewrite append_nil_r in H4.
    eapply m_bind_head; [exact H4|].
    destruct d. by eexists. }
  assert ((1 <=? dt_year d) = true) as -> by (apply Nat.leb_le; lia).
  assert ((dt_day d <=? days_in_month (dt_year d) (dt_month d)) = true) as ->
    by (apply Nat.leb_le; lia).
  done.
Qed.

End Timestamps.

(** X18. [posted_datetime]: a timestamp written as [YYYY-MM-DD-HHMM], with
    four digits for the year and two for each other field, for a date of
    the calendar, is read as that date and time; the changelog then shows
    it as [YYYY-MM-DD HH:MM:00]. *)
Theorem posted_datetime_timestamp (m : GCodeMetadata) (d : Py.datetime) :
  valid_datetime d →
  posted_timestamp m = timestamp_text d →
  posted_datetime m = Some d
  ∧ posted_text m = Py.str_datetime d.
Proof.
  intros Hd Hts. unfold posted_text, posted_datetime. rewrite Hts.
  by rewrite strptime_timestamp_text.
Qed.

Lemma posted_datetime_timestamp_witness :
  posted_datetime test_metadata
  = Some {| Py.dt_year := 2025; Py.dt_month := 10; Py.dt_day := 30;
            Py.dt_hour := 14; Py.dt_minute := 45 |}
  ∧ posted_text test_metadata = "2025-10-30 14:45:00".
Proof.
  apply (posted_datetime_timestamp test_metadata
    {| Py.dt_year := 2025; Py.dt_month := 10; Py.dt_day := 30;
       Py.dt_hour := 14; Py.dt_minute := 45 |}).
  - unfold valid_datetime. cbn. lia.
  - reflexivity.
Defined.

(** ** White space around the lines *)

Section Stripped.

Implicit Types (s t : string) (c : ascii) (p : ascii → bool)
  (st : scan_state) (lines : list string).

(** The loop looks at a line only once stripped. *)
Lemma scan_stripped lines lines' st :
  Py.strip <$> lines = Py.strip <$> lines' → scan lines st = scan lines' st.
Proof.
  revert lines' st. induction lines as [|l lines IH]; intros [|l' lines'] st;
    try done.
  rewrite !fmap_cons. intros [= Hl Hrest]. cbn [scan]. rewrite Hl.
  destruct (Py.contains METADATA_START (Py.strip l')); [by apply IH|].
  destruct (Py.contains METADATA_END (Py.strip l')); [done|].
  destruct (in_metadata _); by apply IH.
Qed.

Lemma rstrip_app_space p s c :
  p c = true →
  Py.rstrip_by p (s +:+ String c EmptyString) = Py.rstrip_by p s.
Proof.
  intros Hc. induction s as [|x s IH].
  - change (EmptyString +:+ String c EmptyString) with (String c EmptyString).
    cbn [Py.rstrip_by]. by rewrite Hc.
  - rewrite append_cons. cbn [Py.rstrip_by]. by rewrite IH.
Qed.

Lemma lstrip_app p s t :
  Py.lstrip_by p (s +:+ t)
  = if sall p s then Py.lstrip_by p t else Py.lstrip_by p s +:+ t.
Proof.
  induction s as [|x s IH]; [done|].
  rewrite append_cons. cbn [Py.lstrip_by sall].
  destruct (p x); [apply IH|done].
Qed.

Lemma strip_app_space p s c :
  p c = true →
  Py.strip_by p (s +:+ String c EmptyString) = Py.strip_by p s.
Proof.
  intros Hc. unfold Py.strip_by. rewrite lstrip_app.
  destruct (sall p s) eqn:Hs.
  - cbn [Py.lstrip_by]. rewrite Hc. cbn [Py.lstrip_by Py.rstrip_by].
    symmetry. apply rstrip_nil_iff. by apply sall_lstrip.
  - by apply rstrip_app_space.
Qed.

(** The lines of a text with Windows line ends are the lines of the text,
    each but the last with a carriage return at its end. *)
Lemma split_char_crlf s :
  Forall2 (λ l' l, l' = l ∨ l' = l +:+ String "013" EmptyString)
    (Py.split_char "010" (crlf s)) (Py.split_char "010" s).
Proof.
  induction s as [|c s IH]; [by repeat constructor|].
  cbn [crlf Py.split_char]. destruct (Ascii.eqb c "010") eqn:Hc.
  - cbn [Py.split_char].
    change (Ascii.eqb "013" "010") with false.
    change (Ascii.eqb "010" "010") with true. cbn match.
    constructor; [by right|done].
  - cbn [Py.split_char]. rewrite Hc.
    destruct IH as [|l' l ls' ls Hl Hls]; [by repeat constructor|].
    constructor; [|done].
    destruct Hl as [->| ->]; [by left|right]. by rewrite append_cons.
Qed.

End Stripped.

(** X19. [parse_content] looks at every line once stripped: two texts whose
    lines are equal up to the white space around them give the same
    result.  So a text with Windows line ends is read as the text with
    line feeds alone. *)
Theorem parse_content_stripped (content content' : string) :
  (Py.strip <$> Py.split_char "010" content
   = Py.strip <$> Py.split_char "010" content' →
   parse_content content = parse_content content')
  ∧ parse_content (crlf content) = parse_content content.
Proof.
  assert (∀ s s', Py.strip <$> Py.split_char "010" s
                  = Py.strip <$> Py.split_char "010" s' →
                  parse_content s = parse_content s') as Hstrip.
  { intros s s' Hlines. unfold parse_content, scan_content.
    by rewrite (scan_stripped _ _ _ Hlines). }
  split; [apply Hstrip|]. apply Hstrip.
  induction (split_char_crlf content) as [|l' l ls' ls Hl _ IH]; [done|].
  rewrite !fmap_cons, IH. f_equal.
  destruct Hl as [->| ->]; [done|]. by apply strip_app_space.
Qed.

Lemma parse_content_stripped_witness :
  parse_content "  (CHIP-WARDEN-START)
	(PROJECT: A)
 (PART: 1) 
(POSTED: 2025-10-30-1445)
(CHIP-WARDEN-END)"
  = parse_content "(CHIP-WARDEN-START)
(PROJECT: A)
(PART: 1)
(POSTED: 2025-10-30-1445)
(CHIP-WARDEN-END)".
Proof.
  destruct (parse_content_stripped "  (CHIP-WARDEN-START)
	(PROJECT: A)
 (PART: 1) 
(POSTED: 2025-10-30-1445)
(CHIP-WARDEN-END)" "(CHIP-WARDEN-START)
(PROJECT: A)
(PART: 1)
(POSTED: 2025-10-30-1445)
(CHIP-WARDEN-END)") as [H _].
  apply H. vm_compute. reflexivity.
Defined.

(** ** The files the watcher takes *)

Section Watcher.

Implicit Types (s t e ext name : string) (c : ascii).

Lemma stem_cut_no_dot e :
  sall (λ c, negb (Ascii.eqb c ".")) e = true → Py.stem_cut e = None.
Proof.
  induction e as [|c e IH]; [done|]. cbn [sall Py.stem_cut].
  intros [Hc He]%andb_prop. apply negb_true_iff in Hc.
  by rewrite (IH He), Hc.
Qed.

Lemma stem_cut_app s e :
  sall (λ c, negb (Ascii.eqb c ".")) e = true →
  Py.stem_cut (s +:+ String "." e) = Some s.
Proof.
  intros He. induction s as [|c s IH].
  - change (EmptyString +:+ String "." e) with (String "." e).
    cbn [Py.stem_cut]. by rewrite stem_cut_no_dot.
  - rewrite append_cons. cbn [Py.stem_cut]. by rewrite IH.
Qed.

Lemma stem_cut_prefix name t :
  Py.stem_cut name = Some t →
  name = t +:+ Py.sdrop (String.length t) name.
Proof.
  revert t. induction name as [|c name IH]; intros t; [done|].
  cbn [Py.stem_cut]. destruct (Py.stem_cut name) as [t'|].
  - intros [= <-]. cbn [String.length Py.sdrop].
    by rewrite append_cons, <- IH.
  - destruct (Ascii.eqb c "."); [|done]. by intros [= <-].
Qed.

Lemma sdrop_app s t : Py.sdrop (String.length s) (s +:+ t) = t.
Proof. induction s as [|c s IH]; [done|]. by rewrite append_cons. Qed.

Lemma path_suffix_app s e :
  s ≠ EmptyString → e ≠ EmptyString →
  sall (λ c, negb (Ascii.eqb c ".")) e = true →
  path_suffix (s +:+ String "." e) = String "." e.
Proof.
  intros Hs He Hdot. unfold path_suffix.
  rewrite stem_cut_app, length_append, sdrop_app by done.
  destruct s as [|c s]; [done|]. destruct e as [|c' e]; [done|].
  cbn [String.length].
  assert ((0 <? S (String.length s)) = true) as -> by (apply Nat.ltb_lt; lia).
  assert ((S (String.length s)
           <? S (String.length s) + S (S (String.length e)) - 1) = true)
    as ->; [|done].
  apply Nat.ltb_lt. lia.
Qed.

Lemma lower_char_dot c : Py.lower_char c = "."%char → c = "."%char.
Proof. by destruct c as [[] [] [] [] [] [] [] []]. Qed.

Lemma lower_char_not_dot c x :
  Py.lower_char c = x → x ≠ "."%char → negb (Ascii.eqb c ".") = true.
Proof.
  intros Hc Hx. apply negb_true_iff, Ascii.eqb_neq. intros ->.
  by vm_compute in Hc.
Qed.

(** A text that lower-cases to [.nc] or [.gcode] is a dot and letters. *)
Lemma lower_extension ext :
  Py.lower ext = ".nc" ∨ Py.lower ext = ".gcode" →
  ∃ e, ext = String "." e ∧ e ≠ EmptyString
       ∧ sall (λ c, negb (Ascii.eqb c ".")) e = true.
Proof.
  unfold Py.lower. intros [Hext|Hext].
  - destruct ext as [|c0 [|c1 [|c2 [|c3 ext]]]]; try done.
    cbn [Py.smap] in Hext. injection Hext as H0 H1 H2.
    apply lower_char_dot in H0 as ->. eexists. split_and!; [done..|].
    cbn [sall]. by rewrite (lower_char_not_dot _ _ H1),
      (lower_char_not_dot _ _ H2).
  - destruct ext as [|c0 [|c1 [|c2 [|c3 [|c4 [|c5 [|c6 ext]]]]]]]; try done.
    cbn [Py.smap] in Hext. injection Hext as H0 H1 H2 H3 H4 H5.
    apply lower_char_dot in H0 as ->. eexists. split_and!; [done..|].
    cbn [sall]. by rewrite (lower_char_not_dot _ _ H1),
      (lower_char_not_dot _ _ H2), (lower_char_not_dot _ _ H3),
      (lower_char_not_dot _ _ H4), (lower_char_not_dot _ _ H5).
Qed.

End Watcher.

(** X20. [on_created] goes on to [process_file] exactly for an event that
    is not for a directory, whose file has not been processed, and whose
    name is a text that is not empty followed by an extension that is
    [.nc] or [.gcode] in any mix of upper and lower case.  A file named
    [.nc] alone is passed over. *)
Theorem on_created_filter (is_directory : bool) (name : string)
    (processed_files : gset string) :
  on_created is_directory name processed_files = true
  ↔ is_directory = false ∧ (name ∉ processed_files)
    ∧ (∃ s ext, s ≠ EmptyString ∧ name = s +:+ ext
                ∧ (Py.lower ext = ".nc" ∨ Py.lower ext = ".gcode")).
Proof.
  unfold on_created.
  rewrite !andb_true_iff, negb_true_iff, !bool_decide_eq_true.
  rewrite !elem_of_cons, elem_of_nil.
  split.
  - intros [[Hdir Hsuffix] Hnew]. split_and!; [done..|].
    assert (path_suffix name ≠ EmptyString) as Hne.
    { intros Heq. rewrite Heq in Hsuffix. by destruct Hsuffix as [|[|]]. }
    unfold path_suffix in Hsuffix, Hne.
    destruct (Py.stem_cut name) as [t|] eqn:Ht; [|done].
    destruct (0 <? String.length t) eqn:Hlen; [|done].
    destruct (String.length t <? String.length name - 1); [|done].
    cbn [andb] in Hsuffix.
    exists t, (Py.sdrop (String.length t) name). split_and!.
    + by destruct t.
    + by apply stem_cut_prefix.
    + destruct Hsuffix as [?|[?|[]]]; auto.
  - intros (Hdir & Hnew & s & ext & Hs & -> & Hext). split_and!; [done| |done].
    destruct (lower_extension ext Hext) as (e & -> & He & Hdot).
    rewrite path_suffix_app by done. destruct Hext; auto.
Qed.

(** ** Version numbers of a directory *)

Section Numbering.

Implicit Types (a : gmap (list string) (gmap string file))
  (m : GCodeMetadata) (ms : list GCodeMetadata) (k : list string)
  (calls : list (file * GCodeMetadata * Z)).









End Numbering.




(** ** Retention by part key *)

(** C5.  The sweep files a program under the text of its name before the
    first [_v], and a program whose name has no [_v] under its name without
    the [.nc].  With a retention count that is not negative and stale files
    that can all be removed, the sweep removes the stale files and returns
    their number.  What it leaves of the files of a part key are the first
    [keep_count] of them in the order of modification time, newest first:
    a file it leaves is at least as new as any file of the same key it
    removes.  Files that do not match [*.nc] stay.  A second sweep removes
    nothing and returns 0.  Of five files of one key, with two kept, three
    are removed. *)
Theorem retention_sweep (keep_count : Z) (d : list ftp_file) :
  (0 ≤ keep_count)%Z →
  NoDup (name <$> d) →
  Forall (λ f, unlink_ok f = true) (stale keep_count d) →
  let d' := without (stale keep_count d) d in
  (∀ f a b, name f = a +:+ "_v" +:+ b +:+ ".nc" →
            Py.contains "_v" a = false → part_key f = a)
  ∧ (∀ f s, name f = s +:+ ".nc" → s ≠ EmptyString →
            Py.contains "_v" s = false → part_key f = s)
  ∧ cleanup_old_ftp_files keep_count d = (d', Ok (length d - length d'))
  ∧ (∀ f, f ∈ d' → f ∈ d)
  ∧ (∀ f, f ∈ d → ¬ Py.endswith ".nc" (name f) → f ∈ d')
  ∧ (∀ key, group key (ftp_glob_nc d')
            ≡ₚ take (Z.to_nat keep_count)
                 (Py.sort_desc st_mtime (group key (ftp_glob_nc d))))
  ∧ (∀ f g, f ∈ ftp_glob_nc d' → g ∈ ftp_glob_nc d → g ∉ d' →
            part_key g = part_key f → (st_mtime g ≤ st_mtime f)%Z)
  ∧ cleanup_old_ftp_files keep_count d' = (d', Ok 0)
  ∧ (∀ key, keep_count = 2%Z → length d = 5 →
            group key (ftp_glob_nc d) = d →
            cleanup_old_ftp_files keep_count d = (d', Ok 3)
            ∧ length d' = 2).
Proof.
  intros Hkeep Hnd Hok d'.
  assert (Hsweep : cleanup_old_ftp_files keep_count d
                   = (d', Ok (length d - length d'))).
  { rewrite cleanup_flat, remove_files_all;
      [|done|by apply stale_NoDup|apply stale_subseteq|done].
    pose proof (without_stale_perm keep_count d Hnd) as Hperm.
    apply Permutation_length in Hperm. rewrite length_app in Hperm.
    fold d' in Hperm. f_equal. f_equal. lia. }
  assert (Hkept : ∀ key, group key (ftp_glob_nc d')
            ≡ₚ take (Z.to_nat keep_count)
                 (Py.sort_desc st_mtime (group key (ftp_glob_nc d))))
    by (intros key; by apply kept_of_group).
  split_and!.
  - intros f a b Hname Ha. unfold part_key. rewrite Hname.
    assert (a +:+ "_v" +:+ b +:+ ".nc" = (a +:+ "_v" +:+ b) +:+ ".nc") as ->
      by (by rewrite !append_assoc).
    rewrite stem_nc by (by destruct a).
    by rewrite before_first_v_app, before_first_absent.
  - intros f s Hname Hs Hv. unfold part_key.
    by rewrite Hname, stem_nc, before_first_absent.
  - done.
  - by intros f [? _]%elem_of_without.
  - intros f Hf Hnc. apply elem_of_without. split; [done|].
    rewrite stale_by_name by done. intros Hs.
    eapply elem_of_submseteq in Hs; [|apply stale_submseteq].
    by apply list_elem_of_filter in Hs as [? _].
  - done.
  - intros f g Hf Hg Hgone Hkey.
    set (sg := Py.sort_desc st_mtime (group (part_key f) (ftp_glob_nc d))).
    assert (f ∈ take (Z.to_nat keep_count) sg) as Hft.
    { unfold sg. rewrite <- Hkept. by apply list_elem_of_filter. }
    assert (g ∈ sg) as Hgs.
    { unfold sg. rewrite sort_desc_perm. by apply list_elem_of_filter. }
    rewrite <- (take_drop (Z.to_nat keep_count) sg) in Hgs.
    apply elem_of_app in Hgs as [Hgt|Hgd].
    + destruct Hgone. unfold sg in Hgt. rewrite <- Hkept in Hgt.
      apply list_elem_of_filter in Hgt as [_ Hgt].
      by apply list_elem_of_filter in Hgt as [_ Hgt].
    + pose proof (sort_desc_sorted st_mtime
                    (group (part_key f) (ftp_glob_nc d))) as Hsorted.
      fold sg in Hsorted.
      rewrite <- (take_drop (Z.to_nat keep_count) sg) in Hsorted.
      by apply (StronglySorted_app_1_elem_of _ _ _ f g) in Hsorted.
  - unfold d'. by rewrite cleanup_flat, stale_after_sweep.
  - intros key -> Hlen Hgroup.
    assert (Hd' : length d' = 2).
    { assert (d' = group key (ftp_glob_nc d')) as ->.
      { unfold d'. by rewrite group_glob_without, Hgroup. }
      rewrite Hkept, Hgroup, length_take, sort_desc_length, Hlen. done. }
    split; [|done]. by rewrite Hsweep, Hlen, Hd'.
Qed.

Lemma retention_sweep_witness :
  (cleanup_old_ftp_files 2 ftp_five
   = ([ftp "1001_v5_2025-11-01-0900.nc" 50 true;
       ftp "1001_v4_2025-10-31-0900.nc" 40 true], Ok 3)
   ∧ cleanup_old_ftp_files 2
       [ftp "1001_v5_2025-11-01-0900.nc" 50 true;
        ftp "1001_v4_2025-10-31-0900.nc" 40 true]
     = ([ftp "1001_v5_2025-11-01-0900.nc" 50 true;
         ftp "1001_v4_2025-10-31-0900.nc" 40 true], Ok 0))
  ∧ (cleanup_old_ftp_files 2 ftp_two_parts
     = ([ftp "2002_v1_2025-10-28-1000.nc" 11 true;
         ftp "1001_v2_2025-10-29-0900.nc" 20 true;
         ftp "README.txt" 1 true;
         ftp "2002_v2_2025-10-29-1000.nc" 21 true;
         ftp "1001_v3_2025-10-30-0900.nc" 30 true], Ok 1)
     ∧ part_key (ftp "1001_v1_2025-10-28-0900.nc" 10 true) = "1001"
     ∧ part_key (ftp "2002_v1_2025-10-28-1000.nc" 11 true) = "2002").
Proof.
  assert (H0 : (0 ≤ 2)%Z) by lia.
  assert (H1 : NoDup (name <$> ftp_five))
    by (apply (bool_decide_unpack _); vm_compute; exact I).
  assert (H2 : Forall (λ f, unlink_ok f = true) (stale 2 ftp_five))
    by (vm_compute; repeat constructor).
  assert (H3 : NoDup (name <$> ftp_two_parts))
    by (apply (bool_decide_unpack _); vm_compute; exact I).
  assert (H4 : Forall (λ f, unlink_ok f = true) (stale 2 ftp_two_parts))
    by (vm_compute; repeat constructor).
  destruct (retention_sweep 2 ftp_five H0 H1 H2)
    as (_ & _ & Hs & _ & _ & _ & _ & Hi & _).
  destruct (retention_sweep 2 ftp_two_parts H0 H3 H4)
    as (Hkey & _ & Hs2 & _).
  split; [split; [exact Hs | exact Hi]|]. split_and!.
  - exact Hs2.
  - apply (Hkey _ "1001" "1_2025-10-28-0900"); reflexivity.
  - apply (Hkey _ "2002" "1_2025-10-28-1000"); reflexivity.
Defined.
